(** * DMMShield OLED demo: the command interpreter of [dmmcmd.c]

    A shallow embedding of [sdk/DMMShieldOLEDDemo/src/dmmcmd.c] and of the
    poll loop of [main.c].  The module reads a line from the UART, decodes
    its first token against [uartCommands], runs the matching handler and
    then services the repeated measurement session.

    The file-scope variables of [dmmcmd.c] are the fields of [State]; the
    functions are computations in a state monad [M] whose second outcome,
    [Undef], stands for C undefined behaviour (a null pointer handed to
    [strcmp], a read outside [rgScales], [strtok] continued without a
    string).  Everything the module calls but does not define (the DMM,
    CALIB, ERRORS, SERIALNO and UART libraries, and the few libc
    conversions) is a field of the class [Collaborators]; every call that
    acts on the outside is also appended to [trace], so that the order of
    the calls can be stated.

    Character buffers are modelled by the C string they hold (the
    characters before the terminating NUL); buffer capacities
    ([szMsg[200]], [szVal[20]], the receive buffer) are not modelled. *)

From Stdlib Require Import ZArith String Ascii List Bool Lia DecimalString.
Import ListNotations.
Local Open Scope string_scope.
Local Open Scope Z_scope.

(** ** The libc functions the module uses *)

Module CLib.

Definition NUL : ascii := "000"%char.
Definition CRLF : string := String "013"%char (String "010"%char EmptyString).
Definition DQUOTE : string := String "034"%char EmptyString.

(** The C string stored in a buffer: the characters before the first NUL. *)
Fixpoint c_str (buf : string) : string :=
  match buf with
  | EmptyString => EmptyString
  | String c rest => if Ascii.eqb c NUL then EmptyString else String c (c_str rest)
  end.

(** [strchr(delim, c) != NULL] for a character [c] other than NUL. *)
Fixpoint is_delim (delim : string) (c : ascii) : bool :=
  match delim with
  | EmptyString => false
  | String d rest => Ascii.eqb c d || is_delim rest c
  end.

(** [s + strspn(s, delim)]. *)
Fixpoint skip_delims (delim s : string) : string :=
  match s with
  | EmptyString => EmptyString
  | String c rest => if is_delim delim c then skip_delims delim rest else s
  end.

(** The token at the head of [s] (up to [strcspn(s, delim)]) and the place
    where the next scan starts: just after the delimiter that ended the
    token, which [strtok] overwrites with NUL, or the end of the string. *)
Fixpoint split_token (delim s : string) : string * string :=
  match s with
  | EmptyString => (EmptyString, EmptyString)
  | String c rest =>
      if is_delim delim c then (EmptyString, rest)
      else let (tok, next) := split_token delim rest in (String c tok, next)
  end.

(** One [strtok] scan from position [s]: the token found, if any, and the
    saved position for the next call. *)
Definition strtok_scan (delim s : string) : option string * string :=
  match skip_delims delim s with
  | EmptyString => (None, EmptyString)
  | String c rest =>
      let (tok, next) := split_token delim (String c rest) in (Some tok, next)
  end.

(** [strlen] as a [size_t]. *)
Definition strlen (s : string) : Z := Z.of_nat (String.length s).

(** [!strcmp(a, b)]. *)
Definition streq (a b : string) : bool := String.eqb a b.

(** The conversion [%d] of [sprintf]. *)
Definition sprintf_d (n : Z) : string := NilZero.string_of_int (Z.to_int n).

(** Assignment to a [uint8_t]. *)
Definition to_u8 (n : Z) : Z := n mod 256.

(** Arithmetic in [size_t], 32 bits wide on the Zynq's ARM cores. *)
Definition to_size_t (n : Z) : Z := n mod 2 ^ 32.

(** [EOF], the value [sscanf] returns when the input ends before the
    first conversion. *)
Definition EOF : Z := -1.

End CLib.
Import CLib.

(** ** Types of [dmmcmd.h] *)

Inductive cmd_key_t : Set :=
  | CMD_NONE
  | INVALID
  | CMD_Config
  | CMD_CalibP
  | CMD_CalibN
  | CMD_CalibZ
  | CMD_MeasureRep
  | CMD_MeasureStop
  | CMD_MeasureRaw
  | CMD_MeasureAvg
  | CMD_SaveEPROM
  | CMD_VerifyEPROM
  | CMD_ExportCalib
  | CMD_ImportCalib
  | CMD_MeasureForCalibP
  | CMD_MeasureForCalibN
  | CMD_FinalizeCalibP
  | CMD_FinalizeCalibN
  | CMD_RestoreFactCalibs
  | CMD_ReadSerialNo.

(** The enumerator values: [CMD_NONE = -1], [INVALID = 0], then 1 to 18. *)
Definition cmd_key_value (k : cmd_key_t) : Z :=
  match k with
  | CMD_NONE => -1
  | INVALID => 0
  | CMD_Config => 1
  | CMD_CalibP => 2
  | CMD_CalibN => 3
  | CMD_CalibZ => 4
  | CMD_MeasureRep => 5
  | CMD_MeasureStop => 6
  | CMD_MeasureRaw => 7
  | CMD_MeasureAvg => 8
  | CMD_SaveEPROM => 9
  | CMD_VerifyEPROM => 10
  | CMD_ExportCalib => 11
  | CMD_ImportCalib => 12
  | CMD_MeasureForCalibP => 13
  | CMD_MeasureForCalibN => 14
  | CMD_FinalizeCalibP => 15
  | CMD_FinalizeCalibN => 16
  | CMD_RestoreFactCalibs => 17
  | CMD_ReadSerialNo => 18
  end.

(** [cmd_map_t]: a command string and its key. *)
Record cmd_map_t : Set := mk_cmd { pchCmd : string; eCmd : cmd_key_t }.

(** ** Global constants of [dmmcmd.c] *)

Definition uartCommands : list cmd_map_t :=
  [ mk_cmd "DMMConfig" CMD_Config;
    mk_cmd "DMMCalibP" CMD_CalibP;
    mk_cmd "DMMCalibN" CMD_CalibN;
    mk_cmd "DMMCalibZ" CMD_CalibZ;
    mk_cmd "DMMMeasureRep" CMD_MeasureRep;
    mk_cmd "DMMMeasureStop" CMD_MeasureStop;
    mk_cmd "DMMMeasureRaw" CMD_MeasureRaw;
    mk_cmd "DMMMeasureAvg" CMD_MeasureAvg;
    mk_cmd "DMMSaveEPROM" CMD_SaveEPROM;
    mk_cmd "DMMVerifyEPROM" CMD_VerifyEPROM;
    mk_cmd "DMMExportCalib" CMD_ExportCalib;
    mk_cmd "DMMImportCalib" CMD_ImportCalib;
    mk_cmd "DMMMeasureForCalibP" CMD_MeasureForCalibP;
    mk_cmd "DMMMeasureForCalibN" CMD_MeasureForCalibN;
    mk_cmd "DMMFinalizeCalibP" CMD_FinalizeCalibP;
    mk_cmd "DMMFinalizeCalibN" CMD_FinalizeCalibN;
    mk_cmd "DMMRestoreFactCalibs" CMD_RestoreFactCalibs;
    mk_cmd "DMMReadSerialNo" CMD_ReadSerialNo ].

Definition rgScales : list string :=
  [ "Resistance50M"; "Resistance5M"; "Resistance500k"; "Resistance50k";
    "Resistance5k"; "Resistance500"; "Resistance50";
    "VoltageDC50"; "VoltageDC5"; "VoltageDC500m"; "VoltageDC50m";
    "VoltageAC30"; "VoltageAC5"; "VoltageAC500m"; "VoltageAC50m";
    "CurrentDC5"; "CurrentAC5";
    "Continuity"; "Diode";
    "CurrentDC500m"; "CurrentDC50m"; "CurrentDC5m"; "CurrentDC500u";
    "CurrentAC500m"; "CurrentAC50m"; "CurrentAC5m"; "CurrentAC500u" ].

(** ** Error codes of [errors.h]

    [errors.h] is not among the sources; the values are those the doc
    comments of [dmmcmd.c] list next to each name. *)

Definition ERRVAL_SUCCESS : Z := 0.
Definition ERRVAL_EPROM_WRTIMEOUT : Z := 255.   (* 0xFF *)
Definition ERRVAL_CMD_WRONGPARAMS : Z := 249.   (* 0xF9 *)
Definition ERRVAL_DMM_GENERICERROR : Z := 239.  (* 0xEF *)

(** ** The outside of the module *)

(** What the collaborators act on: the last-error buffer of the ERRORS
    library, which [dmmcmd.c] reaches through [pszLastErr], and the rest
    (instrument, calibration tables, EPROM, serial line). *)
Record Ext (W : Type) : Type := mk_ext { LastErr : string; dev : W }.
Arguments mk_ext {W} _ _.
Arguments LastErr {W} _.
Arguments dev {W} _.

(** C leaves the order in which the arguments of a call are evaluated to the
    compiler.  [Order i j k]: the expression of argument [i] is evaluated
    first, then that of argument [j], then that of argument [k]. *)
Inductive eval_order : Set :=
  | Order012 | Order021 | Order102 | Order120 | Order201 | Order210.

(** The values of arguments 0, 1 and 2 when the three evaluations yield
    [t1], [t2], [t3] in this order. *)
Definition place {A : Type} (o : eval_order) (t1 t2 t3 : A) : A * A * A :=
  match o with
  | Order012 => (t1, t2, t3)
  | Order021 => (t1, t3, t2)
  | Order102 => (t2, t1, t3)
  | Order120 => (t3, t1, t2)
  | Order201 => (t2, t3, t1)
  | Order210 => (t3, t2, t1)
  end.

(** The functions, types and constants [dmmcmd.c] takes from the headers it
    includes.  A function with an output parameter returns the final content
    of that parameter next to its C return value; where the C function is
    given a variable that already holds a value, it receives that value. *)
Class Collaborators : Type := {
  World : Type;
  double : Type;
  float : Type;

  (* the C implementation *)
  arg_order : eval_order;
  indet_int : Z;                 (* content of an uninitialised [int] *)
  indet_float : float;           (* content of an uninitialised [float] *)
  indet_double : double;         (* content of an uninitialised [double] *)
  sscanf_d : string -> Z * option Z;        (* sscanf(s, "%d", &i) *)
  sscanf_f : string -> Z * option float;    (* sscanf(s, "%f", &f) *)
  sprintf_2f : double -> string;            (* conversion %.2f *)
  sprintf_6lf : double -> string;           (* conversion %.6lf *)

  (* errors.h *)
  ERRVAL_EPROM_VERIFY : Z;
  ERRORS_GetPrefixedMessageString :
    Z -> option string -> string -> Ext World -> Z * string;

  (* uart.h *)
  UART_GetString : Ext World -> (Z * string) * Ext World;

  (* dmm.h *)
  MEASURE_CNT_AVG : Z;
  DMM_SetScale : Z -> Ext World -> Z * Ext World;
  DMM_GetCurrentScale : World -> Z;
  DMM_SetUseCalib : Z -> Ext World -> Ext World;
  DMM_DGetValue : Ext World -> (double * Z) * Ext World;
  DMM_DGetAvgValue : Z -> Ext World -> (double * Z) * Ext World;
  DMM_FormatValue : double -> Z -> Ext World -> string;
  DMM_InterpretValue : option string -> double -> Ext World -> Z * double;

  (* calib.h *)
  CALIB_CalibOnPositive :
    double -> double -> Z -> double -> Z -> Ext World ->
    (Z * double * double) * Ext World;
  CALIB_CalibOnNegative :
    double -> double -> Z -> double -> Z -> Ext World ->
    (Z * double * double) * Ext World;
  CALIB_CalibOnZero :
    double -> double -> Z -> Ext World -> (Z * double * double) * Ext World;
  CALIB_WriteAllCalibsToEPROM_User : Ext World -> Z * Ext World;
  CALIB_VerifyEPROM : Ext World -> Z * Ext World;
  CALIB_ExportCalibs_User : Ext World -> (Z * string) * Ext World;
  CALIB_ImportCalibCoefficients :
    Z -> float -> float -> Ext World -> Z * Ext World;
  CALIB_MeasureForCalibPositiveVal :
    double -> Ext World -> (Z * double) * Ext World;
  CALIB_MeasureForCalibNegativeVal :
    double -> Ext World -> (Z * double) * Ext World;
  CALIB_RestoreAllCalibsFromEPROM_Factory : Ext World -> Z * Ext World;

  (* serialno.h *)
  SERIALNO_ReadSerialNoFromEPROM : Ext World -> (Z * string) * Ext World
}.

Section Model.

Context {C : Collaborators}.

(** The calls that leave the module, with their arguments. *)
Inductive Event : Type :=
  | Ev_UART_GetString
  | Ev_UART_PutString (s : string)
  | Ev_DelayAprox10Us (n : Z)
  | Ev_DMM_SetScale (idxScale : Z)
  | Ev_DMM_SetUseCalib (f : Z)
  | Ev_DMM_DGetValue
  | Ev_DMM_DGetAvgValue (cnt : Z)
  | Ev_CALIB_CalibOnPositive (dRef : double) (bEarly : Z)
  | Ev_CALIB_CalibOnNegative (dRef : double) (bEarly : Z)
  | Ev_CALIB_CalibOnZero
  | Ev_CALIB_WriteAllCalibsToEPROM_User
  | Ev_CALIB_VerifyEPROM
  | Ev_CALIB_ExportCalibs_User
  | Ev_CALIB_ImportCalibCoefficients (idxCfg : Z) (fValM fValA : float)
  | Ev_CALIB_MeasureForCalibPositiveVal
  | Ev_CALIB_MeasureForCalibNegativeVal
  | Ev_CALIB_RestoreAllCalibsFromEPROM_Factory
  | Ev_SERIALNO_ReadSerialNoFromEPROM
  | Ev_OLED_ClearBuffer
  | Ev_OLED_SetCursor (x y : Z)
  | Ev_OLED_PutString (s : string)
  | Ev_OLED_Update.

(** The file-scope variables of [dmmcmd.c], the position [strtok] saved
    ([None]: no string was given to it yet), the outside, and the calls
    made so far.  A state is one in which [DMMCMD_Init] has returned:
    [pszLastErr] points to the last-error buffer. *)
Record State : Type := mk_state {
  szMsg : string;
  szVal : string;
  szRefVal : string;
  dRefVal : double;
  dMeasuredVal : double;
  dispersion : double;
  fRepGetVal : Z;
  fRepGetRaw : Z;
  fRepBlock : Z;
  strtok_ptr : option string;
  ext : Ext World;
  trace : list Event
}.

Definition set_szMsg (v : string) (s : State) : State :=
  mk_state v (szVal s) (szRefVal s) (dRefVal s) (dMeasuredVal s) (dispersion s)
    (fRepGetVal s) (fRepGetRaw s) (fRepBlock s) (strtok_ptr s) (ext s) (trace s).
Definition set_szVal (v : string) (s : State) : State :=
  mk_state (szMsg s) v (szRefVal s) (dRefVal s) (dMeasuredVal s) (dispersion s)
    (fRepGetVal s) (fRepGetRaw s) (fRepBlock s) (strtok_ptr s) (ext s) (trace s).
Definition set_szRefVal (v : string) (s : State) : State :=
  mk_state (szMsg s) (szVal s) v (dRefVal s) (dMeasuredVal s) (dispersion s)
    (fRepGetVal s) (fRepGetRaw s) (fRepBlock s) (strtok_ptr s) (ext s) (trace s).
Definition set_dRefVal (v : double) (s : State) : State :=
  mk_state (szMsg s) (szVal s) (szRefVal s) v (dMeasuredVal s) (dispersion s)
    (fRepGetVal s) (fRepGetRaw s) (fRepBlock s) (strtok_ptr s) (ext s) (trace s).
Definition set_dMeasuredVal (v : double) (s : State) : State :=
  mk_state (szMsg s) (szVal s) (szRefVal s) (dRefVal s) v (dispersion s)
    (fRepGetVal s) (fRepGetRaw s) (fRepBlock s) (strtok_ptr s) (ext s) (trace s).
Definition set_dispersion (v : double) (s : State) : State :=
  mk_state (szMsg s) (szVal s) (szRefVal s) (dRefVal s) (dMeasuredVal s) v
    (fRepGetVal s) (fRepGetRaw s) (fRepBlock s) (strtok_ptr s) (ext s) (trace s).
Definition set_fRepGetVal (v : Z) (s : State) : State :=
  mk_state (szMsg s) (szVal s) (szRefVal s) (dRefVal s) (dMeasuredVal s) (dispersion s)
    v (fRepGetRaw s) (fRepBlock s) (strtok_ptr s) (ext s) (trace s).
Definition set_fRepGetRaw (v : Z) (s : State) : State :=
  mk_state (szMsg s) (szVal s) (szRefVal s) (dRefVal s) (dMeasuredVal s) (dispersion s)
    (fRepGetVal s) v (fRepBlock s) (strtok_ptr s) (ext s) (trace s).
Definition set_fRepBlock (v : Z) (s : State) : State :=
  mk_state (szMsg s) (szVal s) (szRefVal s) (dRefVal s) (dMeasuredVal s) (dispersion s)
    (fRepGetVal s) (fRepGetRaw s) v (strtok_ptr s) (ext s) (trace s).
Definition set_strtok_ptr (v : option string) (s : State) : State :=
  mk_state (szMsg s) (szVal s) (szRefVal s) (dRefVal s) (dMeasuredVal s) (dispersion s)
    (fRepGetVal s) (fRepGetRaw s) (fRepBlock s) v (ext s) (trace s).
Definition set_ext (v : Ext World) (s : State) : State :=
  mk_state (szMsg s) (szVal s) (szRefVal s) (dRefVal s) (dMeasuredVal s) (dispersion s)
    (fRepGetVal s) (fRepGetRaw s) (fRepBlock s) (strtok_ptr s) v (trace s).
Definition log (e : Event) (s : State) : State :=
  mk_state (szMsg s) (szVal s) (szRefVal s) (dRefVal s) (dMeasuredVal s) (dispersion s)
    (fRepGetVal s) (fRepGetRaw s) (fRepBlock s) (strtok_ptr s) (ext s) (trace s ++ [e]).

(** *** The monad *)

Inductive result (A : Type) : Type :=
  | Ok (a : A) (s : State)     (* returned [a], leaving state [s] *)
  | Undef (s : State).         (* undefined behaviour, reached in state [s] *)
Arguments Ok {A} _ _.
Arguments Undef {A} _.

Definition M (A : Type) : Type := State -> result A.

Definition ret {A : Type} (a : A) : M A := fun s => Ok a s.

Definition bind {A B : Type} (m : M A) (k : A -> M B) : M B :=
  fun s => match m s with
           | Ok a s' => k a s'
           | Undef s' => Undef s'
           end.

Definition undefined {A : Type} : M A := fun s => Undef s.

(** The state a computation ends in, or is stuck in. *)
Definition state_of {A : Type} (r : result A) : State :=
  match r with Ok _ s => s | Undef s => s end.

Definition read {A : Type} (f : State -> A) : M A := fun s => Ok (f s) s.
Definition write (f : State -> State) : M unit := fun s => Ok tt (f s).

(** A call of a collaborator that acts on the outside. *)
Definition call {A : Type} (e : Event) (f : Ext World -> A * Ext World) : M A :=
  fun s => let (a, x) := f (ext s) in Ok a (set_ext x (log e s)).

(** A call of a collaborator that only produces output. *)
Definition emit (e : Event) : M unit := write (log e).

End Model.

Arguments Ok {C A} _ _.
Arguments Undef {C A} _.

Declare Scope dmm_scope.
Delimit Scope dmm_scope with dmm.
Notation "x <- m ;; k" := (bind m (fun x => k))
  (at level 61, m at next level, right associativity) : dmm_scope.
Notation "m ;; k" := (bind m (fun _ => k))
  (at level 61, right associativity) : dmm_scope.
Notation "' p <- m ;; k" := (bind m (fun x => match x with p => k end))
  (at level 61, p pattern, m at next level, right associativity) : dmm_scope.
Local Open Scope dmm_scope.

(** ** The functions of [dmmcmd.c] *)

Section Dmmcmd.

Context {C : Collaborators}.

(** *** Calls out of the module *)

(** [strtok(str, delim)]; [str = None] is the call with a null first
    argument, which continues from the saved position. *)
Definition strtok (str : option string) (delim : string) : M (option string) :=
  fun s =>
    match (match str with
           | Some buf => Some (c_str buf)
           | None => strtok_ptr s
           end) with
    | None => Undef s
    | Some from =>
        let (tok, next) := strtok_scan delim from in
        Ok tok (set_strtok_ptr (Some next) s)
    end.

Definition UART_PutString (msg : string) : M unit :=
  emit (Ev_UART_PutString msg).

(** [UART_PutString(szMsg)]. *)
Definition UART_PutString_szMsg : M unit :=
  msg <- read szMsg ;; UART_PutString msg.

(** [ERRORS_GetPrefixedMessageString(bErrCode, arg, szMsg)]: rewrites
    [szMsg] and returns a code. *)
Definition GetPrefixedMessageString_szMsg
    (bErrCode : Z) (arg : option string) : M Z :=
  fun s =>
    let (r, msg) := ERRORS_GetPrefixedMessageString bErrCode arg (szMsg s) (ext s) in
    Ok r (set_szMsg msg s).

(** [DMM_FormatValue(d, buffer, 1)]: the string left in the buffer. *)
Definition FormatValue (d : double) : M string :=
  read (fun s => DMM_FormatValue d 1 (ext s)).

Definition SetUseCalib (f : Z) : M unit :=
  call (Ev_DMM_SetUseCalib f) (fun x => (tt, DMM_SetUseCalib f x)).

(** [pszLastErr[0] = 0] and [strcpy(pszLastErr, v)]. *)
Definition set_LastErr (v : string) (s : State) : State :=
  set_ext (mk_ext v (dev (ext s))) s.

(** [if (pszLastErr[0]) { strcat(szMsg, ", "); strcat(szMsg, pszLastErr); }] *)
Definition append_LastErr : M unit :=
  e <- read (fun s => LastErr (ext s)) ;;
  match e with
  | EmptyString => ret tt
  | String _ _ =>
      write (fun s => set_szMsg (szMsg s ++ ", ") s) ;;
      write (fun s => set_szMsg (szMsg s ++ e) s)
  end.

(** *** [DMMCMD_PmodOLEDDisplay], lines 1192-1211 *)

Definition nth_scale (idxScale : Z) : option string :=
  if idxScale <? 0 then None else nth_error rgScales (Z.to_nat idxScale).

Definition DMMCMD_PmodOLEDDisplay (pszVal : string) : M unit :=
  idxScale <- read (fun s => DMM_GetCurrentScale (dev (ext s))) ;;
  emit Ev_OLED_ClearBuffer ;;
  (if negb (idxScale =? -1) then
     match nth_scale idxScale with
     | Some name =>
         emit (Ev_OLED_SetCursor (to_size_t (16 - strlen name) / 2) 1) ;;
         emit (Ev_OLED_PutString name)
     | None => undefined
     end
   else
     emit (Ev_OLED_SetCursor 4 1) ;;
     emit (Ev_OLED_PutString "No scale")) ;;
  emit (Ev_OLED_SetCursor (to_size_t (16 - strlen pszVal) / 2) 3) ;;
  emit (Ev_OLED_PutString pszVal) ;;
  emit Ev_OLED_Update.

(** *** [DMMCMD_CmdDecode], lines 231-257 *)

(** The [for] loop over [uartCommands]: the key of the first entry whose
    string equals [szJustCmd]. *)
Fixpoint lookup_cmd (tbl : list cmd_map_t) (szJustCmd : string) : option cmd_key_t :=
  match tbl with
  | [] => None
  | entry :: rest =>
      if streq szJustCmd (pchCmd entry) then Some (eCmd entry)
      else lookup_cmd rest szJustCmd
  end.

Definition DMMCMD_CmdDecode (szCmd : string) : M cmd_key_t :=
  szJustCmd <- strtok (Some szCmd) " " ;;
  write (set_LastErr "") ;;
  match szJustCmd with
  | Some tok =>
      match lookup_cmd uartCommands tok with
      | Some key => ret key
      | None =>
          write (set_LastErr "Unrecognized command:") ;;
          write (fun s => set_LastErr (LastErr (ext s) ++ tok) s) ;;
          ret INVALID
      end
  | None =>
      write (set_LastErr "Empty command") ;;
      ret INVALID
  end.

(** *** [DMMCMD_CmdGetNextArg], lines 277-280 *)

Definition DMMCMD_CmdGetNextArg : M (option string) := strtok None ",".

(** *** [DMMCMD_CmdConfig], lines 386-411 *)

(** The [for] loop over [rgScales], entered at index [idxScale]: the index
    of the first name equal to [arg0]. *)
Fixpoint find_scale (tbl : list string) (idxScale : Z) (arg0 : string) : option Z :=
  match tbl with
  | [] => None
  | name :: rest =>
      if streq arg0 name then Some idxScale
      else find_scale rest (idxScale + 1) arg0
  end.

Definition DMMCMD_CmdConfig (arg0 : option string) : M Z :=
  match arg0 with
  | None => undefined          (* strcmp on a null pointer *)
  | Some a =>
      match find_scale rgScales 0 a with
      | Some idxScale =>
          r <- call (Ev_DMM_SetScale idxScale) (DMM_SetScale idxScale) ;;
          let bErrCode := to_u8 r in
          bErrCode <-
            (if bErrCode =? ERRVAL_SUCCESS then
               write (set_szMsg ("PASS, Selected scale index is: "
                                   ++ sprintf_d idxScale ++ CRLF)) ;;
               DMMCMD_PmodOLEDDisplay "No value" ;;
               ret bErrCode
             else
               r' <- GetPrefixedMessageString_szMsg bErrCode (Some "") ;;
               ret (to_u8 r')) ;;
          UART_PutString_szMsg ;;
          ret bErrCode
      | None =>
          write (set_szMsg ("FAIL, Missing valid configuration: "
                              ++ DQUOTE ++ a ++ DQUOTE ++ CRLF)) ;;
          UART_PutString_szMsg ;;
          ret ERRVAL_SUCCESS
      end
  end.

(** *** [DMMCMD_CmdMeasureRep], lines 428-436 *)

Definition DMMCMD_CmdMeasureRep : M Z :=
  write (set_fRepGetVal 1) ;;
  write (set_fRepGetRaw 0) ;;
  write (set_szMsg "Measure repeated") ;;
  GetPrefixedMessageString_szMsg ERRVAL_SUCCESS (Some "") ;;
  UART_PutString_szMsg ;;
  ret ERRVAL_SUCCESS.

(** *** [DMMCMD_CmdMeasureStop], lines 454-462 *)

Definition DMMCMD_CmdMeasureStop : M Z :=
  write (set_fRepGetVal 0) ;;
  write (set_fRepGetRaw 0) ;;
  write (set_szMsg "Stop repeated") ;;
  GetPrefixedMessageString_szMsg ERRVAL_SUCCESS (Some "") ;;
  UART_PutString_szMsg ;;
  ret ERRVAL_SUCCESS.

(** *** [DMMCMD_CmdMeasureRaw], lines 481-501

    [szVal] and [dMeasuredVal] are locals here; the globals of the same
    names are not written. *)

Definition DMMCMD_CmdMeasureRaw : M Z :=
  SetUseCalib 0 ;;
  '(dMeasured, e) <- call Ev_DMM_DGetValue DMM_DGetValue ;;
  SetUseCalib 1 ;;
  let bErrCode := to_u8 e in
  (if bErrCode =? ERRVAL_SUCCESS then
     v <- FormatValue dMeasured ;;
     write (set_szMsg ("Raw Value: " ++ v ++ CRLF))
   else
     GetPrefixedMessageString_szMsg bErrCode (Some "") ;; ret tt) ;;
  UART_PutString_szMsg ;;
  ret bErrCode.

(** *** [DMMCMD_CmdMeasureAvg], lines 524-542 *)

Definition DMMCMD_CmdMeasureAvg : M Z :=
  '(dMeasured, e) <-
     call (Ev_DMM_DGetAvgValue MEASURE_CNT_AVG) (DMM_DGetAvgValue MEASURE_CNT_AVG) ;;
  let bErrCode := to_u8 e in
  (if bErrCode =? ERRVAL_SUCCESS then
     v <- FormatValue dMeasured ;;
     write (set_szMsg ("Avg. Value: " ++ v ++ CRLF))
   else
     GetPrefixedMessageString_szMsg bErrCode (Some "") ;; ret tt) ;;
  UART_PutString_szMsg ;;
  ret bErrCode.

(** *** The calibration commands, lines 570-700 and 978-1059 *)

(** [bErrCode = DMM_InterpretValue((char * )arg0, &dRefVal)]. *)
Definition InterpretValue_dRefVal (arg0 : option string) : M Z :=
  fun s =>
    let (r, d) := DMM_InterpretValue arg0 (dRefVal s) (ext s) in
    Ok (to_u8 r) (set_dRefVal d s).

(** [bErrCode = CALIB_CalibOnPositive(dRefVal, &dMeasuredVal, bEarly,
    &dispersion, 0)] on the globals. *)
Definition CalibOnPositive_globals (bEarly : Z) : M Z :=
  fun s =>
    let '(r, m, d, x) :=
      CALIB_CalibOnPositive (dRefVal s) (dMeasuredVal s) bEarly (dispersion s) 0 (ext s) in
    Ok (to_u8 r)
       (set_ext x (set_dispersion d (set_dMeasuredVal m
          (log (Ev_CALIB_CalibOnPositive (dRefVal s) bEarly) s)))).

Definition CalibOnNegative_globals (bEarly : Z) : M Z :=
  fun s =>
    let '(r, m, d, x) :=
      CALIB_CalibOnNegative (dRefVal s) (dMeasuredVal s) bEarly (dispersion s) 0 (ext s) in
    Ok (to_u8 r)
       (set_ext x (set_dispersion d (set_dMeasuredVal m
          (log (Ev_CALIB_CalibOnNegative (dRefVal s) bEarly) s)))).

Definition CalibOnZero_globals : M Z :=
  fun s =>
    let '(r, m, d, x) := CALIB_CalibOnZero (dMeasuredVal s) (dispersion s) 0 (ext s) in
    Ok (to_u8 r)
       (set_ext x (set_dispersion d (set_dMeasuredVal m (log Ev_CALIB_CalibOnZero s)))).

(** [DMM_FormatValue(dRefVal, szRefVal, 1)] and
    [DMM_FormatValue(dMeasuredVal, szVal, 1)]. *)
Definition Format_dRefVal : M unit :=
  d <- read dRefVal ;; v <- FormatValue d ;; write (set_szRefVal v).
Definition Format_dMeasuredVal : M unit :=
  d <- read dMeasuredVal ;; v <- FormatValue d ;; write (set_szVal v).

(** [sprintf(szMsg, "Calibration on <which> done. Reference: %s,
    Measured: %s, Dispersion: %.2f%%", szRefVal, szVal, dispersion)]. *)
Definition sprintf_calib_done (which : string) : M unit :=
  write (fun s =>
    set_szMsg ("Calibration on " ++ which ++ " done. Reference: " ++ szRefVal s
               ++ ", Measured: " ++ szVal s
               ++ ", Dispersion: " ++ sprintf_2f (dispersion s) ++ "%") s).

Definition DMMCMD_CmdCalibP (arg0 : option string) : M Z :=
  bErrCode <- InterpretValue_dRefVal arg0 ;;
  bErrCode <-
    (if bErrCode =? ERRVAL_SUCCESS then
       bErrCode <- CalibOnPositive_globals 0 ;;
       (if bErrCode =? ERRVAL_SUCCESS then
          Format_dRefVal ;;
          Format_dMeasuredVal ;;
          sprintf_calib_done "positive" ;;
          append_LastErr
        else ret tt) ;;
       GetPrefixedMessageString_szMsg bErrCode (Some "") ;;
       ret bErrCode
     else
       GetPrefixedMessageString_szMsg bErrCode arg0 ;;
       ret bErrCode) ;;
  UART_PutString_szMsg ;;
  ret bErrCode.

Definition DMMCMD_CmdCalibN (arg0 : option string) : M Z :=
  bErrCode <- InterpretValue_dRefVal arg0 ;;
  bErrCode <-
    (if bErrCode =? ERRVAL_SUCCESS then
       bErrCode <- CalibOnNegative_globals 0 ;;
       (if bErrCode =? ERRVAL_SUCCESS then
          Format_dRefVal ;;
          Format_dMeasuredVal ;;
          sprintf_calib_done "negative" ;;
          append_LastErr
        else ret tt) ;;
       GetPrefixedMessageString_szMsg bErrCode (Some "") ;;
       ret bErrCode
     else
       GetPrefixedMessageString_szMsg bErrCode arg0 ;;
       ret bErrCode) ;;
  UART_PutString_szMsg ;;
  ret bErrCode.

Definition DMMCMD_CmdCalibZ : M Z :=
  bErrCode <- CalibOnZero_globals ;;
  (if bErrCode =? ERRVAL_SUCCESS then
     Format_dMeasuredVal ;;
     write (fun s =>
       set_szMsg ("Calibration on zero done. Measured Value: " ++ szVal s
                  ++ ", Dispersion: " ++ sprintf_2f (dispersion s) ++ "%") s) ;;
     append_LastErr
   else ret tt) ;;
  GetPrefixedMessageString_szMsg bErrCode (Some "") ;;
  UART_PutString_szMsg ;;
  ret bErrCode.

Definition DMMCMD_CmdFinalizeCalibP (arg0 : option string) : M Z :=
  bErrCode <- InterpretValue_dRefVal arg0 ;;
  bErrCode <-
    (if bErrCode =? ERRVAL_SUCCESS then
       Format_dRefVal ;;
       bErrCode <- CalibOnPositive_globals 1 ;;
       (if bErrCode =? ERRVAL_SUCCESS then
          Format_dMeasuredVal ;;
          sprintf_calib_done "positive" ;;
          append_LastErr
        else ret tt) ;;
       GetPrefixedMessageString_szMsg bErrCode (Some "") ;;
       ret bErrCode
     else
       GetPrefixedMessageString_szMsg bErrCode arg0 ;;
       ret bErrCode) ;;
  UART_PutString_szMsg ;;
  ret bErrCode.

Definition DMMCMD_CmdFinalizeCalibN (arg0 : option string) : M Z :=
  bErrCode <- InterpretValue_dRefVal arg0 ;;
  bErrCode <-
    (if bErrCode =? ERRVAL_SUCCESS then
       Format_dRefVal ;;
       bErrCode <- CalibOnNegative_globals 1 ;;
       (if bErrCode =? ERRVAL_SUCCESS then
          Format_dMeasuredVal ;;
          sprintf_calib_done "negative" ;;
          append_LastErr
        else ret tt) ;;
       GetPrefixedMessageString_szMsg bErrCode (Some "") ;;
       ret bErrCode
     else
       GetPrefixedMessageString_szMsg bErrCode arg0 ;;
       ret bErrCode) ;;
  UART_PutString_szMsg ;;
  ret bErrCode.

(** *** [DMMCMD_CmdMeasureForCalibP] and [..N], lines 900-951

    [dMeasuredVal] is an uninitialised local handed to the callee. *)

Definition DMMCMD_CmdMeasureForCalibP : M Z :=
  '(r, dMeasured) <-
     call Ev_CALIB_MeasureForCalibPositiveVal
          (CALIB_MeasureForCalibPositiveVal indet_double) ;;
  let bErrCode := to_u8 r in
  (if bErrCode =? ERRVAL_SUCCESS then
     v <- FormatValue dMeasured ;;
     write (set_szVal v) ;;
     write (set_szMsg ("Calibration positive measurement done. Measured Value: " ++ v))
   else ret tt) ;;
  GetPrefixedMessageString_szMsg bErrCode (Some "") ;;
  UART_PutString_szMsg ;;
  ret bErrCode.

Definition DMMCMD_CmdMeasureForCalibN : M Z :=
  '(r, dMeasured) <-
     call Ev_CALIB_MeasureForCalibNegativeVal
          (CALIB_MeasureForCalibNegativeVal indet_double) ;;
  let bErrCode := to_u8 r in
  (if bErrCode =? ERRVAL_SUCCESS then
     v <- FormatValue dMeasured ;;
     write (set_szVal v) ;;
     write (set_szMsg ("Calibration negative measurement done. Measured Value: " ++ v))
   else ret tt) ;;
  GetPrefixedMessageString_szMsg bErrCode (Some "") ;;
  UART_PutString_szMsg ;;
  ret bErrCode.

(** *** [DMMCMD_CmdSaveEPROM], lines 721-734 *)

Definition DMMCMD_CmdSaveEPROM : M Z :=
  r <- call Ev_CALIB_WriteAllCalibsToEPROM_User CALIB_WriteAllCalibsToEPROM_User ;;
  let bErrCode := to_u8 r in
  bErrCode <-
    (if negb (bErrCode =? ERRVAL_EPROM_WRTIMEOUT) then
       write (set_szMsg (sprintf_d bErrCode ++ " calibrations written to EPROM")) ;;
       ret ERRVAL_SUCCESS
     else ret bErrCode) ;;
  GetPrefixedMessageString_szMsg bErrCode (Some "") ;;
  UART_PutString_szMsg ;;
  ret bErrCode.

(** *** [DMMCMD_CmdVerifyEPROM], lines 758-778 *)

Definition DMMCMD_CmdVerifyEPROM : M Z :=
  r <- call Ev_CALIB_VerifyEPROM CALIB_VerifyEPROM ;;
  let bErrCode := to_u8 r in
  bErrCode <-
    (if bErrCode =? ERRVAL_SUCCESS then
       write (set_szMsg "EPROM Calibration data is verified") ;;
       ret bErrCode
     else if bErrCode =? ERRVAL_EPROM_VERIFY then
       write (set_szMsg "EPROM Calibration data mismatch values found") ;;
       ret ERRVAL_DMM_GENERICERROR
     else ret bErrCode) ;;
  GetPrefixedMessageString_szMsg bErrCode (Some "") ;;
  UART_PutString_szMsg ;;
  ret bErrCode.

(** *** [DMMCMD_CmdExportCalib], lines 800-810 *)

Definition DMMCMD_CmdExportCalib : M Z :=
  '(r, calExp) <- call Ev_CALIB_ExportCalibs_User CALIB_ExportCalibs_User ;;
  let bErrCode := to_u8 r in
  write (set_szMsg "Calibration data is exported") ;;
  GetPrefixedMessageString_szMsg bErrCode (Some "") ;;
  UART_PutString_szMsg ;;
  UART_PutString calExp ;;
  ret bErrCode.

(** *** [DMMCMD_CmdImportCalib], lines 837-878

    [idxCfg], [fValM] and [fValA] are uninitialised locals; a [sscanf]
    that assigns nothing leaves them as they were.  [!sscanf(...)] is
    true only when [sscanf] returns 0. *)

Definition assigned {A : Type} (old : A) (v : option A) : A :=
  match v with Some a => a | None => old end.

Definition DMMCMD_CmdImportCalib (arg0 arg1 arg2 : option string) : M Z :=
  match arg0, arg1, arg2 with
  | Some a0, Some a1, Some a2 =>
      let (n0, v0) := sscanf_d a0 in
      let idxCfg := assigned indet_int v0 in
      '(bErrCode, fValM, fValA) <-
        (if n0 =? 0 then
           write (set_szMsg "Invalid value, provide an integer number for the first token, corresponding to scale index") ;;
           ret (ERRVAL_DMM_GENERICERROR, indet_float, indet_float)
         else
           let (n1, v1) := sscanf_f a1 in
           let fValM := assigned indet_float v1 in
           if n1 =? 0 then
             write (set_szMsg "Invalid value, provide a float number for the second token, corresponding to Mult. coefficient") ;;
             ret (ERRVAL_DMM_GENERICERROR, fValM, indet_float)
           else
             let (n2, v2) := sscanf_f a2 in
             let fValA := assigned indet_float v2 in
             if n2 =? 0 then
               write (set_szMsg "Invalid value, provide a float number for the third token, corresponding to Add. coefficient") ;;
               ret (ERRVAL_DMM_GENERICERROR, fValM, fValA)
             else ret (ERRVAL_SUCCESS, fValM, fValA)) ;;
      bErrCode <-
        (if bErrCode =? ERRVAL_SUCCESS then
           r <- call (Ev_CALIB_ImportCalibCoefficients idxCfg fValM fValA)
                     (CALIB_ImportCalibCoefficients idxCfg fValM fValA) ;;
           ret (to_u8 r)
         else ret bErrCode) ;;
      GetPrefixedMessageString_szMsg bErrCode (Some "") ;;
      UART_PutString_szMsg ;;
      ret bErrCode
  | _, _, _ =>
      (* !arg0 || !arg1 || !arg2 *)
      GetPrefixedMessageString_szMsg ERRVAL_CMD_WRONGPARAMS (Some "") ;;
      UART_PutString_szMsg ;;
      ret ERRVAL_CMD_WRONGPARAMS
  end.

(** *** [DMMCMD_CmdRestoreFactCalib], lines 1082-1090 *)

Definition DMMCMD_CmdRestoreFactCalib : M Z :=
  r <- call Ev_CALIB_RestoreAllCalibsFromEPROM_Factory
            CALIB_RestoreAllCalibsFromEPROM_Factory ;;
  let bErrCode := to_u8 r in
  write (set_szMsg "Calibration data restored from FACTORY EPROM") ;;
  GetPrefixedMessageString_szMsg bErrCode (Some "") ;;
  UART_PutString_szMsg ;;
  ret bErrCode.

(** *** [DMMCMD_CmdReadSerialNo], lines 1112-1124 *)

Definition DMMCMD_CmdReadSerialNo : M Z :=
  '(r, szSerialNo) <-
     call Ev_SERIALNO_ReadSerialNoFromEPROM SERIALNO_ReadSerialNoFromEPROM ;;
  let bErrCode := to_u8 r in
  (if bErrCode =? ERRVAL_SUCCESS then
     write (set_szMsg ("SerialNo = " ++ DQUOTE ++ szSerialNo ++ DQUOTE))
   else ret tt) ;;
  GetPrefixedMessageString_szMsg bErrCode (Some "") ;;
  UART_PutString_szMsg ;;
  ret bErrCode.

(** *** [DMMCMD_ProcessRepeatedCmd], lines 1144-1175 *)

(** A flag read as a C condition. *)
Definition is_set (f : Z) : bool := negb (f =? 0).

Definition DMMCMD_ProcessRepeatedCmd : M Z :=
  fVal <- read fRepGetVal ;;
  fRaw <- read fRepGetRaw ;;
  fBlock <- read fRepBlock ;;
  if (is_set fVal || is_set fRaw) && negb (is_set fBlock) then
    (if is_set fRaw then SetUseCalib 0 else ret tt) ;;
    '(d, e) <- call Ev_DMM_DGetValue DMM_DGetValue ;;
    write (set_dMeasuredVal d) ;;
    SetUseCalib 1 ;;
    let bErrCode := to_u8 e in
    bErrCode <-
      (if bErrCode =? ERRVAL_SUCCESS then
         (if is_set fVal then
            Format_dMeasuredVal ;;
            write (fun s => set_szMsg ("Value: " ++ szVal s ++ CRLF) s) ;;
            v <- read szVal ;;
            DMMCMD_PmodOLEDDisplay v
          else
            write (fun s =>
              set_szMsg ("Raw Value: " ++ sprintf_6lf (dMeasuredVal s) ++ CRLF) s)) ;;
         ret bErrCode
       else
         r <- GetPrefixedMessageString_szMsg bErrCode (Some "") ;;
         ret (to_u8 r)) ;;
    UART_PutString_szMsg ;;
    ret bErrCode
  else ret ERRVAL_SUCCESS.

(** *** [DMMCMD_ProcessCmd], lines 297-362 *)

Definition DMMCMD_ProcessCmd (keyCmd : cmd_key_t) : M unit :=
  match keyCmd with
  | CMD_Config => a <- DMMCMD_CmdGetNextArg ;; DMMCMD_CmdConfig a ;; ret tt
  | CMD_CalibP => a <- DMMCMD_CmdGetNextArg ;; DMMCMD_CmdCalibP a ;; ret tt
  | CMD_CalibN => a <- DMMCMD_CmdGetNextArg ;; DMMCMD_CmdCalibN a ;; ret tt
  | CMD_CalibZ => DMMCMD_CmdCalibZ ;; ret tt
  | CMD_MeasureRep => DMMCMD_CmdMeasureRep ;; ret tt
  | CMD_MeasureRaw => DMMCMD_CmdMeasureRaw ;; ret tt
  | CMD_MeasureStop => DMMCMD_CmdMeasureStop ;; ret tt
  | CMD_MeasureAvg => DMMCMD_CmdMeasureAvg ;; ret tt
  | CMD_SaveEPROM => DMMCMD_CmdSaveEPROM ;; ret tt
  | CMD_VerifyEPROM => DMMCMD_CmdVerifyEPROM ;; ret tt
  | CMD_ExportCalib => DMMCMD_CmdExportCalib ;; ret tt
  | CMD_ImportCalib =>
      t1 <- DMMCMD_CmdGetNextArg ;;
      t2 <- DMMCMD_CmdGetNextArg ;;
      t3 <- DMMCMD_CmdGetNextArg ;;
      let '(a0, a1, a2) := place arg_order t1 t2 t3 in
      DMMCMD_CmdImportCalib a0 a1 a2 ;; ret tt
  | CMD_MeasureForCalibP => DMMCMD_CmdMeasureForCalibP ;; ret tt
  | CMD_MeasureForCalibN => DMMCMD_CmdMeasureForCalibN ;; ret tt
  | CMD_FinalizeCalibP => a <- DMMCMD_CmdGetNextArg ;; DMMCMD_CmdFinalizeCalibP a ;; ret tt
  | CMD_FinalizeCalibN => a <- DMMCMD_CmdGetNextArg ;; DMMCMD_CmdFinalizeCalibN a ;; ret tt
  | CMD_RestoreFactCalibs => DMMCMD_CmdRestoreFactCalib ;; ret tt
  | CMD_ReadSerialNo => DMMCMD_CmdReadSerialNo ;; ret tt
  | CMD_NONE | INVALID => ret tt
  end ;;
  emit (Ev_DelayAprox10Us 1000).

(** *** [DMMCMD_CheckForCommand], lines 192-206 *)

(** Line 201: [DMMCMD_ProcessCmd(DMMCMD_CmdDecode(uartCmd))]. *)
Definition decode_and_process (uartCmd : string) : M unit :=
  keyCmd <- DMMCMD_CmdDecode uartCmd ;;
  DMMCMD_ProcessCmd keyCmd.

(** Lines 194-203: the line, if one was received, is echoed, decoded and
    processed; the result tells whether there was one. *)
Definition receive_command : M bool :=
  '(cchi, uartCmd) <- call Ev_UART_GetString UART_GetString ;;
  if 0 <? cchi then
    write (set_szMsg ("Received command: " ++ c_str uartCmd ++ CRLF)) ;;
    UART_PutString_szMsg ;;
    decode_and_process uartCmd ;;
    write (set_fRepBlock 0) ;;
    ret true
  else ret false.

Definition DMMCMD_CheckForCommand : M unit :=
  receive_command ;;
  DMMCMD_ProcessRepeatedCmd ;;
  ret tt.

(** *** The poll loop of [Demo_UART_Dispatch], [main.c] lines 77-80 *)

(** [n] turns of [while(1) DMMCMD_CheckForCommand();]. *)
Fixpoint poll (n : nat) : M unit :=
  match n with
  | O => ret tt
  | S n' => DMMCMD_CheckForCommand ;; poll n'
  end.

End Dmmcmd.

(** ** Reachable states and the vocabulary of the statements *)

Section Vocabulary.

Context {C : Collaborators}.

(** The three flags of the repeated session. *)
Definition flags (s : State) : Z * Z * Z :=
  (fRepGetVal s, fRepGetRaw s, fRepBlock s).

(** After [DMMCMD_Init] the flags still hold their initialisers
    (lines 91-93); [DMMCMD_Init] does not write them. *)
Definition after_init (s : State) : Prop := flags s = (0, 0, 0).

(** The states the poll loop can be in between two calls of
    [DMMCMD_CheckForCommand] (or stuck in, when a call has undefined
    behaviour); the outside may change between two calls. *)
Inductive reachable : State -> Prop :=
  | reach_init (s : State) : after_init s -> reachable s
  | reach_poll (s : State) :
      reachable s -> reachable (state_of (DMMCMD_CheckForCommand s))
  | reach_outside (s : State) (x : Ext World) :
      reachable s -> reachable (set_ext x s).

(** The events that are no call of the instrument ([dmm.h]). *)
Definition no_DMM_access (e : Event) : bool :=
  match e with
  | Ev_DMM_SetScale _ | Ev_DMM_SetUseCalib _
  | Ev_DMM_DGetValue | Ev_DMM_DGetAvgValue _ => false
  | _ => true
  end.

(** The calls of [CALIB_ImportCalibCoefficients]. *)
Definition is_ImportCalib (e : Event) : bool :=
  match e with
  | Ev_CALIB_ImportCalibCoefficients _ _ _ => true
  | _ => false
  end.

(** The strings handed to [UART_PutString], in order. *)
Fixpoint uart_tx (t : list Event) : list string :=
  match t with
  | [] => []
  | Ev_UART_PutString msg :: rest => msg :: uart_tx rest
  | _ :: rest => uart_tx rest
  end.

(** The argument of the latest [DMM_SetUseCalib] in a trace. *)
Fixpoint last_UseCalib (t : list Event) (acc : option Z) : option Z :=
  match t with
  | [] => acc
  | Ev_DMM_SetUseCalib f :: rest => last_UseCalib rest (Some f)
  | _ :: rest => last_UseCalib rest acc
  end.

(** A computation that leaves the three flags as they were, whether it
    returns or gets stuck. *)
Definition keeps_flags {A : Type} (m : M A) : Prop :=
  forall s, flags (state_of (m s)) = flags s.

(** The line the composer makes of [msg] for the code [bErrCode]. *)
Definition composed (bErrCode : Z) (msg : string) (x : Ext World) : string :=
  snd (ERRORS_GetPrefixedMessageString bErrCode (Some "") msg x).

(** The raw flag and the block flag are never set. *)
Definition quiet (s : State) : Prop := fRepGetRaw s = 0 /\ fRepBlock s = 0.

(** A computation that keeps [P], whether it returns or gets stuck. *)
Definition preserves {A : Type} (P : State -> Prop) (m : M A) : Prop :=
  forall s, P s -> P (state_of (m s)).

(** The state [s] with the events [l] appended to its trace. *)
Definition logs (l : list Event) (s : State) : State :=
  mk_state (szMsg s) (szVal s) (szRefVal s) (dRefVal s) (dMeasuredVal s) (dispersion s)
    (fRepGetVal s) (fRepGetRaw s) (fRepBlock s) (strtok_ptr s) (ext s) (trace s ++ l).

(** The calls of the display library. *)
Definition is_OLED (e : Event) : bool :=
  match e with
  | Ev_OLED_ClearBuffer | Ev_OLED_SetCursor _ _ | Ev_OLED_PutString _ | Ev_OLED_Update => true
  | _ => false
  end.

(** The token [DMMCMD_CmdDecode] compares with the table: the first token
    of the line that [strtok(szCmd, " ")] finds. *)
Definition first_token (szCmd : string) : option string :=
  fst (strtok_scan " " (c_str szCmd)).

(** The command strings of [uartCommands]. *)
Definition command_names : list string := map pchCmd uartCommands.

(** The events of the acquisition in the repeated step. *)
Definition acquisition (fRaw : Z) : list Event :=
  (if is_set fRaw then [Ev_DMM_SetUseCalib 0] else [])
    ++ [Ev_DMM_DGetValue; Ev_DMM_SetUseCalib 1].

(** The outside as [DMM_DGetValue] finds it in the repeated step. *)
Definition before_acquisition (s : State) : Ext World :=
  if is_set (fRepGetRaw s) then DMM_SetUseCalib 0 (ext s) else ext s.

(** The value a computation returned, if it returned. *)
Definition value_of {A : Type} (r : result A) : option A :=
  match r with
  | Ok a _ => Some a
  | Undef _ => None
  end.

End Vocabulary.

(** ** A bench: stand-ins for the collaborators

    Simple executable stand-ins on which the handlers can be run.  The
    instrument holds a scale index (-1: none selected), a calibration
    switch and one reading; the EPROM library holds the number of entries
    that differ from the stored ones; the serial line holds the lines still
    to be received.  Numbers are whole numbers throughout. *)

Module Bench.

Record world : Type := mk_world {
  bw_scale : Z;
  bw_use_calib : Z;
  bw_reading : Z;
  bw_dirty : Z;
  bw_rx : list string
}.

Definition with_dev (f : world -> world) (x : Ext world) : Ext world :=
  mk_ext (LastErr x) (f (dev x)).

(** [isspace]. *)
Definition isspace (c : ascii) : bool :=
  let n := nat_of_ascii c in
  (Nat.eqb n 32 || (Nat.leb 9 n && Nat.leb n 13))%bool.

Definition digit_of (c : ascii) : option Z :=
  let n := nat_of_ascii c in
  if (Nat.leb 48 n && Nat.leb n 57)%bool then Some (Z.of_nat n - 48) else None.

Fixpoint skip_space (s : string) : string :=
  match s with
  | String c rest => if isspace c then skip_space rest else s
  | EmptyString => EmptyString
  end.

(** The digits at the head of [s], read onto [acc]; [None] if there are
    none. *)
Fixpoint digits (s : string) (acc : option Z) : option Z :=
  match s with
  | String c rest =>
      match digit_of c with
      | Some d => digits rest (Some (10 * match acc with Some a => a | None => 0 end + d))
      | None => acc
      end
  | EmptyString => acc
  end.

(** [sscanf(s, "%d", &i)]: white space is skipped; the end of the string
    before any conversion gives [EOF]; text that does not start a number
    gives 0; otherwise one item is assigned. *)
Definition scan_int (s : string) : Z * option Z :=
  match skip_space s with
  | EmptyString => (EOF, None)
  | String c rest =>
      let (neg, body) :=
        if Ascii.eqb c "-" then (true, rest)
        else if Ascii.eqb c "+" then (false, rest)
        else (false, String c rest) in
      match digits body None with
      | Some n => (1, Some (if neg then - n else n))
      | None => (0, None)
      end
  end.

Definition prefixed (bErrCode : Z) (arg : option string) (msg : string)
    (x : Ext world) : Z * string :=
  if bErrCode =? 0 then (bErrCode, "OK, " ++ msg ++ CRLF)
  else (bErrCode, "ERROR, code " ++ sprintf_d bErrCode ++ CRLF).

Definition get_string (x : Ext world) : (Z * string) * Ext world :=
  match bw_rx (dev x) with
  | [] => ((0, ""), x)
  | line :: rest =>
      ((strlen line, line),
       with_dev (fun w => mk_world (bw_scale w) (bw_use_calib w) (bw_reading w)
                                   (bw_dirty w) rest) x)
  end.

Definition set_scale (idx : Z) (x : Ext world) : Z * Ext world :=
  if (0 <=? idx) && (idx <? 27) then
    (0, with_dev (fun w => mk_world idx (bw_use_calib w) (bw_reading w)
                                    (bw_dirty w) (bw_rx w)) x)
  else (252, x).

Definition set_use_calib (f : Z) (x : Ext world) : Ext world :=
  with_dev (fun w => mk_world (bw_scale w) f (bw_reading w) (bw_dirty w) (bw_rx w)) x.

Definition get_value (x : Ext world) : (Z * Z) * Ext world :=
  if bw_scale (dev x) =? -1 then ((0, 252), x) else ((bw_reading (dev x), 0), x).

Definition interpret (arg : option string) (old : Z) (x : Ext world) : Z * Z :=
  match arg with
  | None => (242, old)
  | Some a =>
      match scan_int a with
      | (_, Some v) => (0, v)
      | (_, None) => (242, old)
      end
  end.

Definition calib_on (x : Ext world) : (Z * Z * Z) * Ext world :=
  if bw_scale (dev x) =? -1 then ((252, 0, 0), x)
  else ((0, bw_reading (dev x), 0), x).

Definition measure_for_calib (old : Z) (x : Ext world) : (Z * Z) * Ext world :=
  if bw_scale (dev x) =? -1 then ((252, old), x)
  else ((0, bw_reading (dev x)), x).

Definition write_all (x : Ext world) : Z * Ext world :=
  (bw_dirty (dev x),
   with_dev (fun w => mk_world (bw_scale w) (bw_use_calib w) (bw_reading w) 0 (bw_rx w)) x).

Definition import_coeff (idx m a : Z) (x : Ext world) : Z * Ext world :=
  if (0 <=? idx) && (idx <? 27) then
    (0, with_dev (fun w => mk_world (bw_scale w) (bw_use_calib w) (bw_reading w)
                                    (bw_dirty w + 1) (bw_rx w)) x)
  else (252, x).

#[export] Instance collaborators : Collaborators := {|
  World := world;
  double := Z;
  float := Z;
  arg_order := Order012;
  indet_int := 0;
  indet_float := 0;
  indet_double := 0;
  sscanf_d := scan_int;
  sscanf_f := scan_int;
  sprintf_2f := sprintf_d;
  sprintf_6lf := sprintf_d;
  ERRVAL_EPROM_VERIFY := 247;
  ERRORS_GetPrefixedMessageString := prefixed;
  UART_GetString := get_string;
  MEASURE_CNT_AVG := 20;
  DMM_SetScale := set_scale;
  DMM_GetCurrentScale := bw_scale;
  DMM_SetUseCalib := set_use_calib;
  DMM_DGetValue := get_value;
  DMM_DGetAvgValue := fun _ => get_value;
  DMM_FormatValue := fun d _ _ => sprintf_d d;
  DMM_InterpretValue := interpret;
  CALIB_CalibOnPositive := fun _ _ _ _ _ => calib_on;
  CALIB_CalibOnNegative := fun _ _ _ _ _ => calib_on;
  CALIB_CalibOnZero := fun _ _ _ => calib_on;
  CALIB_WriteAllCalibsToEPROM_User := write_all;
  CALIB_VerifyEPROM := fun x => (0, x);
  CALIB_ExportCalibs_User := fun x => ((0, ""), x);
  CALIB_ImportCalibCoefficients := import_coeff;
  CALIB_MeasureForCalibPositiveVal := measure_for_calib;
  CALIB_MeasureForCalibNegativeVal := measure_for_calib;
  CALIB_RestoreAllCalibsFromEPROM_Factory := fun x => (0, x);
  SERIALNO_ReadSerialNoFromEPROM := fun x => ((0, "D000000"), x)
|}.

(** The bench after start-up: no scale selected, calibration in use, a
    reading of 1234, [dirty] entries to save, [rx] waiting on the line. *)
Definition start (dirty : Z) (rx : list string) : State :=
  mk_state "" "" "" 0 0 0 0 0 0 None
    (mk_ext "" (mk_world (-1) 1 1234 dirty rx)) [].

(** The same bench with scale [idx] selected and the calibrated stream
    armed, as DMMMeasureRep leaves it. *)
Definition streaming (idx : Z) (rx : list string) : State :=
  mk_state "" "" "" 0 0 0 1 0 0 None
    (mk_ext "" (mk_world idx 1 1234 0 rx)) [].

(** A state with the raw flag set.  No command sets it; the state only
    serves to run the raw branch of the repeated step. *)
Definition raw_armed (idx : Z) : State :=
  mk_state "" "" "" 0 0 0 0 1 0 None
    (mk_ext "" (mk_world idx 1 1234 0 [])) [].

(** Three lines waiting: select a scale, start the calibrated stream, ask
    for an averaged value. *)
Definition session : State :=
  start 0 ["DMMConfig VoltageDC5"; "DMMMeasureRep"; "DMMMeasureAvg"].

(** The bench after one and after two poll cycles of [session]. *)
Definition after_one_poll : State := state_of (DMMCMD_CheckForCommand session).
Definition after_two_polls : State := state_of (DMMCMD_CheckForCommand after_one_poll).

End Bench.


(** ** Start-up: [DMMCMD_Init] and the demo of [main.c] *)

(** What [DMMCMD_Init] (lines 153-175) and [Demo_UART_Dispatch]
    ([main.c], lines 69-81) call besides the collaborators of the command
    loop. *)
Class Startup {C : Collaborators} : Type := {
  DMM_Init : Ext World -> Ext World;
  CALIB_Init : Ext World -> Z * Ext World;
  UART_Init : Z -> Ext World -> Z * Ext World;
  SERIALNO_Init : Ext World -> Ext World;
  GPIO_Init : Ext World -> Ext World;
  ERRORS_Init : string -> string -> Ext World -> Ext World;
  GPIO_OUTPUT_CHANNEL : Z;
  XGpio_DiscreteSet : Z -> Z -> Ext World -> Ext World
}.

Section StartupModel.

Context {C : Collaborators} {St : Startup}.

(** A call of a start-up function.  The trace lists the calls of the command
    loop; the start-up calls act on the outside without an entry in it. *)
Definition startup_call {A : Type} (f : Ext World -> A * Ext World) : M A :=
  fun s => let (a, x) := f (ext s) in Ok a (set_ext x s).

Definition startup (f : Ext World -> Ext World) : M unit :=
  startup_call (fun x => (tt, f x)).

(** [DMMCMD_Init], lines 153-175.  [pszLastErr = ERRORS_GetszLastError()] has
    no counterpart: a [State] reaches the last-error buffer from the start.
    [OLED_Begin], [OLED_SetCharUpdate] and [OLED_DisplayOn] set up the
    display device, which is no part of the state. *)
Definition DMMCMD_Init : M Z :=
  startup DMM_Init ;;
  r <- startup_call CALIB_Init ;;
  let bErrCode := to_u8 r in
  r <- startup_call (UART_Init 115200) ;;
  let bErrCode := to_u8 r in
  (if bErrCode =? ERRVAL_SUCCESS then startup SERIALNO_Init else ret tt) ;;
  DMMCMD_PmodOLEDDisplay "No value" ;;
  ret bErrCode.

(** [Demo_UART_Dispatch], [main.c] lines 69-81, with [n] turns of its
    endless loop. *)
Definition Demo_UART_Dispatch (n : nat) : M unit :=
  startup GPIO_Init ;;
  DMMCMD_Init ;;
  startup (ERRORS_Init "OK" "ERROR") ;;
  UART_PutString ("Command loop" ++ CRLF) ;;
  startup (XGpio_DiscreteSet GPIO_OUTPUT_CHANNEL 0) ;;
  poll n.

End StartupModel.

(** ** Vocabulary of the further properties *)

Section Footprints.

Context {C : Collaborators}.

(** No character of [s] is one of [d]. *)
Fixpoint free_of (d s : string) : bool :=
  match s with
  | EmptyString => true
  | String c rest => negb (is_delim d c) && free_of d rest
  end.

(** [n] spaces. *)
Fixpoint spaces (n : nat) : string :=
  match n with
  | O => EmptyString
  | S n' => String " "%char (spaces n')
  end.

(** The arguments of a command line: the strings joined by commas. *)
Fixpoint join_args (args : list string) : string :=
  match args with
  | [] => EmptyString
  | [a] => a
  | a :: rest => a ++ "," ++ join_args rest
  end.

(** An argument as it can stand in a command line: not empty, without a
    comma and without a NUL. *)
Definition arg_ok (a : string) : bool :=
  negb (String.eqb a EmptyString) && free_of (String ","%char (String NUL EmptyString)) a.

(** [n] calls of [DMMCMD_CmdGetNextArg] in a row. *)
Fixpoint get_args (n : nat) : M (list (option string)) :=
  match n with
  | O => ret []
  | S n' =>
      a <- DMMCMD_CmdGetNextArg ;;
      l <- get_args n' ;;
      ret (a :: l)
  end.

(** A computation that only appends to the trace, and only events of [P],
    whether it returns or gets stuck. *)
Definition appends {A : Type} (P : Event -> bool) (m : M A) : Prop :=
  forall s, exists l, trace (state_of (m s)) = (trace s ++ l)%list /\ forallb P l = true.

(** [strtok] was given a string: [DMMCMD_CmdDecode] has run. *)
Definition has_line (s : State) : Prop := strtok_ptr s <> None.


Definition any_event (e : Event) : bool := true.


(** The events that are no call of a calibration session or of the import. *)
Definition no_calibration (e : Event) : bool :=
  match e with
  | Ev_CALIB_CalibOnPositive _ _ | Ev_CALIB_CalibOnNegative _ _
  | Ev_CALIB_CalibOnZero | Ev_CALIB_ImportCalibCoefficients _ _ _ => false
  | _ => true
  end.

(** The events that send nothing on the serial line. *)
Definition no_UART_PutString (e : Event) : bool :=
  match e with
  | Ev_UART_PutString _ => false
  | _ => true
  end.

(** A computation that, when it returns, has sent exactly one line, the
    content of [szMsg] at its end. *)
Definition sends_szMsg {A : Type} (m : M A) : Prop :=
  forall s a s', m s = Ok a s' ->
                 uart_tx (trace s') = (uart_tx (trace s) ++ [szMsg s'])%list.

(** A computation that leaves the part [f] of the state as it was, whether
    it returns or gets stuck. *)
Definition unchanged {A B : Type} (f : State -> B) (m : M A) : Prop :=
  forall s, f (state_of (m s)) = f s.

(** The column [DMMCMD_PmodOLEDDisplay] hands to [OLED_SetCursor] for a
    string: [(16 - strlen(s)) / 2], computed in [size_t]. *)
Definition column_of (s : string) : Z := to_size_t (16 - strlen s) / 2.

End Footprints.

(** The bench for the start-up: the calibration area of the EPROM is blank
    ([CALIB_Init] reports a wrong magic number, 0xFD), the serial line opens. *)
Module BenchStartup.

#[export] Instance startup : @Startup Bench.collaborators := {|
  DMM_Init := fun x => x;
  CALIB_Init := fun x => (253, x);
  UART_Init := fun _ x => (0, x);
  SERIALNO_Init := fun x => x;
  GPIO_Init := fun x => x;
  ERRORS_Init := fun _ _ x => x;
  GPIO_OUTPUT_CHANNEL := 1;
  XGpio_DiscreteSet := fun _ _ x => x
|}.

End BenchStartup.


(** * Properties *)

(** ** The monad and the trace *)

Section Properties.

Context {C : Collaborators}.

Lemma state_of_bind {A B : Type} (m : M A) (k : A -> M B) (s : State) :
  state_of (bind m k s) =
  match m s with
  | Ok a s' => state_of (k a s')
  | Undef s' => s'
  end.
Proof. unfold bind. destruct (m s); reflexivity. Qed.

Lemma uart_tx_app (t u : list Event) : uart_tx (t ++ u) = (uart_tx t ++ uart_tx u)%list.
Proof.
  induction t as [|e t IH]; simpl; [reflexivity|].
  destruct e; simpl; rewrite IH; reflexivity.
Qed.

Lemma last_UseCalib_app (t u : list Event) (acc : option Z) :
  last_UseCalib (t ++ u) acc = last_UseCalib u (last_UseCalib t acc).
Proof.
  revert acc. induction t as [|e t IH]; intro acc; simpl; [reflexivity|].
  destruct e; apply IH.
Qed.

Lemma keeps_ret {A : Type} (a : A) : keeps_flags (ret a).
Proof. intro s. reflexivity. Qed.

Lemma keeps_undefined {A : Type} : keeps_flags (@undefined C A).
Proof. intro s. reflexivity. Qed.

Lemma keeps_read {A : Type} (f : State -> A) : keeps_flags (read f).
Proof. intro s. reflexivity. Qed.

Lemma keeps_write (f : State -> State) :
  (forall s, flags (f s) = flags s) -> keeps_flags (write f).
Proof. intros H s. apply H. Qed.

Lemma keeps_emit (e : Event) : keeps_flags (emit e).
Proof. intro s. reflexivity. Qed.

Lemma keeps_call {A : Type} (e : Event) (f : Ext World -> A * Ext World) :
  keeps_flags (call e f).
Proof. intro s. unfold call. destruct (f (ext s)). reflexivity. Qed.

Lemma keeps_bind {A B : Type} (m : M A) (k : A -> M B) :
  keeps_flags m -> (forall a, keeps_flags (k a)) -> keeps_flags (bind m k).
Proof.
  intros Hm Hk s. rewrite state_of_bind. specialize (Hm s).
  destruct (m s) as [a s'|s']; simpl in Hm.
  - rewrite Hk. exact Hm.
  - exact Hm.
Qed.

Lemma keeps_strtok (str : option string) (delim : string) :
  keeps_flags (strtok str delim).
Proof.
  intro s. unfold strtok.
  destruct str as [buf|]; [|destruct (strtok_ptr s)];
    try destruct (strtok_scan _ _); reflexivity.
Qed.

Lemma keeps_GetPrefixedMessageString (bErrCode : Z) (arg : option string) :
  keeps_flags (GetPrefixedMessageString_szMsg bErrCode arg).
Proof.
  intro s. unfold GetPrefixedMessageString_szMsg.
  destruct (ERRORS_GetPrefixedMessageString _ _ _ _). reflexivity.
Qed.

Lemma keeps_InterpretValue (arg0 : option string) :
  keeps_flags (InterpretValue_dRefVal arg0).
Proof.
  intro s. unfold InterpretValue_dRefVal.
  destruct (DMM_InterpretValue _ _ _). reflexivity.
Qed.

Lemma keeps_CalibOnPositive (bEarly : Z) : keeps_flags (CalibOnPositive_globals bEarly).
Proof.
  intro s. unfold CalibOnPositive_globals.
  destruct (CALIB_CalibOnPositive _ _ _ _ _ _) as [[[r m] d] x]. reflexivity.
Qed.

Lemma keeps_CalibOnNegative (bEarly : Z) : keeps_flags (CalibOnNegative_globals bEarly).
Proof.
  intro s. unfold CalibOnNegative_globals.
  destruct (CALIB_CalibOnNegative _ _ _ _ _ _) as [[[r m] d] x]. reflexivity.
Qed.

Lemma keeps_CalibOnZero : keeps_flags CalibOnZero_globals.
Proof.
  intro s. unfold CalibOnZero_globals.
  destruct (CALIB_CalibOnZero _ _ _ _) as [[[r m] d] x]. reflexivity.
Qed.

Create HintDb frames.

#[local] Hint Resolve keeps_ret keeps_undefined keeps_read keeps_emit keeps_call
  keeps_strtok keeps_GetPrefixedMessageString keeps_InterpretValue
  keeps_CalibOnPositive keeps_CalibOnNegative keeps_CalibOnZero : frames.

(** Walks down a computation built from [bind], [if] and [match]. *)
Ltac frame :=
  repeat first
    [ apply keeps_bind; [ | intro ]
    | apply keeps_write; intro; reflexivity
    | solve [ auto with frames ]
    | match goal with
      | |- keeps_flags (match ?x with _ => _ end) => destruct x
      end ].

Lemma keeps_UART_PutString_szMsg : keeps_flags UART_PutString_szMsg.
Proof. unfold UART_PutString_szMsg, UART_PutString. frame. Qed.

Lemma keeps_SetUseCalib (f : Z) : keeps_flags (SetUseCalib f).
Proof. unfold SetUseCalib. frame. Qed.

Lemma keeps_FormatValue (d : double) : keeps_flags (FormatValue d).
Proof. unfold FormatValue. frame. Qed.

#[local] Hint Resolve keeps_UART_PutString_szMsg keeps_SetUseCalib keeps_FormatValue : frames.

Lemma keeps_append_LastErr : keeps_flags append_LastErr.
Proof. unfold append_LastErr. frame. Qed.

Lemma keeps_Format_dRefVal : keeps_flags Format_dRefVal.
Proof. unfold Format_dRefVal. frame. Qed.

Lemma keeps_Format_dMeasuredVal : keeps_flags Format_dMeasuredVal.
Proof. unfold Format_dMeasuredVal. frame. Qed.

Lemma keeps_sprintf_calib_done (which : string) : keeps_flags (sprintf_calib_done which).
Proof. unfold sprintf_calib_done. frame. Qed.

Lemma keeps_PmodOLEDDisplay (pszVal : string) : keeps_flags (DMMCMD_PmodOLEDDisplay pszVal).
Proof. unfold DMMCMD_PmodOLEDDisplay. frame. Qed.

#[local] Hint Resolve keeps_append_LastErr keeps_Format_dRefVal keeps_Format_dMeasuredVal
  keeps_sprintf_calib_done keeps_PmodOLEDDisplay : frames.

Lemma keeps_CmdDecode (szCmd : string) : keeps_flags (DMMCMD_CmdDecode szCmd).
Proof. unfold DMMCMD_CmdDecode. frame. Qed.

Lemma keeps_CmdGetNextArg : keeps_flags DMMCMD_CmdGetNextArg.
Proof. unfold DMMCMD_CmdGetNextArg. frame. Qed.

Lemma keeps_CmdConfig (arg0 : option string) : keeps_flags (DMMCMD_CmdConfig arg0).
Proof. unfold DMMCMD_CmdConfig. frame. Qed.

Lemma keeps_CmdMeasureRaw : keeps_flags DMMCMD_CmdMeasureRaw.
Proof. unfold DMMCMD_CmdMeasureRaw. frame. Qed.

Lemma keeps_CmdMeasureAvg : keeps_flags DMMCMD_CmdMeasureAvg.
Proof. unfold DMMCMD_CmdMeasureAvg. frame. Qed.

Lemma keeps_CmdCalibP (arg0 : option string) : keeps_flags (DMMCMD_CmdCalibP arg0).
Proof. unfold DMMCMD_CmdCalibP. frame. Qed.

Lemma keeps_CmdCalibN (arg0 : option string) : keeps_flags (DMMCMD_CmdCalibN arg0).
Proof. unfold DMMCMD_CmdCalibN. frame. Qed.

Lemma keeps_CmdCalibZ : keeps_flags DMMCMD_CmdCalibZ.
Proof. unfold DMMCMD_CmdCalibZ. frame. Qed.

Lemma keeps_CmdFinalizeCalibP (arg0 : option string) :
  keeps_flags (DMMCMD_CmdFinalizeCalibP arg0).
Proof. unfold DMMCMD_CmdFinalizeCalibP. frame. Qed.

Lemma keeps_CmdFinalizeCalibN (arg0 : option string) :
  keeps_flags (DMMCMD_CmdFinalizeCalibN arg0).
Proof. unfold DMMCMD_CmdFinalizeCalibN. frame. Qed.

Lemma keeps_CmdMeasureForCalibP : keeps_flags DMMCMD_CmdMeasureForCalibP.
Proof. unfold DMMCMD_CmdMeasureForCalibP. frame. Qed.

Lemma keeps_CmdMeasureForCalibN : keeps_flags DMMCMD_CmdMeasureForCalibN.
Proof. unfold DMMCMD_CmdMeasureForCalibN. frame. Qed.

Lemma keeps_CmdSaveEPROM : keeps_flags DMMCMD_CmdSaveEPROM.
Proof. unfold DMMCMD_CmdSaveEPROM. frame. Qed.

Lemma keeps_CmdVerifyEPROM : keeps_flags DMMCMD_CmdVerifyEPROM.
Proof. unfold DMMCMD_CmdVerifyEPROM. frame. Qed.

Lemma keeps_CmdExportCalib : keeps_flags DMMCMD_CmdExportCalib.
Proof. unfold DMMCMD_CmdExportCalib, UART_PutString. frame. Qed.

Lemma keeps_CmdImportCalib (arg0 arg1 arg2 : option string) :
  keeps_flags (DMMCMD_CmdImportCalib arg0 arg1 arg2).
Proof. unfold DMMCMD_CmdImportCalib. frame. Qed.

Lemma keeps_CmdRestoreFactCalib : keeps_flags DMMCMD_CmdRestoreFactCalib.
Proof. unfold DMMCMD_CmdRestoreFactCalib. frame. Qed.

Lemma keeps_CmdReadSerialNo : keeps_flags DMMCMD_CmdReadSerialNo.
Proof. unfold DMMCMD_CmdReadSerialNo. frame. Qed.

Lemma keeps_ProcessRepeatedCmd : keeps_flags DMMCMD_ProcessRepeatedCmd.
Proof. unfold DMMCMD_ProcessRepeatedCmd. frame. Qed.


#[local] Hint Resolve keeps_CmdDecode keeps_CmdGetNextArg keeps_CmdConfig
  keeps_CmdMeasureRaw keeps_CmdMeasureAvg keeps_CmdCalibP keeps_CmdCalibN
  keeps_CmdCalibZ keeps_CmdFinalizeCalibP keeps_CmdFinalizeCalibN
  keeps_CmdMeasureForCalibP keeps_CmdMeasureForCalibN keeps_CmdSaveEPROM
  keeps_CmdVerifyEPROM keeps_CmdExportCalib keeps_CmdImportCalib
  keeps_CmdRestoreFactCalib keeps_CmdReadSerialNo keeps_ProcessRepeatedCmd : frames.

(** ** The handlers that write the flags *)

Lemma CmdMeasureRep_run (s : State) :
  DMMCMD_CmdMeasureRep s =
  Ok ERRVAL_SUCCESS
     (log (Ev_UART_PutString (composed ERRVAL_SUCCESS "Measure repeated" (ext s)))
        (set_szMsg (composed ERRVAL_SUCCESS "Measure repeated" (ext s))
           (set_fRepGetRaw 0 (set_fRepGetVal 1 s)))).
Proof.
  unfold DMMCMD_CmdMeasureRep, composed, bind, write, GetPrefixedMessageString_szMsg,
    UART_PutString_szMsg, UART_PutString, emit, read, write, ret, bind. simpl.
  destruct (ERRORS_GetPrefixedMessageString _ _ _ _). reflexivity.
Qed.

Lemma CmdMeasureStop_run (s : State) :
  DMMCMD_CmdMeasureStop s =
  Ok ERRVAL_SUCCESS
     (log (Ev_UART_PutString (composed ERRVAL_SUCCESS "Stop repeated" (ext s)))
        (set_szMsg (composed ERRVAL_SUCCESS "Stop repeated" (ext s))
           (set_fRepGetRaw 0 (set_fRepGetVal 0 s)))).
Proof.
  unfold DMMCMD_CmdMeasureStop, composed, bind, write, GetPrefixedMessageString_szMsg,
    UART_PutString_szMsg, UART_PutString, emit, read, write, ret, bind. simpl.
  destruct (ERRORS_GetPrefixedMessageString _ _ _ _). reflexivity.
Qed.

(** Every key but [CMD_MeasureRep] and [CMD_MeasureStop] is processed
    without a write to the flags. *)
Lemma keeps_ProcessCmd (keyCmd : cmd_key_t) :
  keyCmd = CMD_MeasureRep \/ keyCmd = CMD_MeasureStop \/
  keeps_flags (DMMCMD_ProcessCmd keyCmd).
Proof.
  destruct keyCmd; auto; right; right; unfold DMMCMD_ProcessCmd; frame.
Qed.

Lemma ProcessCmd_Rep (s : State) :
  exists s', DMMCMD_ProcessCmd CMD_MeasureRep s = Ok tt s' /\
             flags s' = (1, 0, fRepBlock s).
Proof.
  unfold DMMCMD_ProcessCmd, bind. rewrite CmdMeasureRep_run.
  eexists; split; reflexivity.
Qed.

Lemma ProcessCmd_Stop (s : State) :
  exists s', DMMCMD_ProcessCmd CMD_MeasureStop s = Ok tt s' /\
             flags s' = (0, 0, fRepBlock s).
Proof.
  unfold DMMCMD_ProcessCmd, bind. rewrite CmdMeasureStop_run.
  eexists; split; reflexivity.
Qed.

(** ** What holds between two poll cycles *)

Lemma preserves_bind {A B : Type} (P : State -> Prop) (m : M A) (k : A -> M B) :
  preserves P m -> (forall a, preserves P (k a)) -> preserves P (bind m k).
Proof.
  intros Hm Hk s Hs. rewrite state_of_bind. specialize (Hm s Hs).
  destruct (m s) as [a s'|s']; simpl in Hm; [apply Hk|]; exact Hm.
Qed.

Lemma keeps_preserves_quiet {A : Type} (m : M A) : keeps_flags m -> preserves quiet m.
Proof.
  intros Hm s [Hraw Hblock]. specialize (Hm s). unfold flags in Hm.
  injection Hm as _ Hr Hb. unfold quiet. rewrite Hr, Hb. auto.
Qed.

Lemma ProcessCmd_quiet (keyCmd : cmd_key_t) : preserves quiet (DMMCMD_ProcessCmd keyCmd).
Proof.
  destruct (keeps_ProcessCmd keyCmd) as [-> | [-> | Hk]].
  - intros s [_ Hb]. destruct (ProcessCmd_Rep s) as (s' & -> & Hf).
    unfold flags in Hf. injection Hf as _ Hr Hb'. split; simpl; congruence.
  - intros s [_ Hb]. destruct (ProcessCmd_Stop s) as (s' & -> & Hf).
    unfold flags in Hf. injection Hf as _ Hr Hb'. split; simpl; congruence.
  - apply keeps_preserves_quiet, Hk.
Qed.

Lemma decode_and_process_quiet (uartCmd : string) :
  preserves quiet (decode_and_process uartCmd).
Proof.
  unfold decode_and_process. apply preserves_bind.
  - apply keeps_preserves_quiet, keeps_CmdDecode.
  - intro keyCmd. apply ProcessCmd_quiet.
Qed.

Lemma receive_command_quiet : preserves quiet receive_command.
Proof.
  unfold receive_command.
  apply preserves_bind; [apply keeps_preserves_quiet; frame|].
  intros [cchi uartCmd]. destruct (0 <? cchi).
  - repeat first
      [ apply decode_and_process_quiet
      | apply keeps_preserves_quiet; solve [frame]
      | apply preserves_bind; [|intro] ].
    intros s [Hr _]. split; [exact Hr | reflexivity].
  - apply keeps_preserves_quiet. frame.
Qed.

Lemma CheckForCommand_quiet : preserves quiet DMMCMD_CheckForCommand.
Proof.
  unfold DMMCMD_CheckForCommand.
  apply preserves_bind; [apply receive_command_quiet|]. intros _.
  apply keeps_preserves_quiet. frame.
Qed.

Lemma reachable_quiet (s : State) : reachable s -> quiet s.
Proof.
  induction 1 as [s Hs | s _ IH | s x _ IH].
  - unfold after_init, flags in Hs. injection Hs as _ Hr Hb. split; assumption.
  - apply CheckForCommand_quiet, IH.
  - exact IH.
Qed.

(** ** Decoding the lines of the three streaming commands *)

Lemma decode_MeasureRep (s : State) :
  DMMCMD_CmdDecode "DMMMeasureRep" s =
  Ok CMD_MeasureRep (set_LastErr "" (set_strtok_ptr (Some "") s)).
Proof. reflexivity. Qed.

Lemma decode_MeasureStop (s : State) :
  DMMCMD_CmdDecode "DMMMeasureStop" s =
  Ok CMD_MeasureStop (set_LastErr "" (set_strtok_ptr (Some "") s)).
Proof. reflexivity. Qed.

Lemma decode_MeasureRaw (s : State) :
  DMMCMD_CmdDecode "DMMMeasureRaw" s =
  Ok CMD_MeasureRaw (set_LastErr "" (set_strtok_ptr (Some "") s)).
Proof. reflexivity. Qed.

(** Projections of explicit states. *)
Ltac proj :=
  cbn [trace szMsg szVal szRefVal dRefVal dMeasuredVal dispersion fRepGetVal
       fRepGetRaw fRepBlock strtok_ptr ext negb fst snd LastErr dev].

(** Unfolds the monad down to the collaborators. *)
Ltac run :=
  cbv beta iota zeta delta
    [bind ret read write emit call undefined UART_PutString_szMsg UART_PutString
     SetUseCalib FormatValue GetPrefixedMessageString_szMsg Format_dMeasuredVal
     Format_dRefVal composed log logs set_szMsg set_szVal set_szRefVal set_dRefVal
     set_dMeasuredVal set_dispersion set_fRepGetVal set_fRepGetRaw set_fRepBlock
     set_strtok_ptr set_ext set_LastErr state_of flags];
  proj.

(** Brings a trace to the form [trace s ++ [e1; ...; en]]. *)
Ltac traces := repeat rewrite <- app_assoc; cbn [app].

(** [DMMCMD_CmdMeasureRaw] always returns; it makes one acquisition between
    [DMM_SetUseCalib(0)] and [DMM_SetUseCalib(1)], sends one line, and
    leaves the flags alone. *)
Lemma CmdMeasureRaw_run (s : State) :
  exists s',
    DMMCMD_CmdMeasureRaw s =
      Ok (to_u8 (snd (fst (DMM_DGetValue (DMM_SetUseCalib 0 (ext s)))))) s' /\
    flags s' = flags s /\
    ext s' = DMM_SetUseCalib 1 (snd (DMM_DGetValue (DMM_SetUseCalib 0 (ext s)))) /\
    trace s' = (trace s ++ [Ev_DMM_SetUseCalib 0; Ev_DMM_DGetValue; Ev_DMM_SetUseCalib 1;
                            Ev_UART_PutString (szMsg s')])%list.
Proof.
  unfold DMMCMD_CmdMeasureRaw. run.
  destruct (DMM_DGetValue (DMM_SetUseCalib 0 (ext s))) as [[d e] x]; run.
  destruct (to_u8 e =? ERRVAL_SUCCESS); run;
    try destruct (ERRORS_GetPrefixedMessageString _ _ _ _); run;
    eexists; repeat split; run; traces; reflexivity.
Qed.

Lemma ProcessCmd_Raw (s : State) :
  exists s', DMMCMD_ProcessCmd CMD_MeasureRaw s = Ok tt s' /\ flags s' = flags s.
Proof.
  destruct (CmdMeasureRaw_run s) as (s1 & Hrun & Hf & _).
  unfold DMMCMD_ProcessCmd, bind. rewrite Hrun. simpl.
  eexists; split; [reflexivity | exact Hf].
Qed.

(** C1 (as amended): in every reachable state at most one of [fRepGetVal],
    [fRepGetRaw] is set; [fRepGetRaw] is in fact never set.  Processing the line DMMMeasureRep sets
    [fRepGetVal] and clears [fRepGetRaw]; processing DMMMeasureStop clears
    both; processing DMMMeasureRaw, a single raw acquisition, leaves both as
    they were.  So, from every state, DMMMeasureRep followed by
    DMMMeasureRaw leaves the calibrated flag set and the raw flag clear. *)
Theorem C1_repeated_flags (s : State) (Hreach : reachable s) :
  (fRepGetVal s = 0 \/ fRepGetRaw s = 0) /\
  fRepGetRaw s = 0 /\
  (forall s0, exists s1,
      decode_and_process "DMMMeasureRep" s0 = Ok tt s1 /\
      fRepGetVal s1 = 1 /\ fRepGetRaw s1 = 0) /\
  (forall s0, exists s1,
      decode_and_process "DMMMeasureStop" s0 = Ok tt s1 /\
      fRepGetVal s1 = 0 /\ fRepGetRaw s1 = 0) /\
  (forall s0, exists s1,
      decode_and_process "DMMMeasureRaw" s0 = Ok tt s1 /\
      fRepGetVal s1 = fRepGetVal s0 /\ fRepGetRaw s1 = fRepGetRaw s0) /\
  (forall s0, exists s2,
      (decode_and_process "DMMMeasureRep" ;; decode_and_process "DMMMeasureRaw") s0
        = Ok tt s2 /\
      fRepGetVal s2 = 1 /\ fRepGetRaw s2 = 0).
Proof.
  assert (Hrep : forall s0, exists s1,
             decode_and_process "DMMMeasureRep" s0 = Ok tt s1 /\
             fRepGetVal s1 = 1 /\ fRepGetRaw s1 = 0).
  { intro s0. unfold decode_and_process, bind. rewrite decode_MeasureRep.
    destruct (ProcessCmd_Rep (set_LastErr "" (set_strtok_ptr (Some "") s0)))
      as (s1 & -> & Hf).
    exists s1. unfold flags in Hf. injection Hf as Hv Hr _. auto. }
  assert (Hraw : forall s0, exists s1,
             decode_and_process "DMMMeasureRaw" s0 = Ok tt s1 /\
             fRepGetVal s1 = fRepGetVal s0 /\ fRepGetRaw s1 = fRepGetRaw s0).
  { intro s0. unfold decode_and_process, bind. rewrite decode_MeasureRaw.
    destruct (ProcessCmd_Raw (set_LastErr "" (set_strtok_ptr (Some "") s0)))
      as (s1 & -> & Hf).
    exists s1. unfold flags in Hf. injection Hf as Hv Hr _. auto. }
  repeat split.
  - right. apply (reachable_quiet s Hreach).
  - apply (reachable_quiet s Hreach).
  - exact Hrep.
  - intro s0. unfold decode_and_process, bind. rewrite decode_MeasureStop.
    destruct (ProcessCmd_Stop (set_LastErr "" (set_strtok_ptr (Some "") s0)))
      as (s1 & -> & Hf).
    exists s1. unfold flags in Hf. injection Hf as Hv Hr _. auto.
  - exact Hraw.
  - intro s0. destruct (Hrep s0) as (s1 & H1 & Hv1 & Hr1).
    destruct (Hraw s1) as (s2 & H2 & Hv2 & Hr2).
    exists s2. unfold bind at 1. rewrite H1. split; [exact H2 | split; congruence].
Qed.

(** ** The display and the repeated step *)

(** [DMMCMD_PmodOLEDDisplay] only talks to the display: returning or stuck,
    it has appended display events and changed nothing else. *)
Lemma PmodOLEDDisplay_run (pszVal : string) (s : State) :
  exists disp,
    forallb is_OLED disp = true /\
    (DMMCMD_PmodOLEDDisplay pszVal s = Ok tt (logs disp s) \/
     DMMCMD_PmodOLEDDisplay pszVal s = Undef (logs disp s)).
Proof.
  unfold DMMCMD_PmodOLEDDisplay. run.
  destruct (DMM_GetCurrentScale (dev (ext s)) =? -1); run.
  - eexists. split; [|left; traces; reflexivity]. reflexivity.
  - destruct (nth_scale (DMM_GetCurrentScale (dev (ext s)))) as [name|]; run.
    + eexists. split; [|left; traces; reflexivity]. reflexivity.
    + eexists. split; [|right; traces; reflexivity]. reflexivity.
Qed.

Lemma forallb_OLED_no_DMM (l : list Event) :
  forallb is_OLED l = true -> forallb no_DMM_access l = true.
Proof.
  induction l as [|e l IH]; simpl; [reflexivity|].
  intro H. apply andb_true_iff in H as [He Hl]. rewrite (IH Hl).
  destruct e; simpl in *; congruence.
Qed.

Lemma forallb_OLED_no_tx (l : list Event) : forallb is_OLED l = true -> uart_tx l = [].
Proof.
  induction l as [|e l IH]; simpl; [reflexivity|].
  intro H. apply andb_true_iff in H as [He Hl].
  destruct e; simpl in *; try congruence; apply IH, Hl.
Qed.

(** With a flag set and [fRepBlock] clear, the repeated step acquires a
    value, re-enables the calibration and then no longer touches the
    instrument; when it returns, it has sent exactly one line, the content of
    [szMsg]. *)
Lemma ProcessRepeatedCmd_armed (s : State) :
  is_set (fRepGetVal s) || is_set (fRepGetRaw s) = true ->
  fRepBlock s = 0 ->
  exists tail,
    trace (state_of (DMMCMD_ProcessRepeatedCmd s))
      = (trace s ++ acquisition (fRepGetRaw s) ++ tail)%list /\
    forallb no_DMM_access tail = true /\
    ext (state_of (DMMCMD_ProcessRepeatedCmd s))
      = DMM_SetUseCalib 1 (snd (DMM_DGetValue (before_acquisition s))) /\
    (forall r s', DMMCMD_ProcessRepeatedCmd s = Ok r s' ->
                  uart_tx tail = [szMsg s'] /\
                  exists pre, tail = (pre ++ [Ev_UART_PutString (szMsg s')])%list).
Proof.
  intros Harmed Hblock.
  unfold DMMCMD_ProcessRepeatedCmd, acquisition, before_acquisition. run.
  rewrite Harmed, Hblock. cbn [is_set Z.eqb negb andb].
  destruct (is_set (fRepGetRaw s)) eqn:Hraw; run;
    destruct (DMM_DGetValue _) as [[d e] x]; run;
    (destruct (to_u8 e =? ERRVAL_SUCCESS); run;
     [ destruct (is_set (fRepGetVal s)); run;
       [ match goal with |- context [DMMCMD_PmodOLEDDisplay ?v ?s0] =>
           destruct (PmodOLEDDisplay_run v s0) as (disp & Hd & [-> | ->]) end; run;
         [ exists (disp ++ [Ev_UART_PutString
                              ("Value: " ++ DMM_FormatValue d 1 (DMM_SetUseCalib 1 x) ++ CRLF)])%list
         | exists disp ]
       | eexists ]
     | destruct (ERRORS_GetPrefixedMessageString _ _ _ _) as [r msg]; run; eexists ]);
    (split; [traces; reflexivity|]);
    (split; [try rewrite forallb_app; try rewrite (forallb_OLED_no_DMM _ Hd); reflexivity|]);
    (split; [reflexivity|]);
    intros r' s' Hret; try discriminate Hret; injection Hret as _ <-; proj;
    (split; [try rewrite uart_tx_app; try rewrite (forallb_OLED_no_tx _ Hd); reflexivity|]);
    first [ exists disp; reflexivity | exists []; reflexivity ].
Qed.

(** ** The poll cycle *)

(** [receive_command] returns [true] exactly when a line was received
    ([cchi > 0]) and its processing returned; the last thing it does then
    is [fRepBlock = 0]. *)
Lemma receive_command_true (s s1 : State) :
  receive_command s = Ok true s1 ->
  exists cchi uartCmd x s0,
    UART_GetString (ext s) = ((cchi, uartCmd), x) /\
    0 < cchi /\
    decode_and_process uartCmd
      (logs [Ev_UART_PutString ("Received command: " ++ c_str uartCmd ++ CRLF)]
         (set_szMsg ("Received command: " ++ c_str uartCmd ++ CRLF)
            (set_ext x (logs [Ev_UART_GetString] s)))) = Ok tt s0 /\
    s1 = set_fRepBlock 0 s0.
Proof.
  unfold receive_command. run.
  destruct (UART_GetString (ext s)) as [[cchi uartCmd] x] eqn:Hget; run.
  destruct (0 <? cchi) eqn:Hpos; run; [|discriminate].
  match goal with |- context [decode_and_process ?u ?s0] =>
    destruct (decode_and_process u s0) as [[] s0'|s0'] eqn:Hproc end;
    run; [|discriminate].
  intro H. injection H as <-.
  exists cchi, uartCmd, x, s0'. repeat split; try reflexivity.
  - apply Z.ltb_lt, Hpos.
  - exact Hproc.
Qed.

(** C2 (as amended): [fRepBlock] is never set: it is 0 in every reachable
    state, and the only write to it stores 0 after a received line was
    processed.  So it suppresses nothing: in a poll cycle in which a line
    was received and processed, leaving a repeated-mode flag set, the
    repeated step runs in that same cycle, right after the command (its
    acquisition follows the events of the command), and when the cycle
    returns, the last line sent is the repeated-mode line, after whatever
    the command sent.  In every reachable state with a flag set the repeated
    step makes its acquisition, so the stream goes on in the cycles that
    follow. *)
Theorem C2_block_flag_never_suppresses (s s1 : State)
    (Hreach : reachable s)
    (Hreceived : receive_command s = Ok true s1)
    (Harmed : is_set (fRepGetVal s1) || is_set (fRepGetRaw s1) = true) :
  fRepBlock s = 0 /\
  fRepBlock s1 = 0 /\
  (exists tail,
      trace (state_of (DMMCMD_CheckForCommand s))
        = (trace s1 ++ acquisition (fRepGetRaw s1) ++ tail)%list /\
      (forall s', DMMCMD_CheckForCommand s = Ok tt s' ->
                  uart_tx (trace s') = (uart_tx (trace s1) ++ [szMsg s'])%list)) /\
  (forall s0,
      reachable s0 ->
      is_set (fRepGetVal s0) || is_set (fRepGetRaw s0) = true ->
      exists tail0,
        trace (state_of (DMMCMD_ProcessRepeatedCmd s0))
          = (trace s0 ++ acquisition (fRepGetRaw s0) ++ tail0)%list).
Proof.
  assert (Hlater : forall s0,
             reachable s0 ->
             is_set (fRepGetVal s0) || is_set (fRepGetRaw s0) = true ->
             exists tail0,
               trace (state_of (DMMCMD_ProcessRepeatedCmd s0))
                 = (trace s0 ++ acquisition (fRepGetRaw s0) ++ tail0)%list).
  { intros s0 Hr0 Ha0.
    destruct (ProcessRepeatedCmd_armed s0 Ha0 (proj2 (reachable_quiet s0 Hr0)))
      as (tail0 & Htr0 & _).
    exists tail0. exact Htr0. }
  assert (Hb1 : fRepBlock s1 = 0).
  { destruct (receive_command_true s s1 Hreceived) as (? & ? & ? & s0 & _ & _ & _ & ->).
    reflexivity. }
  split; [apply (reachable_quiet s Hreach)|]. split; [exact Hb1|].
  split; [|exact Hlater].
  destruct (ProcessRepeatedCmd_armed s1 Harmed Hb1) as (tail & Htr & _ & _ & Hret).
  assert (Hcycle : DMMCMD_CheckForCommand s =
                   match DMMCMD_ProcessRepeatedCmd s1 with
                   | Ok _ s2 => Ok tt s2
                   | Undef s2 => Undef s2
                   end).
  { unfold DMMCMD_CheckForCommand, bind. rewrite Hreceived. reflexivity. }
  exists tail. rewrite Hcycle.
  destruct (DMMCMD_ProcessRepeatedCmd s1) as [r s2|s2] eqn:Hstep;
    cbn [state_of] in *.
  - split; [exact Htr|]. intros s' H. injection H as <-.
    destruct (Hret r s2 eq_refl) as [Htx _].
    rewrite Htr, !uart_tx_app, Htx.
    assert (Hacq : uart_tx (acquisition (fRepGetRaw s1)) = []).
    { unfold acquisition. destruct (is_set (fRepGetRaw s1)); reflexivity. }
    rewrite Hacq. reflexivity.
  - split; [exact Htr|]. intros s' H. discriminate H.
Qed.

(** C5: in both raw acquisitions (the handler of DMMMeasureRaw, from any
    state, and the repeated step with [fRepGetRaw] set and not blocked) the
    calls to the instrument are [DMM_SetUseCalib(0)], [DMM_DGetValue],
    [DMM_SetUseCalib(1)], in this order and with nothing in between, whatever
    error code the acquisition gives; no later call of the invocation reaches
    the instrument, so the latest setting is [DMM_SetUseCalib(1)] and the
    outside is left as that call left it. *)
Theorem C5_calibration_reenabled (s : State)
    (Hraw : is_set (fRepGetRaw s) = true)
    (Hblock : fRepBlock s = 0) :
  (forall s0, exists bErrCode s' tail,
      DMMCMD_CmdMeasureRaw s0 = Ok bErrCode s' /\
      trace s' = (trace s0 ++ [Ev_DMM_SetUseCalib 0; Ev_DMM_DGetValue;
                               Ev_DMM_SetUseCalib 1] ++ tail)%list /\
      forallb no_DMM_access tail = true /\
      last_UseCalib (trace s') None = Some 1 /\
      ext s' = DMM_SetUseCalib 1 (snd (DMM_DGetValue (DMM_SetUseCalib 0 (ext s0))))) /\
  (exists tail,
      trace (state_of (DMMCMD_ProcessRepeatedCmd s))
        = (trace s ++ [Ev_DMM_SetUseCalib 0; Ev_DMM_DGetValue;
                       Ev_DMM_SetUseCalib 1] ++ tail)%list /\
      forallb no_DMM_access tail = true /\
      last_UseCalib (trace (state_of (DMMCMD_ProcessRepeatedCmd s))) None = Some 1 /\
      ext (state_of (DMMCMD_ProcessRepeatedCmd s))
        = DMM_SetUseCalib 1 (snd (DMM_DGetValue (DMM_SetUseCalib 0 (ext s))))).
Proof.
  assert (Hlast : forall t tail acc,
             forallb no_DMM_access tail = true ->
             last_UseCalib (t ++ [Ev_DMM_SetUseCalib 0; Ev_DMM_DGetValue;
                                  Ev_DMM_SetUseCalib 1] ++ tail) acc = Some 1).
  { intros t tail acc Htail. rewrite last_UseCalib_app. cbn [app last_UseCalib].
    generalize (Some 1). induction tail as [|e tail IH]; intro a; [reflexivity|].
    cbn [forallb] in Htail. apply andb_true_iff in Htail as [He Ht].
    destruct e; cbn [last_UseCalib]; try discriminate He; apply IH, Ht. }
  split.
  - intro s0. destruct (CmdMeasureRaw_run s0) as (s' & Hrun & _ & Hext & Htr).
    exists (to_u8 (snd (fst (DMM_DGetValue (DMM_SetUseCalib 0 (ext s0)))))), s',
      [Ev_UART_PutString (szMsg s')].
    repeat split; try assumption.
    rewrite Htr. apply (Hlast (trace s0) [Ev_UART_PutString (szMsg s')] None).
    reflexivity.
  - assert (Harmed : is_set (fRepGetVal s) || is_set (fRepGetRaw s) = true)
      by (rewrite Hraw; apply orb_true_r).
    destruct (ProcessRepeatedCmd_armed s Harmed Hblock) as (tail & Htr & Hno & Hext & _).
    unfold acquisition, before_acquisition in *. rewrite Hraw in *.
    exists tail. repeat split; try assumption.
    rewrite Htr. apply Hlast, Hno.
Qed.

(** C6: when the acquisition of the repeated step gives an error code, the
    step returns after sending the message composed for that code, and the
    three flags are as before.  The step never writes the flags, whatever
    happens; processing a command key clears a set flag only if the key is
    that of DMMMeasureStop, DMMMeasureRep or DMMMeasureRaw; and
    DMMMeasureStop does clear both. *)
Theorem C6_error_keeps_streaming (s : State)
    (Harmed : is_set (fRepGetVal s) || is_set (fRepGetRaw s) = true)
    (Hblock : fRepBlock s = 0)
    (Herr : to_u8 (snd (fst (DMM_DGetValue (before_acquisition s)))) <> ERRVAL_SUCCESS) :
  (exists r s',
      DMMCMD_ProcessRepeatedCmd s = Ok r s' /\
      flags s' = flags s /\
      szMsg s' = composed (to_u8 (snd (fst (DMM_DGetValue (before_acquisition s)))))
                          (szMsg s)
                          (DMM_SetUseCalib 1 (snd (DMM_DGetValue (before_acquisition s)))) /\
      trace s' = (trace s ++ acquisition (fRepGetRaw s)
                          ++ [Ev_UART_PutString (szMsg s')])%list) /\
  (forall s0, flags (state_of (DMMCMD_ProcessRepeatedCmd s0)) = flags s0) /\
  (forall keyCmd s0,
      (is_set (fRepGetVal s0) = true /\
       is_set (fRepGetVal (state_of (DMMCMD_ProcessCmd keyCmd s0))) = false) \/
      (is_set (fRepGetRaw s0) = true /\
       is_set (fRepGetRaw (state_of (DMMCMD_ProcessCmd keyCmd s0))) = false) ->
      keyCmd = CMD_MeasureStop \/ keyCmd = CMD_MeasureRep \/ keyCmd = CMD_MeasureRaw) /\
  (forall s0, exists s1,
      DMMCMD_ProcessCmd CMD_MeasureStop s0 = Ok tt s1 /\
      fRepGetVal s1 = 0 /\ fRepGetRaw s1 = 0).
Proof.
  split; [|split; [|split]].
  - unfold DMMCMD_ProcessRepeatedCmd, before_acquisition, acquisition in *. run.
    rewrite Harmed, Hblock. cbn [is_set Z.eqb negb andb].
    destruct (is_set (fRepGetRaw s)); run;
      destruct (DMM_DGetValue _) as [[d e] x]; run; cbn [fst snd] in Herr;
      (destruct (to_u8 e =? ERRVAL_SUCCESS) eqn:He;
       [apply Z.eqb_eq in He; contradiction|]); run;
      destruct (ERRORS_GetPrefixedMessageString _ _ _ _) as [r msg]; run;
      eexists; eexists; repeat split; run; traces; rewrite ?Hblock; reflexivity.
  - exact keeps_ProcessRepeatedCmd.
  - intros keyCmd s0 Hcleared.
    destruct (keeps_ProcessCmd keyCmd) as [-> | [-> | Hk]]; auto.
    specialize (Hk s0). unfold flags in Hk. injection Hk as Hv Hr _.
    rewrite Hv, Hr in Hcleared.
    destruct Hcleared as [[H1 H2] | [H1 H2]]; congruence.
  - intro s0. destruct (ProcessCmd_Stop s0) as (s1 & Hrun & Hf).
    exists s1. unfold flags in Hf. injection Hf as Hv Hr _. auto.
Qed.

(** ** Decoding *)

Lemma lookup_cmd_None (tbl : list cmd_map_t) (tok : string) :
  ~ In tok (map pchCmd tbl) -> lookup_cmd tbl tok = None.
Proof.
  induction tbl as [|entry rest IH]; simpl; intro Hnot; [reflexivity|].
  unfold streq. destruct (String.eqb_spec tok (pchCmd entry)) as [Heq|Hne].
  - exfalso. apply Hnot. left. symmetry. exact Heq.
  - apply IH. intro Hin. apply Hnot. right. exact Hin.
Qed.

Lemma lookup_cmd_Some (tbl : list cmd_map_t) (tok : string) (key : cmd_key_t) :
  lookup_cmd tbl tok = Some key -> In (mk_cmd tok key) tbl.
Proof.
  induction tbl as [|entry rest IH]; simpl; intro H; [discriminate|].
  unfold streq in H. destruct (String.eqb_spec tok (pchCmd entry)) as [Heq|Hne].
  - injection H as <-. left. subst tok. destruct entry; reflexivity.
  - right. apply IH, H.
Qed.

(** What [DMMCMD_CmdDecode] returns and leaves, by cases on the first token:
    it always returns, and the last-error string it leaves is a function of
    the line alone. *)
Lemma CmdDecode_run (szCmd : string) (s : State) :
  DMMCMD_CmdDecode szCmd s =
  match first_token szCmd with
  | Some tok =>
      match lookup_cmd uartCommands tok with
      | Some key =>
          Ok key (set_LastErr ""
                    (set_strtok_ptr (Some (snd (strtok_scan " " (c_str szCmd)))) s))
      | None =>
          Ok INVALID (set_LastErr ("Unrecognized command:" ++ tok)
                        (set_strtok_ptr (Some (snd (strtok_scan " " (c_str szCmd)))) s))
      end
  | None =>
      Ok INVALID (set_LastErr "Empty command"
                    (set_strtok_ptr (Some (snd (strtok_scan " " (c_str szCmd)))) s))
  end.
Proof.
  unfold DMMCMD_CmdDecode, first_token, strtok. run.
  destruct (strtok_scan " " (c_str szCmd)) as [[tok|] next]; run; [|reflexivity].
  destruct (lookup_cmd uartCommands tok); reflexivity.
Qed.

(** C3 (as amended): when the first token of the line, as
    [strtok(szCmd, " ")] finds it, is none of the 18 command strings,
    [DMMCMD_CmdDecode] returns [INVALID] and leaves the diagnostic
    "Unrecognized command:" followed by the token.  When the line has no
    token it returns [INVALID] as well, the same key, and leaves the
    diagnostic "Empty command"; the two cases differ by the diagnostic
    only, which is never the same string. *)
Theorem C3_decode_unrecognized (szCmd : string) (s : State)
    (Hunknown : forall tok, first_token szCmd = Some tok -> ~ In tok command_names) :
  exists s',
    DMMCMD_CmdDecode szCmd s = Ok INVALID s' /\
    LastErr (ext s') =
      match first_token szCmd with
      | Some tok => "Unrecognized command:" ++ tok
      | None => "Empty command"
      end /\
    (forall tok, "Empty command" <> "Unrecognized command:" ++ tok) /\
    length command_names = 18%nat.
Proof.
  rewrite CmdDecode_run.
  destruct (first_token szCmd) as [tok|].
  - rewrite (lookup_cmd_None uartCommands tok (Hunknown tok eq_refl)).
    eexists. repeat split. intros tok' H. discriminate H.
  - eexists. repeat split. intros tok' H. discriminate H.
Qed.

(** C8: [DMMCMD_CmdDecode] always returns, and neither the key nor the state
    it leaves depends on the last-error string it finds: whatever diagnostic
    [e] an earlier handler left there, decoding gives the same key and the
    same state.  The string left is empty when a command was recognised,
    and otherwise the diagnostic of this decode. *)
Theorem C8_decode_clears_last_error (szCmd : string) (s : State) :
  exists keyCmd s',
    DMMCMD_CmdDecode szCmd s = Ok keyCmd s' /\
    (forall e, DMMCMD_CmdDecode szCmd (set_LastErr e s) = Ok keyCmd s') /\
    LastErr (ext s') =
      match first_token szCmd with
      | Some tok =>
          match keyCmd with
          | INVALID => "Unrecognized command:" ++ tok
          | _ => ""
          end
      | None => "Empty command"
      end.
Proof.
  assert (Hany : forall e, DMMCMD_CmdDecode szCmd (set_LastErr e s)
                           = DMMCMD_CmdDecode szCmd s).
  { intro e. rewrite !CmdDecode_run.
    destruct (first_token szCmd) as [tok|]; [|reflexivity].
    destruct (lookup_cmd uartCommands tok); reflexivity. }
  rewrite CmdDecode_run.
  destruct (first_token szCmd) as [tok|] eqn:Htok.
  - destruct (lookup_cmd uartCommands tok) as [key|] eqn:Hkey.
    + eexists; eexists. split; [reflexivity|]. split.
      * intro e. rewrite Hany, CmdDecode_run, Htok, Hkey. reflexivity.
      * apply lookup_cmd_Some in Hkey. simpl in Hkey.
        repeat (destruct Hkey as [Hkey | Hkey]; [injection Hkey as _ <-; reflexivity|]).
        contradiction.
    + eexists; eexists. split; [reflexivity|]. split; [|reflexivity].
      intro e. rewrite Hany, CmdDecode_run, Htok, Hkey. reflexivity.
  - eexists; eexists. split; [reflexivity|]. split; [|reflexivity].
    intro e. rewrite Hany, CmdDecode_run, Htok. reflexivity.
Qed.

(** ** [DMMCMD_CmdConfig] *)

Lemma find_scale_None (tbl : list string) (idxScale : Z) (arg0 : string) :
  ~ In arg0 tbl -> find_scale tbl idxScale arg0 = None.
Proof.
  revert idxScale. induction tbl as [|name rest IH]; intros idx Hnot; [reflexivity|].
  simpl. unfold streq. destruct (String.eqb_spec arg0 name) as [Heq|Hne].
  - exfalso. apply Hnot. left. symmetry. exact Heq.
  - apply IH. intro Hin. apply Hnot. right. exact Hin.
Qed.

(** With an argument that is no scale name, the handler sends the FAIL line
    and returns [bErrCode] as initialised; it calls nothing else. *)
Lemma CmdConfig_unknown (arg0 : string) (s : State) :
  ~ In arg0 rgScales ->
  DMMCMD_CmdConfig (Some arg0) s =
  Ok ERRVAL_SUCCESS
     (logs [Ev_UART_PutString ("FAIL, Missing valid configuration: "
                                 ++ DQUOTE ++ arg0 ++ DQUOTE ++ CRLF)]
        (set_szMsg ("FAIL, Missing valid configuration: "
                      ++ DQUOTE ++ arg0 ++ DQUOTE ++ CRLF) s)).
Proof.
  intro Hnot. unfold DMMCMD_CmdConfig. rewrite (find_scale_None _ _ _ Hnot).
  reflexivity.
Qed.

(** While the instrument reports no scale (-1) or an index of [rgScales],
    the display routine returns. *)
Lemma PmodOLEDDisplay_ok (pszVal : string) (s : State) :
  -1 <= DMM_GetCurrentScale (dev (ext s)) < 27 ->
  exists disp,
    forallb is_OLED disp = true /\
    DMMCMD_PmodOLEDDisplay pszVal s = Ok tt (logs disp s).
Proof.
  intro Hrange.
  destruct (PmodOLEDDisplay_run pszVal s) as (disp & Hd & [Hok | Hstuck]).
  - exists disp. split; assumption.
  - exfalso. revert Hstuck. unfold DMMCMD_PmodOLEDDisplay. run.
    destruct (DMM_GetCurrentScale (dev (ext s)) =? -1) eqn:Hm1; run; [discriminate|].
    destruct (nth_scale (DMM_GetCurrentScale (dev (ext s)))) as [name|] eqn:Hn;
      run; [discriminate|].
    intros _. apply Z.eqb_neq in Hm1. unfold nth_scale in Hn.
    destruct (DMM_GetCurrentScale (dev (ext s)) <? 0) eqn:Hneg.
    + apply Z.ltb_lt in Hneg. lia.
    + apply nth_error_None in Hn. simpl in Hn. lia.
Qed.

(** The two [strtok] scans of a line. *)
Ltac scan :=
  repeat match goal with
         | |- context [strtok_scan ?d ?str] =>
             let v := eval vm_compute in (strtok_scan d str) in
             change (strtok_scan d str) with v
         end.

(** C4 (as amended): VoltageDC5 is entry 8 of [rgScales] (entry 7 is
    VoltageDC50).  Processing the line "DMMConfig VoltageDC5" calls
    [DMM_SetScale(8)]; when that call reports success (and the instrument
    then reports a scale the display can show) the processing returns,
    having refreshed the display and sent the line "PASS, Selected scale
    index is: 8".  Processing "DMMConfig BogusScale", and the handler on any
    argument that is no scale name, sends the FAIL line quoting the
    argument, makes no call of [DMM_SetScale] and leaves the instrument as
    it was. *)
Theorem C4_config_scale (s : State)
    (Hset : to_u8 (fst (DMM_SetScale 8 (mk_ext "" (dev (ext s))))) = ERRVAL_SUCCESS)
    (Hshown : -1 <= DMM_GetCurrentScale
                      (dev (snd (DMM_SetScale 8 (mk_ext "" (dev (ext s)))))) < 27) :
  nth_error rgScales 8 = Some "VoltageDC5" /\
  nth_error rgScales 7 = Some "VoltageDC50" /\
  (exists s' disp,
      decode_and_process "DMMConfig VoltageDC5" s = Ok tt s' /\
      trace s' = (trace s ++ [Ev_DMM_SetScale 8] ++ disp
                    ++ [Ev_UART_PutString ("PASS, Selected scale index is: 8" ++ CRLF);
                        Ev_DelayAprox10Us 1000])%list /\
      forallb is_OLED disp = true /\
      ext s' = snd (DMM_SetScale 8 (mk_ext "" (dev (ext s))))) /\
  (exists s',
      decode_and_process "DMMConfig BogusScale" s = Ok tt s' /\
      trace s' = (trace s
                    ++ [Ev_UART_PutString ("FAIL, Missing valid configuration: "
                                             ++ DQUOTE ++ "BogusScale" ++ DQUOTE ++ CRLF);
                        Ev_DelayAprox10Us 1000])%list /\
      dev (ext s') = dev (ext s)) /\
  (forall arg0 s0, ~ In arg0 rgScales ->
      exists s',
        DMMCMD_CmdConfig (Some arg0) s0 = Ok ERRVAL_SUCCESS s' /\
        trace s' = (trace s0
                      ++ [Ev_UART_PutString ("FAIL, Missing valid configuration: "
                                               ++ DQUOTE ++ arg0 ++ DQUOTE ++ CRLF)])%list /\
        ext s' = ext s0).
Proof.
  split; [reflexivity|]. split; [reflexivity|]. split; [|split].
  - unfold decode_and_process. unfold bind at 1. rewrite CmdDecode_run.
    unfold first_token. scan. cbn [fst snd].
    change (lookup_cmd uartCommands "DMMConfig") with (Some CMD_Config). cbv beta iota.
    unfold DMMCMD_ProcessCmd, DMMCMD_CmdGetNextArg, strtok. run. scan. run.
    unfold DMMCMD_CmdConfig.
    change (find_scale rgScales 0 "VoltageDC5") with (Some 8). run.
    destruct (DMM_SetScale 8 (mk_ext "" (dev (ext s)))) as [r x'] eqn:Hcall.
    cbn [fst snd] in Hset, Hshown. run. rewrite Hset. cbn [Z.eqb ERRVAL_SUCCESS].
    match goal with |- context [DMMCMD_PmodOLEDDisplay ?v ?s0] =>
      destruct (PmodOLEDDisplay_ok v s0 Hshown) as (disp & Hd & ->) end.
    run. eexists; exists disp. repeat split; try assumption.
    traces. reflexivity.
  - unfold decode_and_process. unfold bind at 1. rewrite CmdDecode_run.
    unfold first_token. scan. cbn [fst snd].
    change (lookup_cmd uartCommands "DMMConfig") with (Some CMD_Config). cbv beta iota.
    unfold DMMCMD_ProcessCmd, DMMCMD_CmdGetNextArg, strtok. run. scan. run.
    rewrite CmdConfig_unknown.
    + run. eexists. repeat split. traces. reflexivity.
    + vm_compute. intuition discriminate.
  - intros arg0 s0 Hnot. rewrite (CmdConfig_unknown arg0 s0 Hnot).
    eexists. repeat split.
Qed.

(** C10: on an argument that is none of the names of [rgScales],
    [DMMCMD_CmdConfig] returns [ERRVAL_SUCCESS], which is 0, after sending
    the FAIL line and nothing else; a selection that succeeds (the argument
    is a scale name and [DMM_SetScale] reports success) returns
    [ERRVAL_SUCCESS] too. *)
Theorem C10_config_unknown_returns_success (arg0 : string) (s : State)
    (Hnot : ~ In arg0 rgScales) :
  exists s',
    DMMCMD_CmdConfig (Some arg0) s = Ok ERRVAL_SUCCESS s' /\
    ERRVAL_SUCCESS = 0 /\
    uart_tx (trace s')
      = (uart_tx (trace s)
           ++ [("FAIL, Missing valid configuration: "
                  ++ DQUOTE ++ arg0 ++ DQUOTE ++ CRLF)%string])%list /\
    (forall name idxScale s0 r s0',
        find_scale rgScales 0 name = Some idxScale ->
        to_u8 (fst (DMM_SetScale idxScale (ext s0))) = ERRVAL_SUCCESS ->
        DMMCMD_CmdConfig (Some name) s0 = Ok r s0' ->
        r = ERRVAL_SUCCESS).
Proof.
  rewrite (CmdConfig_unknown arg0 s Hnot). eexists. split; [reflexivity|].
  split; [reflexivity|]. split.
  - run. rewrite uart_tx_app. reflexivity.
  - intros name idxScale s0 r s0' Hfind Hset.
    unfold DMMCMD_CmdConfig. rewrite Hfind. run.
    destruct (DMM_SetScale idxScale (ext s0)) as [r0 x']. cbn [fst] in Hset.
    run. rewrite Hset. cbn [Z.eqb ERRVAL_SUCCESS].
    match goal with |- context [DMMCMD_PmodOLEDDisplay ?v ?s1] =>
      destruct (PmodOLEDDisplay_run v s1) as (disp & _ & [-> | ->]) end; run.
    + intro H. injection H as <- _. reflexivity.
    + discriminate.
Qed.

(** ** [DMMCMD_CmdSaveEPROM] *)

(** C7: let [CALIB_WriteAllCalibsToEPROM_User] return [N], a [uint8_t].
    If [N] is not the write-timeout code, the handler hands the text
    "N calibrations written to EPROM" to the composer with the success
    code, sends the composed line and returns [ERRVAL_SUCCESS]; if [N] is
    the write-timeout code, it sends the line composed for that code and
    returns it. *)
Theorem C7_save_reports_count (s : State) (N : Z)
    (Hcall : fst (CALIB_WriteAllCalibsToEPROM_User (ext s)) = N)
    (Hu8 : 0 <= N < 256) :
  (N <> ERRVAL_EPROM_WRTIMEOUT ->
   exists s',
     DMMCMD_CmdSaveEPROM s = Ok ERRVAL_SUCCESS s' /\
     szMsg s' = composed ERRVAL_SUCCESS
                         (sprintf_d N ++ " calibrations written to EPROM")
                         (snd (CALIB_WriteAllCalibsToEPROM_User (ext s))) /\
     trace s' = (trace s ++ [Ev_CALIB_WriteAllCalibsToEPROM_User;
                             Ev_UART_PutString (szMsg s')])%list) /\
  (N = ERRVAL_EPROM_WRTIMEOUT ->
   exists s',
     DMMCMD_CmdSaveEPROM s = Ok ERRVAL_EPROM_WRTIMEOUT s' /\
     szMsg s' = composed ERRVAL_EPROM_WRTIMEOUT (szMsg s)
                         (snd (CALIB_WriteAllCalibsToEPROM_User (ext s))) /\
     trace s' = (trace s ++ [Ev_CALIB_WriteAllCalibsToEPROM_User;
                             Ev_UART_PutString (szMsg s')])%list).
Proof.
  unfold DMMCMD_CmdSaveEPROM. run.
  destruct (CALIB_WriteAllCalibsToEPROM_User (ext s)) as [r x]. cbn [fst snd] in *.
  subst r. unfold to_u8. rewrite (Z.mod_small N 256 Hu8). split; intro HN.
  - apply Z.eqb_neq in HN. rewrite HN. run.
    destruct (ERRORS_GetPrefixedMessageString _ _ _ _) as [r msg]. run.
    eexists. repeat split. traces. reflexivity.
  - subst N. cbn [Z.eqb ERRVAL_EPROM_WRTIMEOUT Pos.eqb negb]. run.
    destruct (ERRORS_GetPrefixedMessageString _ _ _ _) as [r msg]. run.
    eexists. repeat split. traces. reflexivity.
Qed.

(** ** [DMMCMD_CmdImportCalib] *)

(** With an argument missing, or a [sscanf] that returns 0, the handler
    returns the input error and makes no call of
    [CALIB_ImportCalibCoefficients]. *)
Lemma CmdImportCalib_rejects (arg0 arg1 arg2 : option string) (s : State) :
  exists bErrCode s',
    DMMCMD_CmdImportCalib arg0 arg1 arg2 s = Ok bErrCode s' /\
    ((arg0 = None \/ arg1 = None \/ arg2 = None) ->
     bErrCode = ERRVAL_CMD_WRONGPARAMS /\
     trace s' = (trace s ++ [Ev_UART_PutString (szMsg s')])%list /\
     ext s' = ext s) /\
    (forall a0 a1 a2,
        arg0 = Some a0 -> arg1 = Some a1 -> arg2 = Some a2 ->
        fst (sscanf_d a0) = 0 \/
        (fst (sscanf_d a0) <> 0 /\ fst (sscanf_f a1) = 0) \/
        (fst (sscanf_d a0) <> 0 /\ fst (sscanf_f a1) <> 0 /\ fst (sscanf_f a2) = 0) ->
        bErrCode = ERRVAL_DMM_GENERICERROR /\
        trace s' = (trace s ++ [Ev_UART_PutString (szMsg s')])%list /\
        ext s' = ext s).
Proof.
  unfold DMMCMD_CmdImportCalib.
  destruct arg0 as [a0|], arg1 as [a1|], arg2 as [a2|]; run;
    try (destruct (ERRORS_GetPrefixedMessageString _ _ _ _) as [r msg]; run;
         eexists; eexists; split; [reflexivity|]; split;
         [ intros _; repeat split; traces; reflexivity
         | intros ? ? ? H0 H1 H2; discriminate ]).
  destruct (sscanf_d a0) as [n0 v0] eqn:Hs0; run.
  destruct (n0 =? 0) eqn:Hn0; run.
  { change (ERRVAL_DMM_GENERICERROR =? ERRVAL_SUCCESS) with false; run.
    destruct (ERRORS_GetPrefixedMessageString _ _ _ _) as [r msg]; run.
    eexists; eexists; split; [reflexivity|]; split.
    - intros [H | [H | H]]; discriminate H.
    - intros; repeat split; traces; reflexivity. }
  destruct (sscanf_f a1) as [n1 v1] eqn:Hs1; run.
  destruct (n1 =? 0) eqn:Hn1; run.
  { change (ERRVAL_DMM_GENERICERROR =? ERRVAL_SUCCESS) with false; run.
    destruct (ERRORS_GetPrefixedMessageString _ _ _ _) as [r msg]; run.
    eexists; eexists; split; [reflexivity|]; split.
    - intros [H | [H | H]]; discriminate H.
    - intros; repeat split; traces; reflexivity. }
  destruct (sscanf_f a2) as [n2 v2] eqn:Hs2; run.
  destruct (n2 =? 0) eqn:Hn2; run.
  { change (ERRVAL_DMM_GENERICERROR =? ERRVAL_SUCCESS) with false; run.
    destruct (ERRORS_GetPrefixedMessageString _ _ _ _) as [r msg]; run.
    eexists; eexists; split; [reflexivity|]; split.
    - intros [H | [H | H]]; discriminate H.
    - intros; repeat split; traces; reflexivity. }
  change (ERRVAL_SUCCESS =? ERRVAL_SUCCESS) with true; run.
  destruct (CALIB_ImportCalibCoefficients _ _ _ _) as [r x]; run.
  destruct (ERRORS_GetPrefixedMessageString _ _ _ _) as [r' msg]; run.
  eexists; eexists; split; [reflexivity|]; split.
  - intros [H | [H | H]]; discriminate H.
  - intros b0 b1 b2 E0 E1 E2 Hfail.
    injection E0 as <-. injection E1 as <-. injection E2 as <-.
    rewrite Hs0, Hs1, Hs2 in Hfail. cbn [fst] in Hfail.
    apply Z.eqb_neq in Hn0, Hn1, Hn2.
    destruct Hfail as [H | [[_ H] | [_ [_ H]]]]; contradiction.
Qed.

(** C9, at the failing input: an index argument on which [sscanf] returns
    [EOF] and assigns nothing (white space only, such as " ") passes the test
    [!sscanf(...)]; with two coefficient arguments that are not rejected,
    the handler calls [CALIB_ImportCalibCoefficients] with the
    uninitialised [idxCfg] and returns what that call returns, not the
    generic error. *)
Theorem C9_blank_index_reaches_import (a0 a1 a2 : string) (s : State)
    (Hblank : sscanf_d a0 = (EOF, None))
    (Hmult : fst (sscanf_f a1) <> 0)
    (Hadd : fst (sscanf_f a2) <> 0) :
  exists s',
    DMMCMD_CmdImportCalib (Some a0) (Some a1) (Some a2) s
      = Ok (to_u8 (fst (CALIB_ImportCalibCoefficients indet_int
                          (assigned indet_float (snd (sscanf_f a1)))
                          (assigned indet_float (snd (sscanf_f a2))) (ext s)))) s' /\
    trace s' = (trace s
                  ++ [Ev_CALIB_ImportCalibCoefficients indet_int
                        (assigned indet_float (snd (sscanf_f a1)))
                        (assigned indet_float (snd (sscanf_f a2)));
                      Ev_UART_PutString (szMsg s')])%list.
Proof.
  unfold DMMCMD_CmdImportCalib. rewrite Hblank. run.
  change (EOF =? 0) with false. run.
  destruct (sscanf_f a1) as [n1 v1]; cbn [fst snd] in *.
  apply Z.eqb_neq in Hmult. rewrite Hmult. run.
  destruct (sscanf_f a2) as [n2 v2]; cbn [fst snd] in *.
  apply Z.eqb_neq in Hadd. rewrite Hadd. run.
  change (ERRVAL_SUCCESS =? ERRVAL_SUCCESS) with true; run.
  destruct (CALIB_ImportCalibCoefficients _ _ _ _) as [r x]; run.
  destruct (ERRORS_GetPrefixedMessageString _ _ _ _) as [r' msg]; run.
  eexists. split; [reflexivity|]. traces. reflexivity.
Qed.

(** ** Results *)

Lemma value_of_Ok {A : Type} (r : result A) (a : A) :
  value_of r = Some a -> r = Ok a (state_of r).
Proof. destruct r as [a' s|s]; simpl; intro H; [injection H as ->; reflexivity | discriminate]. Qed.

(** From every state, DMMMeasureRep and then DMMMeasureRaw leave
    [fRepGetVal] at 1 and [fRepGetRaw] at 0. *)
Lemma Rep_then_Raw (s0 : State) :
  exists s2,
    (decode_and_process "DMMMeasureRep" ;; decode_and_process "DMMMeasureRaw") s0
      = Ok tt s2 /\
    fRepGetVal s2 = 1 /\ fRepGetRaw s2 = 0.
Proof.
  unfold bind at 1. unfold decode_and_process at 1, bind at 1.
  rewrite decode_MeasureRep.
  destruct (ProcessCmd_Rep (set_LastErr "" (set_strtok_ptr (Some "") s0)))
    as (s1 & -> & Hf1).
  unfold decode_and_process, bind. rewrite decode_MeasureRaw.
  destruct (ProcessCmd_Raw (set_LastErr "" (set_strtok_ptr (Some "") s1)))
    as (s2 & -> & Hf2).
  exists s2. split; [reflexivity|].
  unfold flags in Hf1, Hf2. cbn [fRepGetVal fRepGetRaw fRepBlock set_LastErr
    set_strtok_ptr set_ext] in Hf2.
  injection Hf1 as Hv1 Hr1 _. injection Hf2 as Hv2 Hr2 _. split; congruence.
Qed.

End Properties.


(** * The claims on the bench *)

Local Open Scope list_scope.

Lemma reachable_after_one_poll : reachable Bench.after_one_poll.
Proof. apply reach_poll, reach_init. reflexivity. Defined.

Lemma reachable_after_two_polls : reachable Bench.after_two_polls.
Proof. apply reach_poll, reachable_after_one_poll. Defined.

(** C1, counterexample: on the bench, DMMMeasureRep followed by
    DMMMeasureRaw leaves [fRepGetVal] set and [fRepGetRaw] clear, not the
    raw flag set and the calibrated flag clear. *)
Lemma C1_counterexample :
  exists s2,
    (decode_and_process "DMMMeasureRep" ;; decode_and_process "DMMMeasureRaw")
      (Bench.start 0 []) = Ok tt s2 /\
    fRepGetVal s2 = 1 /\ fRepGetRaw s2 = 0 /\
    ~ (is_set (fRepGetRaw s2) = true /\ is_set (fRepGetVal s2) = false).
Proof.
  destruct (Rep_then_Raw (Bench.start 0 [])) as (s2 & Hrun & Hv & Hr).
  exists s2. split; [exact Hrun|]. split; [exact Hv|]. split; [exact Hr|].
  intros [H _]. rewrite Hr in H. discriminate H.
Qed.

Lemma C1_witness :
  reachable Bench.after_two_polls /\
  (fRepGetVal Bench.after_two_polls = 0 \/ fRepGetRaw Bench.after_two_polls = 0) /\
  fRepGetVal Bench.after_two_polls = 1.
Proof.
  split; [exact reachable_after_two_polls|]. split; [|vm_compute; reflexivity].
  exact (proj1 (C1_repeated_flags Bench.after_two_polls reachable_after_two_polls)).
Defined.

(** C2, counterexample: the third poll cycle of the bench session receives
    DMMMeasureAvg while the calibrated stream is armed; in that one cycle
    the response "Avg. Value: 1234" is followed by the repeated-mode line
    "Value: 1234". *)
Lemma C2_counterexample :
  exists s3,
    DMMCMD_CheckForCommand Bench.after_two_polls = Ok tt s3 /\
    is_set (fRepGetVal Bench.after_two_polls) = true /\
    fRepBlock Bench.after_two_polls = 0 /\
    uart_tx (trace s3) =
      uart_tx (trace Bench.after_two_polls)
        ++ [ ("Received command: DMMMeasureAvg" ++ CRLF)%string;
             ("Avg. Value: 1234" ++ CRLF)%string;
             ("Value: 1234" ++ CRLF)%string ].
Proof.
  exists (state_of (DMMCMD_CheckForCommand Bench.after_two_polls)).
  split; [apply value_of_Ok; vm_compute; reflexivity|].
  split; [vm_compute; reflexivity|].
  split; vm_compute; reflexivity.
Qed.

Lemma C2_witness :
  reachable Bench.after_one_poll /\
  receive_command Bench.after_one_poll
    = Ok true (state_of (receive_command Bench.after_one_poll)) /\
  is_set (fRepGetVal (state_of (receive_command Bench.after_one_poll)))
    || is_set (fRepGetRaw (state_of (receive_command Bench.after_one_poll))) = true /\
  fRepBlock Bench.after_one_poll = 0 /\
  fRepBlock (state_of (receive_command Bench.after_one_poll)) = 0 /\
  exists tail,
    trace (state_of (DMMCMD_CheckForCommand Bench.after_one_poll))
      = trace (state_of (receive_command Bench.after_one_poll))
          ++ acquisition (fRepGetRaw (state_of (receive_command Bench.after_one_poll)))
          ++ tail /\
    (forall s', DMMCMD_CheckForCommand Bench.after_one_poll = Ok tt s' ->
                uart_tx (trace s')
                = uart_tx (trace (state_of (receive_command Bench.after_one_poll)))
                    ++ [szMsg s']).
Proof.
  assert (Hrecv : receive_command Bench.after_one_poll
                  = Ok true (state_of (receive_command Bench.after_one_poll)))
    by (apply value_of_Ok; vm_compute; reflexivity).
  assert (Harmed :
            is_set (fRepGetVal (state_of (receive_command Bench.after_one_poll)))
            || is_set (fRepGetRaw (state_of (receive_command Bench.after_one_poll))) = true)
    by (vm_compute; reflexivity).
  split; [exact reachable_after_one_poll|]. split; [exact Hrecv|].
  split; [exact Harmed|].
  destruct (C2_block_flag_never_suppresses _ _ reachable_after_one_poll Hrecv Harmed)
    as (Hb & Hb1 & Hcycle & _).
  split; [exact Hb|]. split; [exact Hb1|]. exact Hcycle.
Defined.

(** C3, counterexample: the empty line and a line with an unknown name are
    both decoded to the key [INVALID]; the empty line has no outcome of its
    own.  A line that holds only a tab has no token for a reader who splits
    at white space, but [strtok(szCmd, " ")] splits at spaces only: the
    diagnostic is that of an unrecognized command. *)
Lemma C3_counterexample :
  exists s1 s2 s3,
    DMMCMD_CmdDecode "" (Bench.start 0 []) = Ok INVALID s1 /\
    DMMCMD_CmdDecode "Foo bar" (Bench.start 0 []) = Ok INVALID s2 /\
    DMMCMD_CmdDecode (String "009"%char "") (Bench.start 0 []) = Ok INVALID s3 /\
    LastErr (ext s1) = "Empty command"%string /\
    LastErr (ext s2) = "Unrecognized command:Foo"%string /\
    LastErr (ext s3) = ("Unrecognized command:" ++ String "009"%char "")%string.
Proof.
  exists (state_of (DMMCMD_CmdDecode "" (Bench.start 0 []))),
         (state_of (DMMCMD_CmdDecode "Foo bar" (Bench.start 0 []))),
         (state_of (DMMCMD_CmdDecode (String "009"%char "") (Bench.start 0 []))).
  split; [apply value_of_Ok; vm_compute; reflexivity|].
  split; [apply value_of_Ok; vm_compute; reflexivity|].
  split; [apply value_of_Ok; vm_compute; reflexivity|].
  split; [vm_compute; reflexivity|].
  split; vm_compute; reflexivity.
Qed.

Lemma C3_witness :
  (forall tok, first_token "Foo bar" = Some tok -> ~ In tok command_names) /\
  exists s',
    DMMCMD_CmdDecode "Foo bar" (Bench.start 0 []) = Ok INVALID s' /\
    LastErr (ext s') = "Unrecognized command:Foo"%string.
Proof.
  assert (Hunknown : forall tok, first_token "Foo bar" = Some tok ->
                                 ~ In tok command_names).
  { intros tok Htok. vm_compute in Htok. injection Htok as <-.
    simpl. intuition discriminate. }
  split; [exact Hunknown|].
  destruct (C3_decode_unrecognized "Foo bar" (Bench.start 0 []) Hunknown)
    as (s' & Hrun & Herr & _).
  exists s'. split; [exact Hrun | exact Herr].
Defined.

(** C4, counterexample: on the bench, where [DMM_SetScale] accepts every
    index of the catalogue, "DMMConfig VoltageDC5" is answered with scale
    index 8; the line with index 7 is not sent. *)
Lemma C4_counterexample :
  exists s',
    decode_and_process "DMMConfig VoltageDC5" (Bench.start 0 []) = Ok tt s' /\
    uart_tx (trace s') = [("PASS, Selected scale index is: 8" ++ CRLF)%string] /\
    ~ In ("PASS, Selected scale index is: 7" ++ CRLF)%string (uart_tx (trace s')) /\
    Bench.bw_scale (dev (ext s')) = 8.
Proof.
  exists (state_of (decode_and_process "DMMConfig VoltageDC5" (Bench.start 0 []))).
  split; [apply value_of_Ok; vm_compute; reflexivity|].
  split; [vm_compute; reflexivity|]. split; [|vm_compute; reflexivity].
  vm_compute. intros [H | []]. discriminate H.
Qed.

Lemma C4_witness :
  to_u8 (fst (DMM_SetScale 8 (mk_ext "" (dev (ext (Bench.start 0 []))))))
    = ERRVAL_SUCCESS /\
  -1 <= DMM_GetCurrentScale
          (dev (snd (DMM_SetScale 8 (mk_ext "" (dev (ext (Bench.start 0 []))))))) < 27 /\
  exists s',
    decode_and_process "DMMConfig VoltageDC5" (Bench.start 0 []) = Ok tt s' /\
    uart_tx (trace s') = [("PASS, Selected scale index is: 8" ++ CRLF)%string].
Proof.
  assert (Hset : to_u8 (fst (DMM_SetScale 8 (mk_ext "" (dev (ext (Bench.start 0 []))))))
                 = ERRVAL_SUCCESS) by reflexivity.
  assert (Hshown : -1 <= DMM_GetCurrentScale
                           (dev (snd (DMM_SetScale 8
                                        (mk_ext "" (dev (ext (Bench.start 0 []))))))) < 27)
    by (simpl; lia).
  split; [exact Hset|]. split; [exact Hshown|].
  destruct (C4_config_scale (Bench.start 0 []) Hset Hshown)
    as (_ & _ & (s' & disp & Hrun & Htr & Hdisp & _) & _).
  exists s'. split; [exact Hrun|].
  rewrite Htr, !uart_tx_app, (forallb_OLED_no_tx disp Hdisp). reflexivity.
Defined.

Lemma C5_witness :
  is_set (fRepGetRaw (Bench.raw_armed 8)) = true /\
  fRepBlock (Bench.raw_armed 8) = 0 /\
  last_UseCalib (trace (state_of (DMMCMD_ProcessRepeatedCmd (Bench.raw_armed 8)))) None
    = Some 1 /\
  Bench.bw_use_calib (dev (ext (state_of (DMMCMD_ProcessRepeatedCmd (Bench.raw_armed 8)))))
    = 1.
Proof.
  split; [reflexivity|]. split; [reflexivity|].
  destruct (C5_calibration_reenabled (Bench.raw_armed 8) eq_refl eq_refl)
    as (_ & tail & _ & _ & Hlast & Hext).
  split; [exact Hlast|]. rewrite Hext. reflexivity.
Defined.

Lemma C6_witness :
  is_set (fRepGetVal (Bench.streaming (-1) []))
    || is_set (fRepGetRaw (Bench.streaming (-1) [])) = true /\
  fRepBlock (Bench.streaming (-1) []) = 0 /\
  to_u8 (snd (fst (DMM_DGetValue (before_acquisition (Bench.streaming (-1) [])))))
    <> ERRVAL_SUCCESS /\
  exists r s',
    DMMCMD_ProcessRepeatedCmd (Bench.streaming (-1) []) = Ok r s' /\
    flags s' = (1, 0, 0) /\
    uart_tx (trace s') = [("ERROR, code 252" ++ CRLF)%string].
Proof.
  assert (Herr : to_u8 (snd (fst (DMM_DGetValue
                                    (before_acquisition (Bench.streaming (-1) [])))))
                 <> ERRVAL_SUCCESS) by discriminate.
  split; [reflexivity|]. split; [reflexivity|]. split; [exact Herr|].
  destruct (C6_error_keeps_streaming (Bench.streaming (-1) []) eq_refl eq_refl Herr)
    as ((r & s' & Hrun & Hflags & Hmsg & Htr) & _).
  exists r, s'. split; [exact Hrun|]. split; [exact Hflags|].
  rewrite Htr, Hmsg. reflexivity.
Defined.

Lemma C7_witness :
  fst (CALIB_WriteAllCalibsToEPROM_User (ext (Bench.start 5 []))) = 5 /\
  0 <= 5 < 256 /\
  exists s',
    DMMCMD_CmdSaveEPROM (Bench.start 5 []) = Ok ERRVAL_SUCCESS s' /\
    uart_tx (trace s') = [("OK, 5 calibrations written to EPROM" ++ CRLF)%string].
Proof.
  assert (Hu8 : 0 <= 5 < 256) by lia.
  assert (Hno : 5 <> ERRVAL_EPROM_WRTIMEOUT) by discriminate.
  split; [reflexivity|]. split; [exact Hu8|].
  destruct (proj1 (C7_save_reports_count (Bench.start 5 []) 5 eq_refl Hu8) Hno)
    as (s' & Hrun & Hmsg & Htr).
  exists s'. split; [exact Hrun|]. rewrite Htr, Hmsg. reflexivity.
Defined.

(** C9, on the bench: the line "DMMImportCalib  ,1,2" gives the handler the
    index argument " "; the import is called with the uninitialised index
    (0 on the bench) and the handler reports success. *)
Lemma C9_witness :
  @sscanf_d Bench.collaborators " " = (EOF, None) /\
  fst (@sscanf_f Bench.collaborators "1") <> 0 /\
  fst (@sscanf_f Bench.collaborators "2") <> 0 /\
  (exists s',
      DMMCMD_CmdImportCalib (Some " ") (Some "1") (Some "2") (Bench.start 0 [])
        = Ok ERRVAL_SUCCESS s' /\
      existsb is_ImportCalib (trace s') = true) /\
  existsb is_ImportCalib
    (trace (state_of (decode_and_process "DMMImportCalib  ,1,2" (Bench.start 0 []))))
    = true /\
  uart_tx (trace (state_of (decode_and_process "DMMImportCalib  ,1,2" (Bench.start 0 []))))
    = [("OK, " ++ CRLF)%string].
Proof.
  assert (Hmult : fst (@sscanf_f Bench.collaborators "1") <> 0) by discriminate.
  assert (Hadd : fst (@sscanf_f Bench.collaborators "2") <> 0) by discriminate.
  split; [reflexivity|]. split; [exact Hmult|]. split; [exact Hadd|].
  split; [|split; vm_compute; reflexivity].
  destruct (C9_blank_index_reaches_import " " "1" "2" (Bench.start 0 [])
              eq_refl Hmult Hadd) as (s' & Hrun & Htr).
  exists s'. split; [exact Hrun|].
  rewrite Htr. reflexivity.
Defined.

Lemma C10_witness :
  ~ In "BogusScale"%string rgScales /\
  exists s',
    DMMCMD_CmdConfig (Some "BogusScale"%string) (Bench.start 0 []) = Ok 0 s' /\
    uart_tx (trace s')
      = [("FAIL, Missing valid configuration: "
            ++ DQUOTE ++ "BogusScale" ++ DQUOTE ++ CRLF)%string].
Proof.
  assert (Hnot : ~ In "BogusScale"%string rgScales) by (simpl; intuition discriminate).
  split; [exact Hnot|].
  destruct (C10_config_unknown_returns_success "BogusScale" (Bench.start 0 []) Hnot)
    as (s' & Hrun & _ & Htx & _).
  exists s'. split; [exact Hrun | exact Htx].
Defined.



(** * Further properties *)

Local Open Scope string_scope.

Section Tokens.

Context {C : Collaborators}.

Ltac proj :=
  cbn [trace szMsg szVal szRefVal dRefVal dMeasuredVal dispersion fRepGetVal
       fRepGetRaw fRepBlock strtok_ptr ext negb fst snd LastErr dev].

Ltac run :=
  cbv beta iota zeta delta
    [bind ret read write emit call undefined UART_PutString_szMsg UART_PutString
     SetUseCalib FormatValue GetPrefixedMessageString_szMsg Format_dMeasuredVal
     Format_dRefVal composed log logs set_szMsg set_szVal set_szRefVal set_dRefVal
     set_dMeasuredVal set_dispersion set_fRepGetVal set_fRepGetRaw set_fRepBlock
     set_strtok_ptr set_ext set_LastErr state_of flags];
  proj.

(** ** [strtok] *)

Lemma free_of_app (d a b : string) :
  free_of d (a ++ b) = free_of d a && free_of d b.
Proof.
  induction a as [|c a IH]; simpl; [reflexivity|].
  rewrite IH. apply andb_assoc.
Qed.

Lemma c_str_app (a b : string) :
  free_of (String NUL EmptyString) a = true -> c_str (a ++ b) = a ++ c_str b.
Proof.
  induction a as [|c a IH]; simpl; intro H; [reflexivity|].
  apply andb_true_iff in H as [Hc Ha]. rewrite orb_false_r in Hc.
  apply negb_true_iff in Hc. rewrite Hc, (IH Ha). reflexivity.
Qed.

Lemma c_str_free (a : string) :
  free_of (String NUL EmptyString) a = true -> c_str a = a.
Proof.
  induction a as [|c a IH]; simpl; intro H; [reflexivity|].
  apply andb_true_iff in H as [Hc Ha]. rewrite orb_false_r in Hc.
  apply negb_true_iff in Hc. rewrite Hc, (IH Ha). reflexivity.
Qed.

Lemma skip_delims_spaces (n : nat) (s : string) :
  skip_delims " " (spaces n ++ s) = skip_delims " " s.
Proof. induction n as [|n IH]; simpl; [reflexivity | exact IH]. Qed.

Lemma split_token_delim (d a rest : string) (c : ascii) :
  free_of d a = true -> is_delim d c = true ->
  split_token d (a ++ String c rest) = (a, rest).
Proof.
  intros Ha Hc. induction a as [|c' a IH]; simpl.
  - rewrite Hc. reflexivity.
  - simpl in Ha. apply andb_true_iff in Ha as [Hc' Ha].
    apply negb_true_iff in Hc'. rewrite Hc', (IH Ha). reflexivity.
Qed.

Lemma split_token_end (d a : string) :
  free_of d a = true -> split_token d a = (a, EmptyString).
Proof.
  induction a as [|c a IH]; simpl; intro Ha; [reflexivity|].
  apply andb_true_iff in Ha as [Hc Ha].
  apply negb_true_iff in Hc. rewrite Hc, (IH Ha). reflexivity.
Qed.

(** A scan that starts on a token followed by a delimiter returns the token
    and stops behind the delimiter. *)
Lemma strtok_scan_token (d a rest : string) (c : ascii) :
  a <> EmptyString -> free_of d a = true -> is_delim d c = true ->
  strtok_scan d (a ++ String c rest) = (Some a, rest).
Proof.
  intros Hne Ha Hc. unfold strtok_scan.
  destruct a as [|c' a]; [contradiction|].
  pose proof Ha as Ha'. simpl in Ha'. apply andb_true_iff in Ha' as [Hc' _].
  apply negb_true_iff in Hc'.
  change (String c' a ++ String c rest) with (String c' (a ++ String c rest)).
  cbn [skip_delims]. rewrite Hc'.
  change (String c' (a ++ String c rest)) with (String c' a ++ String c rest).
  rewrite (split_token_delim d (String c' a) rest c Ha Hc). reflexivity.
Qed.

Lemma strtok_scan_last (d a : string) :
  a <> EmptyString -> free_of d a = true ->
  strtok_scan d a = (Some a, EmptyString).
Proof.
  intros Hne Ha. unfold strtok_scan.
  destruct a as [|c' a]; [contradiction|].
  pose proof Ha as Ha'. simpl in Ha'. apply andb_true_iff in Ha' as [Hc' _].
  apply negb_true_iff in Hc'.
  cbn [skip_delims]. rewrite Hc'.
  rewrite (split_token_end d (String c' a) Ha). reflexivity.
Qed.

Lemma split_token_free (d s : string) : free_of d (fst (split_token d s)) = true.
Proof.
  induction s as [|c s IH]; simpl; [reflexivity|].
  destruct (is_delim d c) eqn:Hc; simpl; [reflexivity|].
  destruct (split_token d s) as [tok next]. simpl in *. rewrite Hc, IH. reflexivity.
Qed.

(** Every token a scan returns is not empty and holds no delimiter. *)
Lemma strtok_scan_wellformed (d s tok next : string) :
  strtok_scan d s = (Some tok, next) ->
  tok <> EmptyString /\ free_of d tok = true.
Proof.
  unfold strtok_scan.
  assert (Hskip : forall s, match skip_delims d s with
                            | EmptyString => True
                            | String c _ => is_delim d c = false
                            end).
  { induction s0 as [|c s0 IH]; simpl; [exact I|].
    destruct (is_delim d c) eqn:Hc; [exact IH | exact Hc]. }
  specialize (Hskip s).
  destruct (skip_delims d s) as [|c rest]; [discriminate|].
  pose proof (split_token_free d (String c rest)) as Hfree.
  simpl in *. rewrite Hskip in *.
  destruct (split_token d rest) as [tok' next']. intro H. injection H as <- <-.
  split; [discriminate | exact Hfree].
Qed.

Lemma free_of_sub (d1 d2 a : string) :
  (forall c, is_delim d1 c = true -> is_delim d2 c = true) ->
  free_of d2 a = true -> free_of d1 a = true.
Proof.
  intro Hsub. induction a as [|c a IH]; simpl; intro H; [reflexivity|].
  apply andb_true_iff in H as [Hc Ha]. rewrite (IH Ha), andb_true_r.
  apply negb_true_iff in Hc. apply negb_true_iff.
  destruct (is_delim d1 c) eqn:H1; [|reflexivity].
  rewrite (Hsub c H1) in Hc. discriminate Hc.
Qed.

Lemma arg_ok_inv (a : string) :
  arg_ok a = true ->
  a <> EmptyString /\ free_of "," a = true /\ free_of (String NUL EmptyString) a = true.
Proof.
  unfold arg_ok. intro H. apply andb_true_iff in H as [Hne Hfree]. repeat split.
  - intros ->. discriminate Hne.
  - revert Hfree. apply free_of_sub. intros c Hc. simpl in *.
    rewrite orb_false_r in Hc. rewrite Hc. reflexivity.
  - revert Hfree. apply free_of_sub. intros c Hc. simpl in *.
    rewrite orb_false_r in Hc. rewrite Hc. apply orb_true_r.
Qed.

Lemma join_args_free (args : list string) :
  forallb arg_ok args = true ->
  free_of (String NUL EmptyString) (join_args args) = true.
Proof.
  induction args as [|a rest IH]; intro H; [reflexivity|].
  cbn [forallb] in H. apply andb_true_iff in H as [Ha Hrest].
  destruct (arg_ok_inv a Ha) as (_ & _ & Hnul).
  destruct rest as [|b rest]; [exact Hnul|].
  change (join_args (a :: b :: rest)) with (a ++ "," ++ join_args (b :: rest)).
  rewrite free_of_app, Hnul. exact (IH Hrest).
Qed.

(** ** Every entry of the command table *)

(** The strings of the table are not empty and hold neither a space nor a
    NUL, and the loop of [DMMCMD_CmdDecode] finds each entry by its own
    string: no two entries share one. *)
Lemma uartCommands_entry (entry : cmd_map_t) :
  In entry uartCommands ->
  pchCmd entry <> EmptyString /\
  free_of " " (pchCmd entry) = true /\
  free_of (String NUL EmptyString) (pchCmd entry) = true /\
  lookup_cmd uartCommands (pchCmd entry) = Some (eCmd entry) /\
  eCmd entry <> INVALID /\ eCmd entry <> CMD_NONE.
Proof.
  intro Hin. simpl in Hin.
  repeat (destruct Hin as [<- | Hin];
          [repeat split; solve [reflexivity | discriminate]|]).
  contradiction.
Qed.

Lemma first_token_command (n : nat) (name rest : string) :
  name <> EmptyString -> free_of " " name = true ->
  free_of (String NUL EmptyString) name = true ->
  strtok_scan " " (c_str (spaces n ++ name ++ " " ++ rest)) = (Some name, c_str rest) /\
  strtok_scan " " (c_str (spaces n ++ name)) = (Some name, EmptyString).
Proof.
  intros Hne Hsp Hnul.
  assert (Hspaces : free_of (String NUL EmptyString) (spaces n) = true).
  { induction n as [|n IH]; simpl; [reflexivity | exact IH]. }
  split.
  - rewrite (c_str_app _ _ Hspaces), (c_str_app _ _ Hnul).
    change (c_str (" " ++ rest)) with (String " "%char (c_str rest)).
    unfold strtok_scan. rewrite skip_delims_spaces.
    fold (strtok_scan " " (name ++ String " "%char (c_str rest))).
    apply strtok_scan_token; [exact Hne | exact Hsp | reflexivity].
  - rewrite (c_str_app _ _ Hspaces), (c_str_free _ Hnul).
    unfold strtok_scan. rewrite skip_delims_spaces.
    fold (strtok_scan " " name).
    apply strtok_scan_last; [exact Hne | exact Hsp].
Qed.

(** Decoding a line that starts with a command string of the table. *)
Lemma CmdDecode_command (entry : cmd_map_t) (n : nat) (rest : string) (s : State) :
  In entry uartCommands ->
  DMMCMD_CmdDecode (spaces n ++ pchCmd entry ++ " " ++ rest) s
    = Ok (eCmd entry) (set_LastErr "" (set_strtok_ptr (Some (c_str rest)) s)) /\
  DMMCMD_CmdDecode (spaces n ++ pchCmd entry) s
    = Ok (eCmd entry) (set_LastErr "" (set_strtok_ptr (Some "") s)).
Proof.
  intro Hentry.
  destruct (uartCommands_entry entry Hentry) as (Hne & Hsp & Hnul & Hlook & Hk1 & Hk2).
  destruct (first_token_command n (pchCmd entry) rest Hne Hsp Hnul) as [H1 H2].
  split.
  - rewrite CmdDecode_run. unfold first_token. rewrite H1. cbn [fst snd].
    rewrite Hlook. reflexivity.
  - rewrite CmdDecode_run. unfold first_token. rewrite H2. cbn [fst snd].
    rewrite Hlook. reflexivity.
Qed.

(** X1: a line that starts with a command string of the table (after any
    number of spaces), followed by a space and anything or by nothing, is
    decoded to the key of that entry; the last-error string is left empty
    and the next [strtok] scan starts behind the space. *)
Theorem X1_decode_recognised (entry : cmd_map_t) (n : nat) (rest : string) (s : State)
    (Hentry : In entry uartCommands) :
  DMMCMD_CmdDecode (spaces n ++ pchCmd entry ++ " " ++ rest) s
    = Ok (eCmd entry) (set_LastErr "" (set_strtok_ptr (Some (c_str rest)) s)) /\
  DMMCMD_CmdDecode (spaces n ++ pchCmd entry) s
    = Ok (eCmd entry) (set_LastErr "" (set_strtok_ptr (Some "") s)) /\
  eCmd entry <> INVALID /\ eCmd entry <> CMD_NONE.
Proof.
  destruct (uartCommands_entry entry Hentry) as (_ & _ & _ & _ & Hk1 & Hk2).
  destruct (CmdDecode_command entry n rest s Hentry) as [H1 H2].
  repeat split; assumption.
Qed.

(** X2: [DMMCMD_CmdDecode] returns a key other than [INVALID] exactly when
    the first token of the line is, character for character, the string of
    that key in the table; it never returns [CMD_NONE].  The table holds no
    string and no key twice. *)
Theorem X2_decode_exact (szCmd : string) (s : State) :
  exists keyCmd s',
    DMMCMD_CmdDecode szCmd s = Ok keyCmd s' /\
    keyCmd <> CMD_NONE /\
    (keyCmd <> INVALID <->
     exists name, first_token szCmd = Some name /\ In (mk_cmd name keyCmd) uartCommands) /\
    NoDup command_names /\
    NoDup (map eCmd uartCommands).
Proof.
  assert (Hnames : NoDup command_names).
  { unfold command_names. simpl.
    repeat (constructor; [simpl; intuition discriminate|]). constructor. }
  assert (Hkeys : NoDup (map eCmd uartCommands)).
  { simpl. repeat (constructor; [simpl; intuition discriminate|]). constructor. }
  rewrite CmdDecode_run.
  destruct (first_token szCmd) as [tok|] eqn:Htok.
  - destruct (lookup_cmd uartCommands tok) as [key|] eqn:Hkey.
    + pose proof (lookup_cmd_Some _ _ _ Hkey) as Hin.
      destruct (uartCommands_entry _ Hin) as (_ & _ & _ & _ & Hk1 & Hk2).
      eexists; eexists. split; [reflexivity|]. split; [exact Hk2|].
      split; [|split; assumption]. split.
      * intros _. exists tok. split; [reflexivity | exact Hin].
      * intros _. exact Hk1.
    + eexists; eexists. split; [reflexivity|]. split; [discriminate|].
      split; [|split; assumption]. split.
      * intro H. exfalso. apply H. reflexivity.
      * intros (name & Hname & Hin). injection Hname as <-.
        destruct (uartCommands_entry _ Hin) as (_ & _ & _ & Hlook & _).
        cbn [pchCmd eCmd] in Hlook. rewrite Hkey in Hlook. discriminate Hlook.
  - eexists; eexists. split; [reflexivity|]. split; [discriminate|].
    split; [|split; assumption]. split.
    + intro H. exfalso. apply H. reflexivity.
    + intros (name & Hname & _). discriminate Hname.
Qed.

(** ** [DMMCMD_CmdGetNextArg] *)

(** X3: a call of [DMMCMD_CmdGetNextArg] is undefined only when no line was
    decoded before.  An argument it returns is never the empty string and
    holds no comma.  Once it has returned the null pointer, the saved
    position is the end of the line and every further call returns the null
    pointer again. *)
Theorem X3_next_arg (s : State) :
  match DMMCMD_CmdGetNextArg s with
  | Ok (Some a) s' => a <> "" /\ free_of "," a = true /\ has_line s'
  | Ok None s' => strtok_ptr s' = Some "" /\ DMMCMD_CmdGetNextArg s' = Ok None s'
  | Undef _ => strtok_ptr s = None
  end.
Proof.
  unfold DMMCMD_CmdGetNextArg, strtok.
  destruct (strtok_ptr s) as [from|] eqn:Hptr; [|reflexivity].
  destruct (strtok_scan "," from) as [[tok|] next] eqn:Hscan.
  - destruct (strtok_scan_wellformed _ _ _ _ Hscan) as [Hne Hfree].
    repeat split; try assumption. unfold has_line. discriminate.
  - assert (Hnext : next = "").
    { unfold strtok_scan in Hscan. destruct (skip_delims "," from) as [|c r].
      - injection Hscan as <-. reflexivity.
      - destruct (split_token "," (String c r)). discriminate Hscan. }
    subst next. split; reflexivity.
Qed.

Lemma GetNextArg_scan (s : State) (from : string) :
  strtok_ptr s = Some from ->
  DMMCMD_CmdGetNextArg s
  = Ok (fst (strtok_scan "," from))
       (set_strtok_ptr (Some (snd (strtok_scan "," from))) s).
Proof.
  intro Hptr. unfold DMMCMD_CmdGetNextArg, strtok. rewrite Hptr.
  destruct (strtok_scan "," from). reflexivity.
Qed.

(** One call of [DMMCMD_CmdGetNextArg] on the arguments that are left. *)
Lemma GetNextArg_join (args : list string) (s : State) :
  forallb arg_ok args = true ->
  strtok_ptr s = Some (join_args args) ->
  DMMCMD_CmdGetNextArg s
  = Ok (hd_error args) (set_strtok_ptr (Some (join_args (tl args))) s).
Proof.
  intros Hok Hptr. rewrite (GetNextArg_scan s _ Hptr).
  destruct args as [|a rest]; [reflexivity|].
  cbn [forallb] in Hok. apply andb_true_iff in Hok as [Ha Hrest].
  destruct (arg_ok_inv a Ha) as (Hne & Hcomma & _).
  assert (Hscan : strtok_scan "," (join_args (a :: rest)) = (Some a, join_args rest)).
  { destruct rest as [|b rest].
    - apply strtok_scan_last; assumption.
    - change (join_args (a :: b :: rest))
        with (a ++ String ","%char (join_args (b :: rest))).
      apply strtok_scan_token; [assumption | assumption | reflexivity]. }
  rewrite Hscan. reflexivity.
Qed.

Lemma arg_ok_tl (args : list string) :
  forallb arg_ok args = true -> forallb arg_ok (tl args) = true.
Proof.
  destruct args as [|a rest]; [reflexivity|]. cbn [forallb tl]. intro H.
  apply andb_true_iff in H as [_ H]. exact H.
Qed.

(** The arguments of a line come back one by one, and then the null
    pointer. *)
Lemma get_args_join (args : list string) :
  forallb arg_ok args = true ->
  forall s, strtok_ptr s = Some (join_args args) ->
  (l <- get_args (length args) ;; extra <- DMMCMD_CmdGetNextArg ;; ret (l, extra)) s
  = Ok (map Some args, None) (set_strtok_ptr (Some "") s).
Proof.
  induction args as [|a rest IH]; intros Hok s Hptr.
  - cbn [length get_args map]. unfold bind at 1. unfold ret at 1.
    unfold bind. rewrite (GetNextArg_scan s "" Hptr). reflexivity.
  - cbn [forallb] in Hok. apply andb_true_iff in Hok as [Ha Hrest].
    destruct (arg_ok_inv a Ha) as (Hne & Hcomma & _).
    assert (Hscan : strtok_scan "," (join_args (a :: rest)) = (Some a, join_args rest)).
    { destruct rest as [|b rest].
      - apply strtok_scan_last; assumption.
      - change (join_args (a :: b :: rest))
          with (a ++ String ","%char (join_args (b :: rest))).
        apply strtok_scan_token; [assumption | assumption | reflexivity]. }
    specialize (IH Hrest (set_strtok_ptr (Some (join_args rest)) s) eq_refl).
    cbn [length get_args map].
    unfold bind in IH |- *. rewrite (GetNextArg_scan s _ Hptr), Hscan. cbn [fst snd].
    destruct (get_args (length rest) (set_strtok_ptr (Some (join_args rest)) s))
      as [l s1|s1]; [|discriminate IH].
    unfold ret at 1.
    destruct (DMMCMD_CmdGetNextArg s1) as [extra s2|s2]; [|discriminate IH].
    unfold ret in IH |- *. injection IH as -> -> ->. reflexivity.
Qed.

(** X4: for the line made of a command string of the table, a space and
    arguments joined by commas (each argument not empty, without comma or
    NUL; spaces are allowed), decoding and then calling
    [DMMCMD_CmdGetNextArg] once per argument gives back the key and the
    arguments, in order and unchanged; one more call gives the null
    pointer. *)
Theorem X4_arguments_round_trip (entry : cmd_map_t) (args : list string) (s : State)
    (Hentry : In entry uartCommands)
    (Hargs : forallb arg_ok args = true) :
  (keyCmd <- DMMCMD_CmdDecode (pchCmd entry ++ " " ++ join_args args) ;;
   l <- get_args (length args) ;;
   extra <- DMMCMD_CmdGetNextArg ;;
   ret (keyCmd, l, extra)) s
  = Ok (eCmd entry, map Some args, None) (set_LastErr "" (set_strtok_ptr (Some "") s)).
Proof.
  destruct (CmdDecode_command entry 0 (join_args args) s Hentry) as (Hdec & _).
  cbn [spaces append] in Hdec.
  rewrite (c_str_free _ (join_args_free args Hargs)) in Hdec.
  unfold bind at 1. change (String " " (join_args args)) with (" " ++ join_args args) in Hdec.
  rewrite Hdec.
  pose proof (get_args_join args Hargs
                (set_LastErr "" (set_strtok_ptr (Some (join_args args)) s)) eq_refl) as Hget.
  unfold bind in Hget |- *.
  destruct (get_args (length args) _) as [l s1|s1]; [|discriminate Hget].
  destruct (DMMCMD_CmdGetNextArg s1) as [extra s2|s2]; [|discriminate Hget].
  unfold ret in Hget |- *. injection Hget as -> -> ->. reflexivity.
Qed.

End Tokens.

Section Commands.

Context {C : Collaborators}.

Ltac proj :=
  cbn [trace szMsg szVal szRefVal dRefVal dMeasuredVal dispersion fRepGetVal
       fRepGetRaw fRepBlock strtok_ptr ext negb fst snd LastErr dev].

Ltac run :=
  cbv beta iota zeta delta
    [bind ret read write emit call undefined UART_PutString_szMsg UART_PutString
     SetUseCalib FormatValue GetPrefixedMessageString_szMsg Format_dMeasuredVal
     Format_dRefVal composed log logs set_szMsg set_szVal set_szRefVal set_dRefVal
     set_dMeasuredVal set_dispersion set_fRepGetVal set_fRepGetRaw set_fRepBlock
     set_strtok_ptr set_ext set_LastErr state_of flags];
  proj.

Ltac traces := repeat rewrite <- app_assoc; cbn [app].

(** ** What a computation appends to the trace *)

Lemma appends_ret {A : Type} (P : Event -> bool) (a : A) : appends P (ret a).
Proof. intro s. exists []. rewrite app_nil_r. split; reflexivity. Qed.

Lemma appends_undefined {A : Type} (P : Event -> bool) : appends P (@undefined C A).
Proof. intro s. exists []. rewrite app_nil_r. split; reflexivity. Qed.

Lemma appends_read {A : Type} (P : Event -> bool) (f : State -> A) : appends P (read f).
Proof. intro s. exists []. rewrite app_nil_r. split; reflexivity. Qed.

Lemma appends_write (P : Event -> bool) (f : State -> State) :
  (forall s, trace (f s) = trace s) -> appends P (write f).
Proof. intros H s. exists []. rewrite app_nil_r. split; [apply H | reflexivity]. Qed.

Lemma appends_emit (P : Event -> bool) (e : Event) : P e = true -> appends P (emit e).
Proof. intros H s. exists [e]. split; [reflexivity | simpl; rewrite H; reflexivity]. Qed.

Lemma appends_call {A : Type} (P : Event -> bool) (e : Event)
    (f : Ext World -> A * Ext World) :
  P e = true -> appends P (call e f).
Proof.
  intros H s. exists [e]. unfold call. destruct (f (ext s)).
  split; [reflexivity | simpl; rewrite H; reflexivity].
Qed.

Lemma appends_bind {A B : Type} (P : Event -> bool) (m : M A) (k : A -> M B) :
  appends P m -> (forall a, appends P (k a)) -> appends P (bind m k).
Proof.
  intros Hm Hk s. rewrite state_of_bind. destruct (Hm s) as (l1 & H1 & HP1).
  destruct (m s) as [a s1|s1]; cbn [state_of] in H1.
  - destruct (Hk a s1) as (l2 & H2 & HP2). exists (l1 ++ l2)%list.
    rewrite H2, H1, app_assoc, forallb_app, HP1, HP2. split; reflexivity.
  - exists l1. split; assumption.
Qed.

Lemma appends_strtok (P : Event -> bool) (str : option string) (delim : string) :
  appends P (strtok str delim).
Proof.
  intro s. exists []. rewrite app_nil_r. split; [|reflexivity]. unfold strtok.
  destruct str as [buf|]; [|destruct (strtok_ptr s)];
    try destruct (strtok_scan _ _); reflexivity.
Qed.

Lemma appends_GetPrefixedMessageString (P : Event -> bool) (bErrCode : Z)
    (arg : option string) :
  appends P (GetPrefixedMessageString_szMsg bErrCode arg).
Proof.
  intro s. exists []. rewrite app_nil_r. split; [|reflexivity].
  unfold GetPrefixedMessageString_szMsg.
  destruct (ERRORS_GetPrefixedMessageString _ _ _ _). reflexivity.
Qed.

Lemma appends_InterpretValue (P : Event -> bool) (arg0 : option string) :
  appends P (InterpretValue_dRefVal arg0).
Proof.
  intro s. exists []. rewrite app_nil_r. split; [|reflexivity].
  unfold InterpretValue_dRefVal. destruct (DMM_InterpretValue _ _ _). reflexivity.
Qed.

Lemma appends_CalibOnPositive (P : Event -> bool) (bEarly : Z) :
  (forall d, P (Ev_CALIB_CalibOnPositive d bEarly) = true) ->
  appends P (CalibOnPositive_globals bEarly).
Proof.
  intros H s. exists [Ev_CALIB_CalibOnPositive (dRefVal s) bEarly].
  unfold CalibOnPositive_globals.
  destruct (CALIB_CalibOnPositive _ _ _ _ _ _) as [[[r m] d] x].
  split; [reflexivity | simpl; rewrite H; reflexivity].
Qed.

Lemma appends_CalibOnNegative (P : Event -> bool) (bEarly : Z) :
  (forall d, P (Ev_CALIB_CalibOnNegative d bEarly) = true) ->
  appends P (CalibOnNegative_globals bEarly).
Proof.
  intros H s. exists [Ev_CALIB_CalibOnNegative (dRefVal s) bEarly].
  unfold CalibOnNegative_globals.
  destruct (CALIB_CalibOnNegative _ _ _ _ _ _) as [[[r m] d] x].
  split; [reflexivity | simpl; rewrite H; reflexivity].
Qed.

Lemma appends_CalibOnZero (P : Event -> bool) :
  P Ev_CALIB_CalibOnZero = true -> appends P CalibOnZero_globals.
Proof.
  intros H s. exists [Ev_CALIB_CalibOnZero]. unfold CalibOnZero_globals.
  destruct (CALIB_CalibOnZero _ _ _ _) as [[[r m] d] x].
  split; [reflexivity | simpl; rewrite H; reflexivity].
Qed.

(** Walks down a computation; the events met must be of the class. *)
Ltac footprint :=
  repeat first
    [ apply appends_bind; [ | intro ]
    | apply appends_ret
    | apply appends_undefined
    | apply appends_read
    | apply appends_strtok
    | apply appends_GetPrefixedMessageString
    | apply appends_InterpretValue
    | apply appends_CalibOnPositive; intro; reflexivity
    | apply appends_CalibOnNegative; intro; reflexivity
    | apply appends_CalibOnZero; reflexivity
    | apply appends_write; intro; reflexivity
    | apply appends_emit; reflexivity
    | apply appends_call; reflexivity
    | match goal with
      | |- appends _ (match ?x with _ => _ end) => destruct x
      end
    | progress unfold DMMCMD_CmdConfig, DMMCMD_CmdImportCalib ].

(** The footprint of the display routine, of decoding and of the repeated
    step, for every class of events that holds theirs. *)
Lemma appends_CmdDecode (P : Event -> bool) (szCmd : string) :
  appends P (DMMCMD_CmdDecode szCmd).
Proof. unfold DMMCMD_CmdDecode. footprint. Qed.

(** Decoding and processing a line stays within a class of events as soon as
    processing does for the key of the line. *)
Lemma appends_decode_and_process (P : Event -> bool) (excluded : cmd_key_t -> Prop)
    (szCmd : string) :
  (forall keyCmd, excluded keyCmd \/ appends P (DMMCMD_ProcessCmd keyCmd)) ->
  ~ excluded INVALID ->
  (exists name keyCmd,
      first_token szCmd = Some name /\ In (mk_cmd name keyCmd) uartCommands /\
      excluded keyCmd) \/
  appends P (decode_and_process szCmd).
Proof.
  intros Hkeys Hinvalid.
  assert (Hstep : forall keyCmd s0 s,
             appends P (DMMCMD_ProcessCmd keyCmd) -> trace s0 = trace s ->
             exists l, trace (state_of (DMMCMD_ProcessCmd keyCmd s0)) = (trace s ++ l)%list /\
                       forallb P l = true).
  { intros keyCmd s0 s Hk Htr. destruct (Hk s0) as (l & Hl & HP).
    exists l. rewrite Hl, Htr. split; [reflexivity | exact HP]. }
  destruct (first_token szCmd) as [tok|] eqn:Htok.
  - destruct (lookup_cmd uartCommands tok) as [key|] eqn:Hkey.
    + destruct (Hkeys key) as [Hex | Hk].
      * left. exists tok, key. repeat split; [apply lookup_cmd_Some, Hkey | exact Hex].
      * right. intro s. unfold decode_and_process, bind.
        rewrite CmdDecode_run, Htok, Hkey. apply Hstep; [exact Hk | reflexivity].
    + right. intro s. unfold decode_and_process, bind.
      rewrite CmdDecode_run, Htok, Hkey.
      destruct (Hkeys INVALID) as [Hex | Hk]; [contradiction|].
      apply Hstep; [exact Hk | reflexivity].
  - right. intro s. unfold decode_and_process, bind.
    rewrite CmdDecode_run, Htok.
    destruct (Hkeys INVALID) as [Hex | Hk]; [contradiction|].
    apply Hstep; [exact Hk | reflexivity].
Qed.

(** The string of a key in the table. *)
Lemma uartCommands_name (name : string) (keyCmd : cmd_key_t) :
  In (mk_cmd name keyCmd) uartCommands ->
  In (name, keyCmd)
     [ ("DMMConfig", CMD_Config); ("DMMCalibP", CMD_CalibP); ("DMMCalibN", CMD_CalibN);
       ("DMMCalibZ", CMD_CalibZ); ("DMMMeasureRep", CMD_MeasureRep);
       ("DMMMeasureStop", CMD_MeasureStop); ("DMMMeasureRaw", CMD_MeasureRaw);
       ("DMMMeasureAvg", CMD_MeasureAvg); ("DMMSaveEPROM", CMD_SaveEPROM);
       ("DMMVerifyEPROM", CMD_VerifyEPROM); ("DMMExportCalib", CMD_ExportCalib);
       ("DMMImportCalib", CMD_ImportCalib);
       ("DMMMeasureForCalibP", CMD_MeasureForCalibP);
       ("DMMMeasureForCalibN", CMD_MeasureForCalibN);
       ("DMMFinalizeCalibP", CMD_FinalizeCalibP);
       ("DMMFinalizeCalibN", CMD_FinalizeCalibN);
       ("DMMRestoreFactCalibs", CMD_RestoreFactCalibs);
       ("DMMReadSerialNo", CMD_ReadSerialNo) ].
Proof.
  intro Hin. simpl in Hin.
  repeat (destruct Hin as [Hin | Hin];
          [injection Hin as <- <-; simpl; tauto|]).
  contradiction.
Qed.

(** What one poll cycle appends, from what processing the received line
    appends. *)
Lemma appends_cycle (P : Event -> bool) (s : State) :
  P Ev_UART_GetString = true ->
  (forall str, P (Ev_UART_PutString str) = true) ->
  appends P DMMCMD_ProcessRepeatedCmd ->
  (fst (fst (UART_GetString (ext s))) <= 0 \/
   appends P (decode_and_process (snd (fst (UART_GetString (ext s)))))) ->
  exists l,
    trace (state_of (DMMCMD_CheckForCommand s)) = (trace s ++ l)%list /\
    forallb P l = true.
Proof.
  intros Hget Hput Hrep Hline.
  assert (Hrest : forall (b : bool) s0 l0,
             trace s0 = (trace s ++ l0)%list -> forallb P l0 = true ->
             exists l,
               trace (state_of ((DMMCMD_ProcessRepeatedCmd ;; ret tt) s0))
                 = (trace s ++ l)%list /\ forallb P l = true).
  { intros b s0 l0 Htr HP.
    assert (Hm : appends P (DMMCMD_ProcessRepeatedCmd ;; ret tt)).
    { apply appends_bind; [exact Hrep | intro; apply appends_ret]. }
    destruct (Hm s0) as (l & Hl & HPl). exists (l0 ++ l)%list.
    rewrite Hl, Htr, app_assoc, forallb_app, HP, HPl. split; reflexivity. }
  unfold DMMCMD_CheckForCommand. rewrite state_of_bind.
  unfold receive_command at 1. unfold bind at 1, call at 1.
  destruct (UART_GetString (ext s)) as [[cchi uartCmd] x] eqn:Hrx. cbn [fst snd] in Hline.
  destruct (0 <? cchi)%Z eqn:Hpos.
  - destruct Hline as [Hle | Hline]; [apply Z.ltb_lt in Hpos; lia|].
    assert (Hm : appends P
              (write (set_szMsg ("Received command: " ++ c_str uartCmd ++ CRLF)) ;;
               UART_PutString_szMsg ;; decode_and_process uartCmd ;;
               write (set_fRepBlock 0) ;; ret true)).
    { apply appends_bind; [apply appends_write; intro; reflexivity | intro].
      apply appends_bind; [|intro].
      { unfold UART_PutString_szMsg, UART_PutString.
        apply appends_bind; [apply appends_read | intro]. apply appends_emit, Hput. }
      apply appends_bind; [exact Hline | intro].
      apply appends_bind; [apply appends_write; intro; reflexivity | intro].
      apply appends_ret. }
    destruct (Hm (set_ext x (log Ev_UART_GetString s))) as (l & Hl & HPl).
    match goal with
    | |- context [match ?r with Ok _ _ => _ | Undef _ => _ end] =>
        destruct r as [b s1|s1] eqn:Hrun
    end; cbn [state_of] in Hl.
    + apply (Hrest b s1 (Ev_UART_GetString :: l)).
      * rewrite Hl. unfold set_ext, log. proj. rewrite <- app_assoc. reflexivity.
      * simpl. rewrite Hget. exact HPl.
    + exists (Ev_UART_GetString :: l). cbn [state_of]. split.
      * rewrite Hl. unfold set_ext, log. proj. rewrite <- app_assoc. reflexivity.
      * simpl. rewrite Hget. exact HPl.
  - unfold ret at 1.
    apply (Hrest false _ [Ev_UART_GetString]).
    + reflexivity.
    + simpl. rewrite Hget. reflexivity.
Qed.


(** X6: which commands reach the instrument and the calibration sessions.
    Processing a line calls the instrument directly ([DMM_SetScale],
    [DMM_SetUseCalib], [DMM_DGetValue], [DMM_DGetAvgValue]) only when its
    first token is DMMConfig, DMMMeasureRaw or DMMMeasureAvg, and it calls
    [CALIB_CalibOnPositive], [CALIB_CalibOnNegative], [CALIB_CalibOnZero] or
    [CALIB_ImportCalibCoefficients] only when its first token is one of the
    six calibration commands; DMMMeasureRep and DMMMeasureStop in
    particular only arm and disarm the stream. *)
Theorem X6_instrument_and_calibration_commands (szCmd : string) :
  ((exists name, first_token szCmd = Some name /\
                 In name ["DMMConfig"; "DMMMeasureRaw"; "DMMMeasureAvg"]) \/
   appends no_DMM_access (decode_and_process szCmd)) /\
  ((exists name, first_token szCmd = Some name /\
                 In name ["DMMCalibP"; "DMMCalibN"; "DMMCalibZ"; "DMMImportCalib";
                          "DMMFinalizeCalibP"; "DMMFinalizeCalibN"]) \/
   appends no_calibration (decode_and_process szCmd)).
Proof.
  split.
  - destruct (appends_decode_and_process no_DMM_access
                (fun k => In k [CMD_Config; CMD_MeasureRaw; CMD_MeasureAvg]) szCmd)
      as [(name & keyCmd & Htok & Hin & Hex) | Hline].
    + intro keyCmd.
      destruct keyCmd; try (left; simpl; tauto); right;
        unfold DMMCMD_ProcessCmd; footprint.
    + simpl. intuition discriminate.
    + left. exists name. split; [exact Htok|].
      apply uartCommands_name in Hin. simpl in Hin, Hex.
      repeat (destruct Hin as [Hin | Hin];
              [injection Hin as <- <-;
               first [simpl; tauto | exfalso; intuition discriminate]|]).
      contradiction.
    + right. exact Hline.
  - destruct (appends_decode_and_process no_calibration
                (fun k => In k [CMD_CalibP; CMD_CalibN; CMD_CalibZ; CMD_ImportCalib;
                                CMD_FinalizeCalibP; CMD_FinalizeCalibN]) szCmd)
      as [(name & keyCmd & Htok & Hin & Hex) | Hline].
    + intro keyCmd.
      destruct keyCmd; try (left; simpl; tauto); right;
        unfold DMMCMD_ProcessCmd; footprint.
    + simpl. intuition discriminate.
    + left. exists name. split; [exact Htok|].
      apply uartCommands_name in Hin. simpl in Hin, Hex.
      repeat (destruct Hin as [Hin | Hin];
              [injection Hin as <- <-;
               first [simpl; tauto | exfalso; intuition discriminate]|]).
      contradiction.
    + right. exact Hline.
Qed.


(** ** Computations that return *)
















(** X8: a line that is no command gets no answer.  When the first token is
    none of the command strings (or the line has none), processing the line
    sends nothing: the only call is the delay that ends every
    [DMMCMD_ProcessCmd]; the diagnostic of the decoder stays in the
    last-error string, [szMsg] and the flags are as before. *)
Theorem X8_unrecognized_line_gets_no_answer (szCmd : string) (s : State)
    (Hunknown : forall tok, first_token szCmd = Some tok -> ~ In tok command_names) :
  exists s',
    decode_and_process szCmd s = Ok tt s' /\
    trace s' = (trace s ++ [Ev_DelayAprox10Us 1000])%list /\
    szMsg s' = szMsg s /\
    flags s' = flags s /\
    LastErr (ext s') = match first_token szCmd with
                       | Some tok => "Unrecognized command:" ++ tok
                       | None => "Empty command"
                       end.
Proof.
  unfold decode_and_process, bind. rewrite CmdDecode_run.
  destruct (first_token szCmd) as [tok|] eqn:Htok.
  - rewrite (lookup_cmd_None uartCommands tok (Hunknown tok eq_refl)).
    eexists. split; [reflexivity|]. repeat split.
  - eexists. split; [reflexivity|]. repeat split.
Qed.

(** Every computation of the command loop only appends to the trace. *)
Lemma appends_any_decode_and_process (szCmd : string) :
  appends any_event (decode_and_process szCmd).
Proof.
  destruct (appends_decode_and_process any_event (fun _ => False) szCmd)
    as [(name & keyCmd & _ & _ & []) | Hdone]; [| tauto | exact Hdone].
  intro keyCmd. right. destruct keyCmd; unfold DMMCMD_ProcessCmd; footprint.
Qed.

Lemma appends_any_ProcessRepeatedCmd : appends any_event DMMCMD_ProcessRepeatedCmd.
Proof. unfold DMMCMD_ProcessRepeatedCmd. footprint. Qed.

Lemma appends_any_CheckForCommand : appends any_event DMMCMD_CheckForCommand.
Proof.
  intro s. apply appends_cycle; try reflexivity.
  - apply appends_any_ProcessRepeatedCmd.
  - right. apply appends_any_decode_and_process.
Qed.

Lemma appends_any_poll (n : nat) : appends any_event (poll n).
Proof.
  induction n as [|n IH]; cbn [poll]; [apply appends_ret|].
  apply appends_bind; [apply appends_any_CheckForCommand | intro; exact IH].
Qed.

(** X9: when [UART_GetString] delivers a line, the first thing a poll cycle
    sends is the echo: "Received command: ", the line up to its first NUL,
    CR LF.  It is sent before the line is decoded, so also for a line that
    is no command and for one whose processing gets stuck. *)
Theorem X9_cycle_echoes_first (s : State)
    (Hline : 0 < fst (fst (UART_GetString (ext s)))) :
  exists rest,
    trace (state_of (DMMCMD_CheckForCommand s))
      = (trace s ++ [Ev_UART_GetString;
                     Ev_UART_PutString
                       ("Received command: "
                          ++ c_str (snd (fst (UART_GetString (ext s)))) ++ CRLF)]
           ++ rest)%list.
Proof.
  unfold DMMCMD_CheckForCommand. rewrite state_of_bind.
  unfold receive_command at 1. unfold bind at 1, call at 1.
  destruct (UART_GetString (ext s)) as [[cchi uartCmd] x]. cbn [fst snd] in *.
  rewrite (proj2 (Z.ltb_lt _ _) Hline).
  set (echoed := log (Ev_UART_PutString ("Received command: " ++ c_str uartCmd ++ CRLF))
                   (set_szMsg ("Received command: " ++ c_str uartCmd ++ CRLF)
                      (set_ext x (log Ev_UART_GetString s)))).
  assert (Hcommand : appends any_event
                       (decode_and_process uartCmd ;; write (set_fRepBlock 0) ;; ret true)).
  { apply appends_bind; [apply appends_any_decode_and_process | intro; footprint]. }
  assert (Hrepeated : appends any_event (DMMCMD_ProcessRepeatedCmd ;; ret tt)).
  { apply appends_bind; [apply appends_any_ProcessRepeatedCmd | intro; apply appends_ret]. }
  change ((write (set_szMsg ("Received command: " ++ c_str uartCmd ++ CRLF)) ;;
           UART_PutString_szMsg ;;
           decode_and_process uartCmd ;; write (set_fRepBlock 0) ;; ret true)
            (set_ext x (log Ev_UART_GetString s)))
    with ((decode_and_process uartCmd ;; write (set_fRepBlock 0) ;; ret true) echoed).
  destruct (Hcommand echoed) as (l1 & Hl1 & _).
  destruct ((decode_and_process uartCmd ;; write (set_fRepBlock 0) ;; ret true) echoed)
    as [b s1|s1]; cbn [state_of] in Hl1.
  - destruct (Hrepeated s1) as (l2 & Hl2 & _). exists (l1 ++ l2)%list.
    rewrite Hl2, Hl1. unfold echoed, log, set_szMsg, set_ext. proj.
    repeat rewrite <- app_assoc. reflexivity.
  - exists l1. rewrite Hl1. unfold echoed, log, set_szMsg, set_ext. proj.
    repeat rewrite <- app_assoc. reflexivity.
Qed.

(** X10: a poll cycle does nothing beyond asking the serial line unless a
    line arrived or a stream is armed: otherwise its only call is
    [UART_GetString], and no variable of the module changes. *)
Theorem X10_idle_cycle_only_polls (s : State) :
  0 < fst (fst (UART_GetString (ext s))) \/
  (is_set (fRepGetVal s) || is_set (fRepGetRaw s)) && negb (is_set (fRepBlock s)) = true \/
  DMMCMD_CheckForCommand s
    = Ok tt (set_ext (snd (UART_GetString (ext s))) (log Ev_UART_GetString s)).
Proof.
  destruct (Z.ltb_spec 0 (fst (fst (UART_GetString (ext s))))) as [Hpos | Hle];
    [left; exact Hpos | right].
  destruct ((is_set (fRepGetVal s) || is_set (fRepGetRaw s))
            && negb (is_set (fRepBlock s))) eqn:Harmed; [left; reflexivity | right].
  unfold DMMCMD_CheckForCommand, receive_command, DMMCMD_ProcessRepeatedCmd.
  unfold bind at 1. unfold bind at 1, call at 1.
  destruct (UART_GetString (ext s)) as [[cchi uartCmd] x]. cbn [fst snd] in *.
  rewrite (proj2 (Z.ltb_ge _ _) Hle). run. rewrite Harmed. reflexivity.
Qed.

(** ** The answer of a command *)

Lemma uart_tx_silent (l : list Event) :
  forallb no_UART_PutString l = true -> uart_tx l = [].
Proof.
  induction l as [|e l IH]; [reflexivity|]. simpl. intro H.
  apply andb_prop in H as [He Hl]. destruct e; try discriminate He; apply IH, Hl.
Qed.

Lemma sends_put {A : Type} (a : A) : sends_szMsg (UART_PutString_szMsg ;; ret a).
Proof.
  intros s b s' Hrun. injection Hrun as _ <-. run. apply uart_tx_app.
Qed.

Lemma sends_bind {A B : Type} (m : M A) (k : A -> M B) :
  appends no_UART_PutString m -> (forall a, sends_szMsg (k a)) -> sends_szMsg (bind m k).
Proof.
  intros Hm Hk s b s' Hrun. unfold bind in Hrun.
  destruct (Hm s) as (l & Hl & HP).
  destruct (m s) as [a s1|s1]; [|discriminate]. cbn [state_of] in Hl.
  rewrite (Hk a s1 b s' Hrun), Hl, uart_tx_app, (uart_tx_silent l HP), app_nil_r.
  reflexivity.
Qed.

Lemma sends_ret_tt (m : M Z) : sends_szMsg m -> sends_szMsg (m ;; ret tt).
Proof.
  intros Hm s b s' Hrun. unfold bind in Hrun.
  destruct (m s) as [a s1|s1] eqn:Hms; [|discriminate].
  injection Hrun as _ <-. apply (Hm s a s1 Hms).
Qed.

(** Walks down a handler to its [UART_PutString(szMsg)]. *)
Ltac answer :=
  repeat first
    [ apply sends_put
    | apply sends_ret_tt
    | apply sends_bind; [ solve [footprint] | intro ]
    | match goal with
      | |- sends_szMsg (match ?x with _ => _ end) => destruct x
      end
    | progress unfold DMMCMD_CmdConfig, DMMCMD_CmdImportCalib ].

Lemma sends_undefined {A : Type} : sends_szMsg (@undefined C A).
Proof. intros s a s' H. discriminate H. Qed.

Lemma sends_then_delay (m : M unit) (s s' : State) :
  sends_szMsg m ->
  (m ;; emit (Ev_DelayAprox10Us 1000)) s = Ok tt s' ->
  (exists t, trace s' = (t ++ [Ev_DelayAprox10Us 1000])%list) /\
  uart_tx (trace s') = (uart_tx (trace s) ++ [szMsg s'])%list.
Proof.
  intros Hm Hrun. unfold bind in Hrun.
  destruct (m s) as [u s1|s1] eqn:Hms; [|discriminate].
  injection Hrun as <-. split; [exists (trace s1); reflexivity|].
  unfold log. proj. rewrite uart_tx_app, (Hm s u s1 Hms). apply app_nil_r.
Qed.

(** X11: one answer per command.  When processing a key returns, exactly one
    line was sent for it, and that line is what [szMsg] holds at the end;
    DMMExportCalib sends a second one, the exported calibration, whatever
    the error code; for [INVALID] nothing is sent.  The last call is always
    the delay [DelayAprox10Us(1000)]. *)
Theorem X11_one_answer_per_command (keyCmd : cmd_key_t) (s s' : State)
    (Hrun : DMMCMD_ProcessCmd keyCmd s = Ok tt s') :
  (exists t, trace s' = (t ++ [Ev_DelayAprox10Us 1000])%list) /\
  uart_tx (trace s')
    = (uart_tx (trace s)
         ++ match keyCmd with
            | INVALID | CMD_NONE => []
            | CMD_ExportCalib => [szMsg s'; snd (fst (CALIB_ExportCalibs_User (ext s)))]
            | _ => [szMsg s']
            end)%list.
Proof.
  destruct keyCmd; unfold DMMCMD_ProcessCmd in Hrun;
    try (apply sends_then_delay in Hrun; [exact Hrun | answer; apply sends_undefined]).
  - injection Hrun as <-. split; [exists (trace s); reflexivity|].
    unfold log. proj. rewrite uart_tx_app. reflexivity.
  - injection Hrun as <-. split; [exists (trace s); reflexivity|].
    unfold log. proj. rewrite uart_tx_app. reflexivity.
  - revert Hrun. unfold DMMCMD_CmdExportCalib. run.
    destruct (CALIB_ExportCalibs_User (ext s)) as [[r calExp] x]. run.
    destruct (ERRORS_GetPrefixedMessageString _ _ _ _) as [r' msg]. run.
    intro Hrun. injection Hrun as <-. run.
    split; [eexists; reflexivity|].
    repeat rewrite uart_tx_app. repeat rewrite <- app_assoc. reflexivity.
Qed.


(** ** The scale catalogue *)

Lemma find_scale_nth (tbl : list string) (idxScale : Z) (arg0 : string) (idx : Z) :
  find_scale tbl idxScale arg0 = Some idx ->
  idxScale <= idx /\ nth_error tbl (Z.to_nat (idx - idxScale)) = Some arg0.
Proof.
  revert idxScale. induction tbl as [|name rest IH]; intros k H; [discriminate|].
  simpl in H. unfold streq in H. destruct (String.eqb_spec arg0 name) as [Heq|Hne].
  - injection H as <-. subst name. rewrite Z.sub_diag. split; [lia | reflexivity].
  - destruct (IH _ H) as [Hle Hnth]. split; [lia|].
    replace (Z.to_nat (idx - k)) with (S (Z.to_nat (idx - (k + 1)))) by lia.
    exact Hnth.
Qed.

Lemma nth_find_scale (tbl : list string) (idxScale : Z) (arg0 : string) (n : nat) :
  NoDup tbl -> nth_error tbl n = Some arg0 ->
  find_scale tbl idxScale arg0 = Some (idxScale + Z.of_nat n).
Proof.
  revert idxScale n. induction tbl as [|name rest IH]; intros k n Hnd Hnth.
  - destruct n; discriminate.
  - inversion Hnd as [|? ? Hnotin Hrest]; subst. simpl. unfold streq.
    destruct n as [|n]; simpl in Hnth.
    + injection Hnth as ->. rewrite String.eqb_refl. f_equal. lia.
    + destruct (String.eqb_spec arg0 name) as [Heq|Hne].
      * exfalso. apply Hnotin. subst name. apply (nth_error_In _ _ Hnth).
      * rewrite (IH (k + 1) n Hrest Hnth). f_equal. lia.
Qed.

Lemma NoDup_rgScales : NoDup rgScales.
Proof.
  unfold rgScales. repeat (constructor; [simpl; intuition discriminate|]). constructor.
Qed.

(** The loop of [DMMCMD_CmdConfig] finds a name at its position in the
    catalogue, and only there. *)
Lemma scale_index (arg0 : string) (idx : Z) :
  find_scale rgScales 0 arg0 = Some idx <-> nth_scale idx = Some arg0.
Proof.
  unfold nth_scale. split.
  - intro H. apply find_scale_nth in H as [Hle Hnth].
    destruct (Z.ltb_spec idx 0) as [Hneg|_]; [lia|].
    rewrite Z.sub_0_r in Hnth. exact Hnth.
  - destruct (Z.ltb_spec idx 0) as [Hneg|Hpos]; [discriminate|]. intro Hnth.
    rewrite (nth_find_scale rgScales 0 arg0 _ NoDup_rgScales Hnth). f_equal. lia.
Qed.

Lemma no_DMM_access_SetScale (l : list Event) (idx : Z) :
  forallb no_DMM_access l = true -> ~ In (Ev_DMM_SetScale idx) l.
Proof.
  intros H Hin. rewrite forallb_forall in H. specialize (H _ Hin). discriminate H.
Qed.

(** X12: the index handed to [DMM_SetScale].  [DMMCMD_CmdConfig] calls
    [DMM_SetScale(idx)] exactly when the argument is, character for
    character, entry [idx] of the scale catalogue [rgScales]; the call is
    then the first thing the handler does.  The catalogue holds no name
    twice, so every entry can be selected. *)
Theorem X12_config_selects_position (arg0 : string) (s : State) :
  exists l,
    trace (state_of (DMMCMD_CmdConfig (Some arg0) s)) = (trace s ++ l)%list /\
    (forall idx, In (Ev_DMM_SetScale idx) l <-> nth_scale idx = Some arg0) /\
    (forall idx, nth_scale idx = Some arg0 -> hd_error l = Some (Ev_DMM_SetScale idx)).
Proof.
  unfold DMMCMD_CmdConfig.
  destruct (find_scale rgScales 0 arg0) as [idxScale|] eqn:Hfind.
  - rewrite state_of_bind. unfold call at 1.
    destruct (DMM_SetScale idxScale (ext s)) as [r x].
    match goal with
    | |- context [state_of (?k (set_ext x (log ?e s)))] =>
        assert (Hrest : appends no_DMM_access k) by footprint;
        destruct (Hrest (set_ext x (log e s))) as (l & Hl & HP)
    end.
    exists (Ev_DMM_SetScale idxScale :: l). split; [|split].
    + rewrite Hl. unfold set_ext, log. proj. rewrite <- app_assoc. reflexivity.
    + intro idx. rewrite <- scale_index. split.
      * intros [Heq | Hin]; [injection Heq as <-; exact Hfind|].
        exfalso. exact (no_DMM_access_SetScale l idx HP Hin).
      * intro H. rewrite Hfind in H. injection H as <-. left. reflexivity.
    + intros idx H. apply scale_index in H. rewrite Hfind in H. injection H as <-.
      reflexivity.
  - eexists. split; [reflexivity|]. split.
    + intro idx. rewrite <- scale_index, Hfind. split.
      * intros [Heq | []]. discriminate Heq.
      * discriminate.
    + intros idx H. apply scale_index in H. rewrite Hfind in H. discriminate H.
Qed.

Lemma nth_scale_range (idx : Z) :
  (exists name, nth_scale idx = Some name) <-> 0 <= idx < 27.
Proof.
  unfold nth_scale. destruct (Z.ltb_spec idx 0) as [Hneg|Hpos].
  - split; [intros [name H]; discriminate | lia].
  - split.
    + intros [name H].
      assert (Hlt : (Z.to_nat idx < length rgScales)%nat).
      { apply nth_error_Some. rewrite H. discriminate. }
      change (length rgScales) with 27%nat in Hlt. lia.
    + intros [_ Hlt].
      destruct (nth_error rgScales (Z.to_nat idx)) as [name|] eqn:Hnth;
        [exists name; reflexivity|].
      apply nth_error_None in Hnth. change (length rgScales) with 27%nat in Hnth. lia.
Qed.

(** X13: what [DMMCMD_PmodOLEDDisplay] puts on the display.  With no scale
    selected ([DMM_GetCurrentScale] gives -1) or with a scale of the
    catalogue (0 to 26) it clears the buffer, writes the label ("No scale"
    or the name of the scale) centred on row 1 and the value centred on
    row 3, and updates the display: six calls, in this order.  With any
    other index [rgScales] is read outside its bounds, after the buffer was
    cleared. *)
Theorem X13_display_sequence (pszVal : string) (s : State) :
  (exists label,
      ((DMM_GetCurrentScale (dev (ext s)) = -1 /\ label = "No scale") \/
       nth_scale (DMM_GetCurrentScale (dev (ext s))) = Some label) /\
      DMMCMD_PmodOLEDDisplay pszVal s
      = Ok tt (logs [Ev_OLED_ClearBuffer;
                     Ev_OLED_SetCursor (column_of label) 1; Ev_OLED_PutString label;
                     Ev_OLED_SetCursor (column_of pszVal) 3; Ev_OLED_PutString pszVal;
                     Ev_OLED_Update] s)) \/
  ((DMM_GetCurrentScale (dev (ext s)) < -1 \/ 27 <= DMM_GetCurrentScale (dev (ext s))) /\
   DMMCMD_PmodOLEDDisplay pszVal s = Undef (logs [Ev_OLED_ClearBuffer] s)).
Proof.
  unfold DMMCMD_PmodOLEDDisplay. run.
  destruct (Z.eqb_spec (DMM_GetCurrentScale (dev (ext s))) (-1)) as [Hnone|Hsome]; run.
  - left. exists "No scale". split; [left; split; [exact Hnone | reflexivity]|].
    traces. reflexivity.
  - destruct (nth_scale (DMM_GetCurrentScale (dev (ext s)))) as [name|] eqn:Hnth; run.
    + left. exists name. split; [right; reflexivity|]. traces. reflexivity.
    + right. split; [|reflexivity].
      destruct (Z_lt_ge_dec (DMM_GetCurrentScale (dev (ext s))) 0) as [Hneg|Hpos];
        [left; lia|].
      destruct (Z_lt_ge_dec (DMM_GetCurrentScale (dev (ext s))) 27) as [Hlt|Hge];
        [|right; lia].
      exfalso.
      destruct (proj2 (nth_scale_range (DMM_GetCurrentScale (dev (ext s))))) as [name H];
        [lia|]. rewrite Hnth in H. discriminate H.
Qed.

(** X14: the column of the centring, [(16 - strlen(s)) / 2] computed in
    [size_t].  For a string of at most 16 characters it is the usual
    centring and the string fits in the 16 columns.  For a longer one the
    subtraction wraps around and the column is far outside the display.  The
    two labels and the 27 scale names have at most 16 characters. *)
Theorem X14_display_column (str : string) :
  ((strlen str <= 16 /\
    column_of str = (16 - strlen str) / 2 /\
    0 <= column_of str /\ column_of str + strlen str <= 16) \/
   (16 < strlen str /\ (strlen str <= 2 ^ 31 -> 2 ^ 30 < column_of str))) /\
  forallb (fun label => (strlen label <=? 16)%Z) ("No scale" :: "No value" :: rgScales) = true.
Proof.
  split; [|reflexivity].
  unfold column_of, to_size_t, strlen.
  pose proof (Nat2Z.is_nonneg (String.length str)) as Hlen.
  destruct (Z_le_gt_dec (Z.of_nat (String.length str)) 16) as [Hle|Hgt].
  - left. rewrite Z.mod_small by lia. repeat split; try lia.
    + apply Z.div_pos; lia.
    + assert ((16 - Z.of_nat (String.length str)) / 2 <= 16 - Z.of_nat (String.length str)).
      { apply Z.div_le_upper_bound; lia. }
      lia.
  - right. split; [lia|]. intro Hmax.
    replace ((16 - Z.of_nat (String.length str)) mod 2 ^ 32)
      with (2 ^ 32 + 16 - Z.of_nat (String.length str)).
    + assert (2 ^ 30 + 1 <= (2 ^ 32 + 16 - Z.of_nat (String.length str)) / 2).
      { apply Z.div_le_lower_bound; lia. }
      lia.
    + apply Z.mod_unique with (q := -1); lia.
Qed.

(** ** The calibration commands and the import *)

(** X15: a reference value that [DMM_InterpretValue] rejects.  In
    DMMCalibP, DMMCalibN, DMMFinalizeCalibP and DMMFinalizeCalibN, when the
    argument (or the null pointer of a missing one) is not accepted, no
    calibration is run: the handler hands the code and the argument to the
    message composer, sends the result and returns the code of
    [DMM_InterpretValue]; the measured value and the dispersion keep their
    content. *)
Theorem X15_rejected_reference_runs_no_calibration
    (handler : option string -> M Z) (arg0 : option string) (s : State)
    (Hhandler : In handler [DMMCMD_CmdCalibP; DMMCMD_CmdCalibN;
                            DMMCMD_CmdFinalizeCalibP; DMMCMD_CmdFinalizeCalibN])
    (Hrejected : to_u8 (fst (DMM_InterpretValue arg0 (dRefVal s) (ext s)))
                 <> ERRVAL_SUCCESS) :
  exists s',
    handler arg0 s = Ok (to_u8 (fst (DMM_InterpretValue arg0 (dRefVal s) (ext s)))) s' /\
    trace s' = (trace s ++ [Ev_UART_PutString (szMsg s')])%list /\
    szMsg s' = snd (ERRORS_GetPrefixedMessageString
                      (to_u8 (fst (DMM_InterpretValue arg0 (dRefVal s) (ext s))))
                      arg0 (szMsg s) (ext s)) /\
    ext s' = ext s /\
    dMeasuredVal s' = dMeasuredVal s /\
    dispersion s' = dispersion s.
Proof.
  simpl in Hhandler.
  destruct Hhandler as [<- | [<- | [<- | [<- | []]]]];
    [ unfold DMMCMD_CmdCalibP | unfold DMMCMD_CmdCalibN
    | unfold DMMCMD_CmdFinalizeCalibP | unfold DMMCMD_CmdFinalizeCalibN ];
    unfold InterpretValue_dRefVal; run;
    destruct (DMM_InterpretValue arg0 (dRefVal s) (ext s)) as [r d];
    cbn [fst] in Hrejected; run;
    destruct (Z.eqb_spec (to_u8 r) ERRVAL_SUCCESS) as [Hok|_]; try contradiction; run;
    destruct (ERRORS_GetPrefixedMessageString (to_u8 r) arg0 (szMsg s) (ext s))
      as [r' msg]; run;
    (eexists; split; [reflexivity|]; repeat split).
Qed.

Lemma set_strtok_ptr_twice (p q : option string) (s : State) :
  set_strtok_ptr p (set_strtok_ptr q s) = set_strtok_ptr p s.
Proof. reflexivity. Qed.

Lemma set_strtok_ptr_LastErr (p : option string) (v : string) (s : State) :
  set_strtok_ptr p (set_LastErr v s) = set_LastErr v (set_strtok_ptr p s).
Proof. reflexivity. Qed.

(** Runs the decoder and the three calls of [DMMCMD_CmdGetNextArg] on the
    line "DMMImportCalib " followed by the arguments [args] joined. *)
Ltac import_line args s Hargs :=
  let Hdec := fresh "Hdec" in
  destruct (CmdDecode_command (mk_cmd "DMMImportCalib" CMD_ImportCalib) 0
              (join_args args) s) as [Hdec _]; [simpl; tauto|];
  cbn [spaces pchCmd eCmd] in Hdec;
  rewrite (c_str_free _ (join_args_free args Hargs)) in Hdec;
  unfold decode_and_process; unfold bind at 1;
  change ("DMMImportCalib " ++ join_args args)
    with ("" ++ "DMMImportCalib" ++ " " ++ join_args args);
  rewrite Hdec; unfold DMMCMD_ProcessCmd;
  unfold bind at 1; unfold bind at 1;
  match goal with
  | |- context [DMMCMD_CmdGetNextArg ?st] =>
      rewrite (GetNextArg_join args st Hargs eq_refl)
  end;
  unfold bind at 1;
  match goal with
  | |- context [DMMCMD_CmdGetNextArg ?st] =>
      rewrite (GetNextArg_join (tl args) st (arg_ok_tl _ Hargs) eq_refl)
  end;
  unfold bind at 1;
  match goal with
  | |- context [DMMCMD_CmdGetNextArg ?st] =>
      rewrite (GetNextArg_join (tl (tl args)) st (arg_ok_tl _ (arg_ok_tl _ Hargs)) eq_refl)
  end;
  rewrite !set_strtok_ptr_twice, set_strtok_ptr_LastErr, set_strtok_ptr_twice.

(** X16: the arguments of DMMImportCalib reach the handler in the order of
    evaluation.  For a line "DMMImportCalib a,b,c" the handler is called
    with the tokens placed as the compiler's order of evaluation of the
    three calls [DMMCMD_CmdGetNextArg()] decides: [a] is the scale index
    only where argument 0 is evaluated first. *)
Theorem X16_import_arguments_in_evaluation_order (args : list string) (s : State)
    (Hargs : forallb arg_ok args = true) :
  decode_and_process ("DMMImportCalib " ++ join_args args) s
  = ((let '(arg0, arg1, arg2) :=
        place arg_order (nth_error args 0) (nth_error args 1) (nth_error args 2) in
      DMMCMD_CmdImportCalib arg0 arg1 arg2 ;; ret tt) ;;
     emit (Ev_DelayAprox10Us 1000))
      (set_LastErr "" (set_strtok_ptr (Some (join_args (skipn 3 args))) s)).
Proof.
  import_line args s Hargs.
  destruct args as [|a [|b [|c rest]]]; reflexivity.
Qed.

(** X17: DMMImportCalib with fewer than three arguments.  Whatever the
    order in which the compiler evaluates the three calls of
    [DMMCMD_CmdGetNextArg], at least one of them returns the null pointer:
    the handler composes the message of [ERRVAL_CMD_WRONGPARAMS], sends it
    and calls nothing else; no coefficient is imported. *)
Theorem X17_import_needs_three_arguments (args : list string) (s : State)
    (Hargs : forallb arg_ok args = true)
    (Hfew : (length args < 3)%nat) :
  exists s',
    decode_and_process ("DMMImportCalib " ++ join_args args) s = Ok tt s' /\
    trace s' = (trace s ++ [Ev_UART_PutString (szMsg s'); Ev_DelayAprox10Us 1000])%list /\
    szMsg s' = snd (ERRORS_GetPrefixedMessageString ERRVAL_CMD_WRONGPARAMS (Some "")
                      (szMsg s) (mk_ext "" (dev (ext s)))) /\
    dev (ext s') = dev (ext s).
Proof.
  import_line args s Hargs.
  destruct args as [|a [|b [|c rest]]]; [| | |simpl in Hfew; lia];
    cbn [hd_error tl join_args]; destruct arg_order; cbn [place];
    unfold DMMCMD_CmdImportCalib; run;
    destruct (ERRORS_GetPrefixedMessageString ERRVAL_CMD_WRONGPARAMS (Some "")
                (szMsg s) (mk_ext "" (dev (ext s)))) as [r msg]; run;
    (eexists; split; [reflexivity|]; repeat split; traces; reflexivity).
Qed.

(** ** The variables a command writes *)

Lemma unchanged_bind {A B D : Type} (f : State -> D) (m : M A) (k : A -> M B) :
  unchanged f m -> (forall a, unchanged f (k a)) -> unchanged f (bind m k).
Proof.
  intros Hm Hk s. rewrite state_of_bind. specialize (Hm s).
  destruct (m s) as [a s1|s1]; cbn [state_of] in Hm.
  - rewrite Hk. exact Hm.
  - exact Hm.
Qed.

(** A step that is no [bind]: the state it leaves is compared directly. *)
Ltac leaf :=
  intro;
  unfold DMMCMD_CmdGetNextArg, strtok, GetPrefixedMessageString_szMsg,
    InterpretValue_dRefVal, CalibOnPositive_globals, CalibOnNegative_globals,
    CalibOnZero_globals, call, read, write, emit, ret, undefined;
  repeat match goal with
         | |- context [match ?x with _ => _ end] => destruct x
         end;
  reflexivity.

Ltac untouched :=
  repeat first
    [ apply unchanged_bind; [ | intro ]
    | match goal with
      | |- unchanged _ (match ?x with _ => _ end) => destruct x
      end
    | solve [leaf]
    | progress unfold DMMCMD_CmdConfig, DMMCMD_CmdImportCalib ].

(** X20: the variables a command writes.  Only the five calibration
    commands write [dMeasuredVal] and [dispersion]; only the four with a
    reference value write [dRefVal] and [szRefVal]; and [szVal] is written
    by them and by the two DMMMeasureForCalib commands only.  DMMMeasureRaw
    and DMMMeasureAvg work on locals of the same names and leave the
    file-scope [szVal] and [dMeasuredVal] of the stream untouched, and
    DMMMeasureForCalibP/N keep their measurement in a local. *)
Theorem X20_variables_written_by_command (keyCmd : cmd_key_t) :
  (In keyCmd [CMD_CalibP; CMD_CalibN; CMD_CalibZ;
              CMD_FinalizeCalibP; CMD_FinalizeCalibN] \/
   unchanged (fun s => (dMeasuredVal s, dispersion s)) (DMMCMD_ProcessCmd keyCmd)) /\
  (In keyCmd [CMD_CalibP; CMD_CalibN; CMD_FinalizeCalibP; CMD_FinalizeCalibN] \/
   unchanged (fun s => (dRefVal s, szRefVal s)) (DMMCMD_ProcessCmd keyCmd)) /\
  (In keyCmd [CMD_CalibP; CMD_CalibN; CMD_CalibZ;
              CMD_FinalizeCalibP; CMD_FinalizeCalibN;
              CMD_MeasureForCalibP; CMD_MeasureForCalibN] \/
   unchanged szVal (DMMCMD_ProcessCmd keyCmd)).
Proof.
  split; [|split];
    destruct keyCmd; try (left; simpl; tauto); right;
      unfold DMMCMD_ProcessCmd; untouched.
Qed.

End Commands.

Section Start.

Context {C : Collaborators} {St : Startup}.

Ltac proj :=
  cbn [trace szMsg szVal szRefVal dRefVal dMeasuredVal dispersion fRepGetVal
       fRepGetRaw fRepBlock strtok_ptr ext negb fst snd LastErr dev].

Ltac run :=
  cbv beta iota zeta delta
    [bind ret read write emit call undefined UART_PutString_szMsg UART_PutString
     SetUseCalib FormatValue GetPrefixedMessageString_szMsg Format_dMeasuredVal
     Format_dRefVal composed log logs set_szMsg set_szVal set_szRefVal set_dRefVal
     set_dMeasuredVal set_dispersion set_fRepGetVal set_fRepGetRaw set_fRepBlock
     set_strtok_ptr set_ext set_LastErr state_of flags startup startup_call];
  proj.

(** [DMMCMD_Init]: the code returned, the flags and the trace. *)
Lemma Init_run (s : State) :
  exists disp x,
    forallb is_OLED disp = true /\
    (DMMCMD_Init s
     = Ok (to_u8 (fst (UART_Init 115200 (snd (CALIB_Init (DMM_Init (ext s)))))))
          (logs disp (set_ext x s)) \/
     DMMCMD_Init s = Undef (logs disp (set_ext x s))).
Proof.
  unfold DMMCMD_Init. run.
  destruct (CALIB_Init (DMM_Init (ext s))) as [r1 x1]. run.
  destruct (UART_Init 115200 x1) as [r2 x2]. run.
  destruct (to_u8 r2 =? ERRVAL_SUCCESS)%Z; run.
  - match goal with
    | |- context [DMMCMD_PmodOLEDDisplay "No value" ?st] =>
        destruct (PmodOLEDDisplay_run "No value" st) as (disp & Hd & [H | H]);
        rewrite H; exists disp, (SERIALNO_Init x2)
    end; (split; [exact Hd|]); [left | right]; reflexivity.
  - match goal with
    | |- context [DMMCMD_PmodOLEDDisplay "No value" ?st] =>
        destruct (PmodOLEDDisplay_run "No value" st) as (disp & Hd & [H | H]);
        rewrite H; exists disp, x2
    end; (split; [exact Hd|]); [left | right]; reflexivity.
Qed.

(** X18: [DMMCMD_Init] returns the code of [UART_Init].  The code of
    [CALIB_Init] is overwritten before it is read, so a board without
    calibration data starts like any other.  The initialisation sends
    nothing on the serial line and leaves the three flags at their
    initialisers; its only calls in the trace are those of the display. *)
Theorem X18_init_returns_uart_code (s : State) :
  flags (state_of (DMMCMD_Init s)) = flags s /\
  (exists disp,
      trace (state_of (DMMCMD_Init s)) = (trace s ++ disp)%list /\
      forallb is_OLED disp = true) /\
  (value_of (DMMCMD_Init s) = None \/
   value_of (DMMCMD_Init s)
   = Some (to_u8 (fst (UART_Init 115200 (snd (CALIB_Init (DMM_Init (ext s)))))))).
Proof.
  destruct (Init_run s) as (disp & x & Hd & [H | H]); rewrite H; cbn [state_of value_of].
  - split; [reflexivity|]. split; [exists disp; split; [reflexivity | exact Hd]|].
    right. reflexivity.
  - split; [reflexivity|]. split; [exists disp; split; [reflexivity | exact Hd]|].
    left. reflexivity.
Qed.

Lemma reachable_poll (n : nat) (s : State) :
  reachable s -> reachable (state_of (poll n s)).
Proof.
  revert s. induction n as [|n IH]; intros s Hs; [exact Hs|].
  cbn [poll]. rewrite state_of_bind.
  pose proof (reach_poll s Hs) as Hstep.
  destruct (DMMCMD_CheckForCommand s) as [u s1|s1]; cbn [state_of] in Hstep.
  - apply IH, Hstep.
  - exact Hstep.
Qed.

Lemma trace_set_ext (x : Ext World) (s : State) : trace (set_ext x s) = trace s.
Proof. reflexivity. Qed.

Lemma trace_log (e : Event) (s : State) : trace (log e s) = (trace s ++ [e])%list.
Proof. reflexivity. Qed.

Lemma trace_logs (l : list Event) (s : State) : trace (logs l s) = (trace s ++ l)%list.
Proof. reflexivity. Qed.

(** [Demo_UART_Dispatch] up to its loop. *)
Lemma Demo_run (n : nat) (s : State) :
  state_of (Demo_UART_Dispatch n s)
  = match DMMCMD_Init (set_ext (GPIO_Init (ext s)) s) with
    | Ok _ s' =>
        state_of
          (poll n
             (set_ext (XGpio_DiscreteSet GPIO_OUTPUT_CHANNEL 0
                         (ERRORS_Init "OK" "ERROR" (ext s')))
                (log (Ev_UART_PutString ("Command loop" ++ CRLF))
                   (set_ext (ERRORS_Init "OK" "ERROR" (ext s')) s'))))
    | Undef s' => s'
    end.
Proof.
  unfold Demo_UART_Dispatch, bind, startup, startup_call, UART_PutString, emit.
  destruct (DMMCMD_Init (set_ext (GPIO_Init (ext s)) s)); reflexivity.
Qed.

(** X19: the demo enters the poll loop in an initial state.  From the
    initialisers of the flags, [Demo_UART_Dispatch] is, after any number of
    turns of its loop, in a state of the command loop as [reachable]
    describes them; in particular the raw flag and the block flag are 0
    there.  Unless the initialisation gets stuck in the display routine,
    the first line on the serial line is "Command loop". *)
Theorem X19_demo_enters_the_loop_initialised (n : nat) (s : State)
    (Hinit : after_init s) :
  reachable (state_of (Demo_UART_Dispatch n s)) /\
  quiet (state_of (Demo_UART_Dispatch n s)) /\
  (value_of (DMMCMD_Init (set_ext (GPIO_Init (ext s)) s)) = None \/
   exists rest,
     uart_tx (trace (state_of (Demo_UART_Dispatch n s)))
     = (uart_tx (trace s) ++ ("Command loop" ++ CRLF)%string :: rest)%list).
Proof.
  assert (Hgoal : reachable (state_of (Demo_UART_Dispatch n s)) /\
                  (value_of (DMMCMD_Init (set_ext (GPIO_Init (ext s)) s)) = None \/
                   exists rest,
                     uart_tx (trace (state_of (Demo_UART_Dispatch n s)))
                     = (uart_tx (trace s)
                          ++ ("Command loop" ++ CRLF)%string :: rest)%list)).
  { rewrite Demo_run.
    destruct (Init_run (set_ext (GPIO_Init (ext s)) s)) as (disp & x & Hd & [H | H]);
      rewrite H; cbn [state_of value_of].
    - split.
      + apply reachable_poll. apply reach_init. exact Hinit.
      + right.
        match goal with
        | |- context [poll n ?st] => destruct (appends_any_poll n st) as (l & Hl & _)
        end.
        exists (uart_tx l).
        rewrite Hl, trace_set_ext, trace_log, trace_set_ext, trace_logs.
        repeat rewrite trace_set_ext. repeat rewrite uart_tx_app.
        rewrite (forallb_OLED_no_tx disp Hd). rewrite app_nil_r, <- app_assoc.
        reflexivity.
    - split; [|left; reflexivity]. apply reach_init. exact Hinit. }
  destruct Hgoal as [Hreach Htx].
  split; [exact Hreach|]. split; [apply reachable_quiet, Hreach | exact Htx].
Qed.

End Start.


(** * The further properties on the bench *)

Lemma X1_witness :
  In (mk_cmd "DMMConfig" CMD_Config) uartCommands /\
  DMMCMD_CmdDecode "  DMMConfig VoltageDC5" (Bench.start 0 [])
  = Ok CMD_Config
       (set_LastErr "" (set_strtok_ptr (Some "VoltageDC5") (Bench.start 0 []))).
Proof.
  assert (Hentry : In (mk_cmd "DMMConfig" CMD_Config) uartCommands) by (simpl; tauto).
  split; [exact Hentry|].
  destruct (X1_decode_recognised (mk_cmd "DMMConfig" CMD_Config) 2 "VoltageDC5"
              (Bench.start 0 []) Hentry) as (Hrun & _).
  exact Hrun.
Defined.

Lemma X4_witness :
  In (mk_cmd "DMMImportCalib" CMD_ImportCalib) uartCommands /\
  forallb arg_ok ["3"; "1.5"; "2.5"] = true /\
  (keyCmd <- DMMCMD_CmdDecode "DMMImportCalib 3,1.5,2.5" ;;
   l <- get_args 3 ;;
   extra <- DMMCMD_CmdGetNextArg ;;
   ret (keyCmd, l, extra)) (Bench.start 0 [])
  = Ok (CMD_ImportCalib, [Some "3"; Some "1.5"; Some "2.5"], None)
       (set_LastErr "" (set_strtok_ptr (Some "") (Bench.start 0 []))).
Proof.
  assert (Hentry : In (mk_cmd "DMMImportCalib" CMD_ImportCalib) uartCommands)
    by (simpl; tauto).
  split; [exact Hentry|]. split; [reflexivity|].
  exact (X4_arguments_round_trip (mk_cmd "DMMImportCalib" CMD_ImportCalib)
           ["3"; "1.5"; "2.5"] (Bench.start 0 []) Hentry eq_refl).
Defined.

Lemma X8_witness :
  (forall tok, first_token "Hello there" = Some tok -> ~ In tok command_names) /\
  exists s',
    decode_and_process "Hello there" (Bench.start 0 []) = Ok tt s' /\
    trace s' = [Ev_DelayAprox10Us 1000] /\
    LastErr (ext s') = "Unrecognized command:Hello".
Proof.
  assert (Hunknown : forall tok, first_token "Hello there" = Some tok ->
                                 ~ In tok command_names).
  { intros tok Htok. vm_compute in Htok. injection Htok as <-.
    simpl. intuition discriminate. }
  split; [exact Hunknown|].
  destruct (X8_unrecognized_line_gets_no_answer "Hello there" (Bench.start 0 []) Hunknown)
    as (s' & Hrun & Htrace & _ & _ & Herr).
  exists s'. split; [exact Hrun|]. split; [exact Htrace | exact Herr].
Defined.

Lemma X9_witness :
  0 < fst (fst (UART_GetString (ext Bench.session))) /\
  exists rest,
    trace (state_of (DMMCMD_CheckForCommand Bench.session))
    = ([] ++ [Ev_UART_GetString;
              Ev_UART_PutString
                ("Received command: "
                   ++ c_str (snd (fst (UART_GetString (ext Bench.session)))) ++ CRLF)%string]
          ++ rest)%list.
Proof.
  assert (Hline : 0 < fst (fst (UART_GetString (ext Bench.session))))
    by (vm_compute; reflexivity).
  split; [exact Hline|].
  exact (X9_cycle_echoes_first Bench.session Hline).
Defined.

Lemma X11_witness :
  DMMCMD_ProcessCmd CMD_MeasureStop (Bench.streaming 8 [])
  = Ok tt (state_of (DMMCMD_ProcessCmd CMD_MeasureStop (Bench.streaming 8 []))) /\
  (exists t,
      trace (state_of (DMMCMD_ProcessCmd CMD_MeasureStop (Bench.streaming 8 [])))
      = (t ++ [Ev_DelayAprox10Us 1000])%list) /\
  uart_tx (trace (state_of (DMMCMD_ProcessCmd CMD_MeasureStop (Bench.streaming 8 []))))
  = [szMsg (state_of (DMMCMD_ProcessCmd CMD_MeasureStop (Bench.streaming 8 [])))].
Proof.
  assert (Hrun : DMMCMD_ProcessCmd CMD_MeasureStop (Bench.streaming 8 [])
                 = Ok tt (state_of (DMMCMD_ProcessCmd CMD_MeasureStop
                                      (Bench.streaming 8 [])))).
  { apply value_of_Ok. vm_compute. reflexivity. }
  split; [exact Hrun|].
  exact (X11_one_answer_per_command CMD_MeasureStop (Bench.streaming 8 []) _ Hrun).
Defined.

Lemma X15_witness :
  In (@DMMCMD_CmdCalibP Bench.collaborators)
     [DMMCMD_CmdCalibP; DMMCMD_CmdCalibN;
      DMMCMD_CmdFinalizeCalibP; DMMCMD_CmdFinalizeCalibN] /\
  to_u8 (fst (DMM_InterpretValue (Some "abc") (dRefVal (Bench.start 0 []))
                (ext (Bench.start 0 [])))) <> ERRVAL_SUCCESS /\
  exists s',
    DMMCMD_CmdCalibP (Some "abc") (Bench.start 0 [])
    = Ok (to_u8 (fst (DMM_InterpretValue (Some "abc") (dRefVal (Bench.start 0 []))
                        (ext (Bench.start 0 []))))) s' /\
    trace s' = [Ev_UART_PutString (szMsg s')].
Proof.
  assert (Hhandler : In (@DMMCMD_CmdCalibP Bench.collaborators)
                        [DMMCMD_CmdCalibP; DMMCMD_CmdCalibN;
                         DMMCMD_CmdFinalizeCalibP; DMMCMD_CmdFinalizeCalibN])
    by (left; reflexivity).
  assert (Hrejected :
            to_u8 (fst (DMM_InterpretValue (Some "abc") (dRefVal (Bench.start 0 []))
                          (ext (Bench.start 0 [])))) <> ERRVAL_SUCCESS).
  { vm_compute. discriminate. }
  split; [exact Hhandler|]. split; [exact Hrejected|].
  destruct (X15_rejected_reference_runs_no_calibration DMMCMD_CmdCalibP (Some "abc")
              (Bench.start 0 []) Hhandler Hrejected)
    as (s' & Hrun & Htrace & _).
  exists s'. split; [exact Hrun | exact Htrace].
Defined.

Lemma X16_witness :
  forallb arg_ok ["3"; "1.5"; "2.5"] = true /\
  decode_and_process "DMMImportCalib 3,1.5,2.5" (Bench.start 0 [])
  = ((DMMCMD_CmdImportCalib (Some "3") (Some "1.5") (Some "2.5") ;; ret tt) ;;
     emit (Ev_DelayAprox10Us 1000))
      (set_LastErr "" (set_strtok_ptr (Some "") (Bench.start 0 []))).
Proof.
  split; [reflexivity|].
  exact (X16_import_arguments_in_evaluation_order ["3"; "1.5"; "2.5"]
           (Bench.start 0 []) eq_refl).
Defined.

Lemma X17_witness :
  forallb arg_ok ["3"; "1.5"] = true /\
  (length ["3"; "1.5"] < 3)%nat /\
  exists s',
    decode_and_process "DMMImportCalib 3,1.5" (Bench.start 0 []) = Ok tt s' /\
    trace s' = [Ev_UART_PutString (szMsg s'); Ev_DelayAprox10Us 1000].
Proof.
  assert (Hfew : (length ["3"; "1.5"] < 3)%nat) by (simpl; lia).
  split; [reflexivity|]. split; [exact Hfew|].
  destruct (X17_import_needs_three_arguments ["3"; "1.5"] (Bench.start 0 [])
              eq_refl Hfew) as (s' & Hrun & Htrace & _).
  exists s'. split; [exact Hrun | exact Htrace].
Defined.

Lemma X19_witness :
  after_init (Bench.start 0 []) /\
  reachable (state_of (Demo_UART_Dispatch (St := BenchStartup.startup) 2 (Bench.start 0 []))) /\
  quiet (state_of (Demo_UART_Dispatch (St := BenchStartup.startup) 2 (Bench.start 0 []))).
Proof.
  assert (Hinit : after_init (Bench.start 0 [])) by reflexivity.
  split; [exact Hinit|].
  destruct (X19_demo_enters_the_loop_initialised (St := BenchStartup.startup) 2
              (Bench.start 0 []) Hinit)
    as (Hreach & Hquiet & _).
  split; [exact Hreach | exact Hquiet].
Defined.
